(** * Map making for IACT observations: [gammapy/cube/make.py]

    A shallow embedding of the map-making pipeline ([MapMakerObs],
    [MapMaker], [MapMakerRing] and [_check_selection]) together with the
    properties of its stacking, masking and validation behaviour.

    Conventions of the embedding:
    - Python exceptions are values of [exn]; a computation that may raise
      returns [res A].
    - A map's [numpy] array is a list of image planes (one per bin of the
      non-spatial axes), each plane the list of its spatial pixels.
    - Pixel values are exact numbers ([Z]); floating point rounding is not
      part of the model.  The theorems on stacked values are stated so that
      they do not rest on it: they give the additions in the order the code
      makes them, or values that sums of floating point numbers give
      exactly as well (a sum with zero, a number added to itself).
    - Angles are rationals ([Q]); [Angle(x)] of a value that is not yet an
      angle is left to [astropy] ([to_angle]) and may raise.
    - [log.info] calls are kept as a list of [log_record]s. *)

From Stdlib Require Import ZArith QArith Qround.
From stdpp Require Import gmap strings list fin_maps.

Local Open Scope Z_scope.
Local Open Scope string_scope.
Local Open Scope list_scope.

(** ** Python values and exceptions *)

(** The Python objects that can reach the validated arguments, and the
    exceptions.  [PyObject] is an instance of some other class, named by
    its class, together with what its truth test ([__bool__] or [__len__])
    does: it gives a truth value or raises (as the test of a [numpy] array
    of more than one element does); an instance of a class without such a
    method is [TruthIs true].  [ValueError fmt args] stands for
    [ValueError(fmt.format( *args))]; [UnitsError] stands for the class of
    [astropy.units] and its subclasses other than [UnitConversionError]. *)
#[warnings="-register-all"]
Inductive pyobj : Type :=
| PyNone
| PyBool (b : bool)
| PyInt (z : Z)
| PyStr (s : string)
| PyList (l : list pyobj)
| PyTuple (l : list pyobj)
| PyObject (cls : string) (truth : truth_test)
with truth_test : Type :=
| TruthIs (b : bool)
| TruthRaises (e : exn)
with exn : Type :=
| TypeError (msg : string)
| ValueError (fmt : string) (args : list pyobj)
| AttributeError (msg : string)
| KeyError (key : string)
| UnitsError (msg : string)
| UnitConversionError (from to : string)
| NoOverlapError
| PartialOverlapError.

Inductive res (A : Type) : Type :=
| Ok (a : A)
| Raise (e : exn).
Arguments Ok {A} a.
Arguments Raise {A} e.

#[export] Instance res_ret : MRet res := fun A a => Ok a.
#[export] Instance res_bind : MBind res := fun A B f r =>
  match r with
  | Ok a => f a
  | Raise e => Raise e
  end.

Ltac res_simpl := cbn [mbind res_bind mret res_ret fst snd].

(** Truth value of an object, as [if x] / [x if x else y] tests it; the
    test of an instance of another class may raise. *)
Definition truthy (o : pyobj) : res bool :=
  match o with
  | PyNone => Ok false
  | PyBool b => Ok b
  | PyInt z => Ok (negb (Z.eqb z 0))
  | PyStr s => Ok (negb (String.eqb s ""))
  | PyList l | PyTuple l => Ok (match l with [] => false | _ => true end)
  | PyObject _ (TruthIs b) => Ok b
  | PyObject _ (TruthRaises e) => Raise e
  end.

(** Whether a computation returns, as a test that can be run. *)
Definition returns {A} (r : res A) : bool :=
  match r with
  | Ok _ => true
  | Raise _ => false
  end.

(** A [for] loop whose body may raise: the state is threaded through the
    elements in order and the first exception ends the loop. *)
Fixpoint for_each {A S : Type} (body : S → A → res S) (l : list A) (s : S) : res S :=
  match l with
  | [] => Ok s
  | x :: l' => s' ← body s x; for_each body l' s'
  end.

(** Records written by [log.info]. *)
Inductive log_record : Type :=
| LogProcessing (obs_id : Z)
| LogSkipNoOverlap (obs_id : Z)
| LogSkipPartialOverlap (obs_id : Z).

(** ** The geometry service *)

(** Result of cutting a window out of a spatial grid: the window misses the
    grid, overlaps it in part (then [trimmed] is the window clipped to the
    grid), or lies inside it. *)
Inductive Overlap (W : Type) : Type :=
| Disjoint
| Partial (trimmed : W)
| Contained (cut : W).
Arguments Disjoint {W}.
Arguments Partial {W} trimmed.
Arguments Contained {W} cut.

Inductive cutout_mode : Type := trim | strict.

(** What the pipeline consumes from [astropy] and [gammapy.maps]: sky
    positions, the spatial part of a WCS geometry, and the per-observation
    data it only passes on. *)
Class Geometry : Type := {
  SkyCoord : Type;
  Wcs : Type;
  EventList : Type;
  EffectiveArea : Type;
  Background : Type;
  PointingInfo : Type;
  Duration : Type;
  SpectralModel : Type;
  Estimator : Type;
  (** [Angle(x)] for an object [x] that is not an angle already: the angle
      it denotes (a string such as "2 deg"), or the exception raised (a
      number without unit) *)
  to_angle : pyobj → res Q;
  (** [a.separation(b)], an angle *)
  separation : SkyCoord → SkyCoord → Q;
  (** the sky position of each spatial pixel, in array order *)
  pix_skycoord : Wcs → list SkyCoord;
  (** the pixel a sky position falls in, if any *)
  skycoord_to_pix : Wcs → SkyCoord → option nat;
  (** the coordinate of the bin between two edges of an axis *)
  axis_center : Q → Q → Q;
  (** the bin of an axis (given by its edges) a coordinate falls in *)
  axis_coord_to_idx : list Q → Q → option nat;
  (** the window of a given centre and width cut out of a grid *)
  wcs_cutout : Wcs → SkyCoord → Q → Overlap Wcs;
  (** the parent pixel under each pixel of a cutout *)
  cutout_parent_pix : Wcs → Wcs → nat → option nat;
}.

(** ** Map axes and WCS geometries *)

Module MapAxis.
Section defs.
Context `{Geometry}.

Record t : Type := {
  name : string;
  edges : list Q;
}.

Definition nbin (a : t) : nat := pred (length (edges a)).

Definition center (a : t) : list Q :=
  zip_with axis_center (edges a) (tail (edges a)).

Definition coord_to_idx (a : t) (c : Q) : option nat :=
  axis_coord_to_idx (edges a) c.

(** Modelled from the spec: [MapAxis.squash] of [gammapy.maps], the axis
    kept with a single bin that spans it. *)
Definition squash (a : t) : t :=
  match edges a with
  | [] => a
  | lo :: rest => {| name := name a; edges := [lo; List.last rest lo] |}
  end.

End defs.
End MapAxis.

(** A coordinate of a map element: its sky position and one coordinate per
    non-spatial axis. *)
Record MapCoord `{Geometry} : Type := {
  skycoord : SkyCoord;
  axes_coord : list Q;
}.

Module WcsGeom.
Section defs.
Context `{Geometry}.

(** Modelled from the spec: the geometry abstraction of [gammapy.maps], a
    spatial grid plus zero or more extra axes. *)
Record t : Type := {
  wcs : Wcs;
  axes : list MapAxis.t;
}.

(** Modelled from the spec: [geom.is_image] of [gammapy.maps]; an image
    geometry carries no extra axis. *)
Definition is_image (g : t) : bool :=
  match axes g with [] => true | _ => false end.

(** The bins of the extra axes, one tuple of bin numbers per image plane. *)
Fixpoint planes_idx (axs : list MapAxis.t) : list (list nat) :=
  match axs with
  | [] => [[]]
  | a :: axs' =>
      i ← seq 0 (MapAxis.nbin a); (i ::.) <$> planes_idx axs'
  end.

(** The coordinates of the extra axes, one tuple per image plane. *)
Fixpoint planes_coord (axs : list MapAxis.t) : list (list Q) :=
  match axs with
  | [] => [[]]
  | a :: axs' =>
      c ← MapAxis.center a; (c ::.) <$> planes_coord axs'
  end.

Definition nplanes (g : t) : nat := length (planes_coord (axes g)).
Definition npix (g : t) : nat := length (pix_skycoord (wcs g)).

(** Modelled from the spec: [geom.get_coord()] of the geometry service,
    the coordinate of every element of the data array. *)
Definition get_coord (g : t) : list (list MapCoord) :=
  (λ e, (λ s, {| skycoord := s; axes_coord := e |}) <$> pix_skycoord (wcs g))
    <$> planes_coord (axes g).

(** Modelled from the spec: [geom.coord_to_idx(coord)] of the geometry
    service, the array element a coordinate falls in. *)
Definition coord_to_idx (g : t) (c : MapCoord) : option (nat * nat) :=
  p ← skycoord_to_pix (wcs g) (skycoord c);
  if bool_decide (length (axes_coord c) = length (axes g)) then
    idx ← mapM (λ ac, MapAxis.coord_to_idx ac.1 ac.2) (zip (axes g) (axes_coord c));
    e ← fst <$> list_find (λ t, t = idx) (planes_idx (axes g));
    Some (e, p)
  else None.

(** Modelled from the spec: [geom.to_image()] and the geometry with every
    extra axis squashed, which [sum_over_axes] builds. *)
Definition to_image (g : t) : t := {| wcs := wcs g; axes := [] |}.

Definition squash_axes (g : t) : t :=
  {| wcs := wcs g; axes := MapAxis.squash <$> axes g |}.

(** Modelled from the spec: [geom.cutout(position, width, mode)] of the
    geometry service.  It raises the no-overlap signal when the window and
    the grid are disjoint, and the partial-overlap signal when the mode is
    strict and the overlap is incomplete; in trim mode a partial overlap is
    clipped. *)
Definition cutout (g : t) (position : SkyCoord) (width : Q) (mode : cutout_mode) : res t :=
  match wcs_cutout (wcs g) position width with
  | Disjoint => Raise NoOverlapError
  | Partial w =>
      match mode with
      | strict => Raise PartialOverlapError
      | trim => Ok {| wcs := w; axes := axes g |}
      end
  | Contained w => Ok {| wcs := w; axes := axes g |}
  end.

End defs.
End WcsGeom.

(** ** Maps *)

Module Map.
Section defs.
Context `{Geometry}.

(** A data array bound to a geometry, with a physical unit. *)
Record t : Type := {
  geom : WcsGeom.t;
  unit : string;
  data : list (list Z);
}.

(** The array of the shape of [g] whose element [(e, p)] is [f e p]. *)
Definition tabulate (g : WcsGeom.t) (f : nat → nat → Z) : list (list Z) :=
  (λ e, f e <$> seq 0 (WcsGeom.npix g)) <$> seq 0 (WcsGeom.nplanes g).

(** Modelled from the spec: [Map.from_geom(geom, unit=u)] of the map
    service, a zero-filled map. *)
Definition from_geom (g : WcsGeom.t) (u : string) : t :=
  {| geom := g; unit := u; data := tabulate g (λ _ _, 0) |}.

Definition add_at (d : list (list Z)) (idx : nat * nat) (v : Z) : list (list Z) :=
  alter (alter (λ x, x + v) idx.2) idx.1 d.

Definition fill_one (g : WcsGeom.t) (d : list (list Z)) (cv : MapCoord * Z) : list (list Z) :=
  match WcsGeom.coord_to_idx g cv.1 with
  | Some idx => add_at d idx cv.2
  | None => d
  end.

(** Modelled from the spec: [map.fill_by_coord(coords, weights)] of the map
    service, additive accumulation by coordinate.  Each value is added to
    the element its coordinate falls in; a coordinate outside the geometry
    adds nothing. *)
Definition fill_by_coord (m : t) (coords : list (list MapCoord)) (weights : list (list Z)) : t :=
  {| geom := geom m; unit := unit m;
     data := foldl (fill_one (geom m)) (data m) (zip (concat coords) (concat weights)) |}.

Definition sum_planes (n : nat) (planes : list (list Z)) : list Z :=
  foldr (zip_with Z.add) (replicate n 0) planes.

(** Modelled from the spec: [map.sum_over_axes(keepdims)] of the map
    service.  The planes are summed into one image; with [keepdims] every
    extra axis is kept with a single bin, otherwise the axes are dropped. *)
Definition sum_over_axes (m : t) (keepdims : bool) : t :=
  {| geom := if keepdims then WcsGeom.squash_axes (geom m) else WcsGeom.to_image (geom m);
     unit := unit m;
     data := [sum_planes (WcsGeom.npix (geom m)) (data m)] |}.

(** Modelled from the spec: [map.slice_by_idx({axis: i})] of the map
    service: the planes at bin [i] of the named axis, which is dropped. *)
Definition slice_by_idx (m : t) (axis : string) (i : nat) : t :=
  let axs := WcsGeom.axes (geom m) in
  let at_bin (tp : list nat) :=
    forallb (λ an : MapAxis.t * nat,
               if String.eqb (MapAxis.name an.1) axis then Nat.eqb an.2 i else true)
            (zip axs tp) in
  {| geom := {| WcsGeom.wcs := WcsGeom.wcs (geom m);
                WcsGeom.axes := filter (λ a, MapAxis.name a ≠ axis) axs |};
     unit := unit m;
     data := snd <$> filter (λ tp : list nat * list Z, at_bin tp.1 = true)
                            (zip (WcsGeom.planes_idx axs) (data m)) |}.

(** Modelled from the spec: [map.get_image_by_idx(idx)]: the image plane at
    the given bins of the extra axes. *)
Definition get_image_by_idx (m : t) (idx : list nat) : t :=
  {| geom := WcsGeom.to_image (geom m);
     unit := unit m;
     data := snd <$> filter (λ tp : list nat * list Z, tp.1 = idx)
                            (zip (WcsGeom.planes_idx (WcsGeom.axes (geom m))) (data m)) |}.

(** Modelled from the spec: [map.cutout(position, width, mode)]: the map
    restricted to the cutout of its geometry. *)
Definition cutout (m : t) (position : SkyCoord) (width : Q) (mode : cutout_mode) : res t :=
  g ← WcsGeom.cutout (geom m) position width mode;
  Ok {| geom := g; unit := unit m;
        data := tabulate g (λ e p,
          default 0 (q ← cutout_parent_pix (WcsGeom.wcs (geom m)) (WcsGeom.wcs g) p;
                     row ← data m !! e; row !! q)) |}.

End defs.
End Map.

(** ** Observations and the IRF services *)

(** The per-exposure record the pipeline reads; it is never modified. *)
Record Observation `{Geometry} : Type := {
  obs_id : Z;
  pointing_radec : SkyCoord;
  events : EventList;
  observation_live_time_duration : Duration;
  observation_time_duration : Duration;
  aeff : EffectiveArea;
  fixed_pointing_info : PointingInfo;
  bkg : Background;
}.

(** What the pipeline consumes from [gammapy.cube], [gammapy.background] and
    [astropy.units]. The array valued services give the value of each
    element of the geometry they are asked for. *)
Class Services `{Geometry} : Type := {
  (** number of events of a list falling in each element *)
  binned_events : EventList → WcsGeom.t → nat → nat → Z;
  (** unit and values of the exposure in true energy *)
  exposure_true_energy : SkyCoord → Duration → EffectiveArea → WcsGeom.t → string * (nat → nat → Z);
  (** unit and values of the background predicted from the IRF *)
  background_irf : PointingInfo → Duration → Background → WcsGeom.t → string * (nat → nat → Z);
  (** the weighting of the values of an energy bin by a spectral model
      ([None]: power law of index 2) *)
  spectrum_weight : option SpectralModel → WcsGeom.t → nat → Z → Z;
  (** the conversion of a value between two units, if they are compatible *)
  unit_to_value : string → string → option (Z → Z);
  (** [background_estimator.run(maps)] *)
  estimator_run : Estimator → gmap string (option Map.t) → res (gmap string (option Map.t));
}.

Section services.
Context `{Services}.

(** Modelled from the spec: [fill_map_counts(counts, events)], the event
    binning function; it adds the events to the map in place. *)
Definition fill_map_counts (counts : Map.t) (ev : EventList) : Map.t :=
  {| Map.geom := Map.geom counts; Map.unit := Map.unit counts;
     Map.data := imap (λ e row, imap (λ p v, v + binned_events ev (Map.geom counts) e p) row)
                      (Map.data counts) |}.

(** Modelled from the spec: the IRF functions [make_map_exposure_true_energy]
    and [make_map_background_irf], which return a map on the geometry they
    are given. *)
Definition make_map_exposure_true_energy (pointing : SkyCoord) (livetime : Duration)
    (aeff : EffectiveArea) (geom : WcsGeom.t) : Map.t :=
  let r := exposure_true_energy pointing livetime aeff geom in
  {| Map.geom := geom; Map.unit := r.1; Map.data := Map.tabulate geom r.2 |}.

Definition make_map_background_irf (pointing : PointingInfo) (ontime : Duration)
    (bkg : Background) (geom : WcsGeom.t) : Map.t :=
  let r := background_irf pointing ontime bkg geom in
  {| Map.geom := geom; Map.unit := r.1; Map.data := Map.tabulate geom r.2 |}.

(** Modelled from the spec: [_map_spectrum_weight], the spectral weighting
    function; it reweights the values of each energy bin. *)
Definition _map_spectrum_weight (m : Map.t) (spectrum : option SpectralModel) : Map.t :=
  {| Map.geom := Map.geom m; Map.unit := Map.unit m;
     Map.data := imap (λ e row, spectrum_weight spectrum (Map.geom m) e <$> row) (Map.data m) |}.

(** [map.quantity.to_value(unit)] *)
Definition quantity_to_value (m : Map.t) (u : string) : res (list (list Z)) :=
  match unit_to_value (Map.unit m) u with
  | Some conv => Ok (List.map (List.map conv) (Map.data m))
  | None => Raise (UnitConversionError (Map.unit m) u)
  end.

End services.

(** [d[k]] on a dictionary. *)
Definition getitem {V : Type} (d : gmap string V) (k : string) : res V :=
  match d !! k with
  | Some v => Ok v
  | None => Raise (KeyError k)
  end.

(** ** Selection validation *)

Definition available : list string := ["counts"; "exposure"; "background"].

Definition is_available (o : pyobj) : bool :=
  match o with
  | PyStr s => bool_decide (s ∈ available)
  | _ => false
  end.

Definition str_of (o : pyobj) : option string :=
  match o with
  | PyStr s => Some s
  | _ => None
  end.

(** [_check_selection]: handle default and validation of selection. The
    validated list is returned as the list of its names. *)
Definition _check_selection (selection : pyobj) : res (list string) :=
  let selection :=
    match selection with
    | PyNone => PyList (PyStr <$> available)
    | _ => selection
    end in
  match selection with
  | PyList l =>
      match find (λ name, negb (is_available name)) l with
      | Some name => Raise (ValueError "Selection not available: {!r}" [name])
      | None => Ok (omap str_of l)
      end
  | _ => Raise (TypeError "Selection must be a list of str")
  end.

(** ** [MapMakerObs]: maps for a single observation *)

Module MapMakerObs.
Section defs.
Context `{Services}.

Record t : Type := {
  observation : Observation;
  geom : WcsGeom.t;
  geom_true : WcsGeom.t;
  offset_max : Q;
  exclusion_mask : option Map.t;
  maps : gmap string Map.t;
}.

Definition __init__ (observation : Observation) (geom : WcsGeom.t) (offset_max : Q)
    (geom_true : option WcsGeom.t) (exclusion_mask : option Map.t) : t :=
  {| observation := observation;
     geom := geom;
     geom_true := default geom geom_true;
     offset_max := offset_max;
     exclusion_mask := exclusion_mask;
     maps := ∅ |}.

Definition set_map (self : t) (name : string) (m : Map.t) : t :=
  {| observation := observation self;
     geom := geom self;
     geom_true := geom_true self;
     offset_max := offset_max self;
     exclusion_mask := exclusion_mask self;
     maps := <[name := m]> (maps self) |}.

Definition _fov_mask (self : t) (coords : list (list MapCoord)) : list (list bool) :=
  let pointing := pointing_radec (observation self) in
  List.map (List.map (λ c,
    let offset := separation (skycoord c) pointing in
    Qle_bool (offset_max self) offset)) coords.

Definition coords (self : t) : list (list MapCoord) := WcsGeom.get_coord (geom self).
Definition coords_etrue (self : t) : list (list MapCoord) := WcsGeom.get_coord (geom_true self).
Definition fov_mask (self : t) : list (list bool) := _fov_mask self (coords self).
Definition fov_mask_etrue (self : t) : list (list bool) := _fov_mask self (coords_etrue self).

(** [m.data[..., mask] = 0].  The masks are arrays, never [None], so the
    test [if self.fov_mask is not None] of the source always holds. *)
Definition mask_zero (m : Map.t) (mask : list (list bool)) : Map.t :=
  {| Map.geom := Map.geom m; Map.unit := Map.unit m;
     Map.data := zip_with (zip_with (λ v (b : bool), if b then 0 else v)) (Map.data m) mask |}.

Definition _make_counts (self : t) : t :=
  let counts := Map.from_geom (geom self) "" in
  let counts := fill_map_counts counts (events (observation self)) in
  let counts := mask_zero counts (fov_mask self) in
  set_map self "counts" counts.

Definition _make_exposure (self : t) : t :=
  let exposure := make_map_exposure_true_energy
    (pointing_radec (observation self))
    (observation_live_time_duration (observation self))
    (aeff (observation self))
    (geom_true self) in
  let exposure := mask_zero exposure (fov_mask_etrue self) in
  set_map self "exposure" exposure.

Definition _make_background (self : t) : t :=
  let background := make_map_background_irf
    (fixed_pointing_info (observation self))
    (observation_time_duration (observation self))
    (bkg (observation self))
    (geom self) in
  let background := mask_zero background (fov_mask self) in
  set_map self "background" background.

(** [getattr(self, "_make_" + name)()] *)
Definition _make (self : t) (name : string) : res t :=
  if String.eqb name "counts" then Ok (_make_counts self)
  else if String.eqb name "exposure" then Ok (_make_exposure self)
  else if String.eqb name "background" then Ok (_make_background self)
  else Raise (AttributeError ("_make_" ++ name)).

(** [run] returns [self.maps]; the maker itself is returned too, since the
    caller goes on reading it. *)
Definition run (self : t) (selection : pyobj) : res (gmap string Map.t * t) :=
  selection ← _check_selection selection;
  self ← for_each _make selection self;
  Ok (maps self, self).

End defs.
End MapMakerObs.

(** ** [MapMaker]: stacked maps of a list of observations *)

(** A geometry argument as the constructor receives it: an instance of
    [WcsGeom], or any other object. *)
Inductive geom_arg `{Geometry} : Type :=
| IsWcsGeom (g : WcsGeom.t)
| NotWcsGeom (o : pyobj).

(** A maximum offset as the constructor receives it: an angle (an [Angle]
    or a quantity with an angular unit), or any other object. *)
Inductive offset_arg : Type :=
| IsAngle (a : Q)
| NotAngle (o : pyobj).

(** [Angle(x)] of [astropy.coordinates]: an angle is kept as it is; any
    other object is converted, which may raise. *)
Definition Angle `{Geometry} (x : offset_arg) : res Q :=
  match x with
  | IsAngle a => Ok a
  | NotAngle o => to_angle o
  end.

Module MapMaker.
Section defs.
Context `{Services}.

Record t : Type := {
  geom : WcsGeom.t;
  geom_true : geom_arg;
  offset_max : Q;
  exclusion_mask : option Map.t;
  _maps : option (gmap string Map.t);
}.

(** The truth test of a geometry argument; an instance of [WcsGeom] is
    truthy. *)
Definition arg_truthy (a : geom_arg) : res bool :=
  match a with
  | IsWcsGeom _ => Ok true
  | NotWcsGeom o => truthy o
  end.

(** The constructor: the two checks of the reference geometry, then the
    truth test of [geom_true], then [Angle(offset_max)]. *)
Definition __init__ (geom : geom_arg) (offset_max : offset_arg) (geom_true : geom_arg)
    (exclusion_mask : option Map.t) : res t :=
  match geom with
  | NotWcsGeom _ => Raise (ValueError "MapMaker only works with WcsGeom" [])
  | IsWcsGeom g =>
      if WcsGeom.is_image g then
        Raise (ValueError "MapMaker only works with geom with an energy axis" [])
      else
        given ← arg_truthy geom_true;
        offset_max ← Angle offset_max;
        Ok {| geom := g;
              geom_true := if given : bool then geom_true else geom;
              offset_max := offset_max;
              exclusion_mask := exclusion_mask;
              _maps := None |}
  end.

Definition set_maps (self : t) (maps : gmap string Map.t) : t :=
  {| geom := geom self;
     geom_true := geom_true self;
     offset_max := offset_max self;
     exclusion_mask := exclusion_mask self;
     _maps := Some maps |}.

(** Use of [self.geom_true] as a geometry. *)
Definition as_geom (a : geom_arg) : res WcsGeom.t :=
  match a with
  | IsWcsGeom g => Ok g
  | NotWcsGeom _ => Raise (AttributeError "geom_true is not a geometry")
  end.

Definition _get_empty_maps (self : t) (selection : list string) : res (gmap string Map.t) :=
  for_each (λ (maps : gmap string Map.t) name,
    if String.eqb name "exposure" then
      g ← as_geom (geom_true self);
      Ok (<[name := Map.from_geom g "m2 s"]> maps)
    else
      Ok (<[name := Map.from_geom (geom self) ""]> maps))
    selection ∅.

Definition _get_obs_maker (self : t) (obs : Observation) (mode : cutout_mode) : res MapMakerObs.t :=
  let position := pointing_radec obs in
  let width := (2 * offset_max self)%Q in
  cutout_geom ← WcsGeom.cutout (geom self) position width mode;
  geom_true ← as_geom (geom_true self);
  cutout_geom_etrue ← WcsGeom.cutout geom_true position width mode;
  cutout_exclusion ←
    match exclusion_mask self with
    | Some mask => m ← Map.cutout mask position width mode; Ok (Some m)
    | None => Ok None
    end;
  Ok (MapMakerObs.__init__ obs cutout_geom (offset_max self)
        (Some cutout_geom_etrue) cutout_exclusion).

(** The body of the inner loop of [run]: one product of one observation is
    added to the stacked map of its name. *)
Definition stack (maps_obs : gmap string Map.t) (obs_maker : MapMakerObs.t)
    (maps : gmap string Map.t) (name : string) : res (gmap string Map.t) :=
  map_obs ← getitem maps_obs name;
  m ← getitem maps name;
  data ← quantity_to_value map_obs (Map.unit m);
  if String.eqb name "exposure" then
    Ok (<[name := Map.fill_by_coord m (MapMakerObs.coords_etrue obs_maker) data]> maps)
  else
    Ok (<[name := Map.fill_by_coord m (MapMakerObs.coords obs_maker) data]> maps).

(** The body of the loop of [run] over the observations; the state is the
    stacked maps and the log. *)
Definition run_obs (self : t) (selection : list string)
    (st : gmap string Map.t * list log_record) (obs : Observation)
    : res (gmap string Map.t * list log_record) :=
  let log := st.2 ++ [LogProcessing (obs_id obs)] in
  match _get_obs_maker self obs trim with
  | Raise NoOverlapError => Ok (st.1, log ++ [LogSkipNoOverlap (obs_id obs)])
  | Raise e => Raise e
  | Ok obs_maker =>
      r ← MapMakerObs.run obs_maker (PyList (PyStr <$> selection));
      maps ← for_each (stack r.1 r.2) selection st.1;
      Ok (maps, log)
  end.

(** [run] returns the stacked maps; the maker with its stored maps and the
    records logged are returned with them. *)
Definition run (self : t) (observations : list Observation) (selection : pyobj)
    : res (gmap string Map.t * t * list log_record) :=
  selection ← _check_selection selection;
  maps ← _get_empty_maps self selection;
  st ← for_each (run_obs self selection) observations (maps, []);
  Ok (st.1, set_maps self st.1, st.2).

Definition sum_entry (spectrum : option SpectralModel) (keepdims : bool)
    (name : string) (m : Map.t) : Map.t :=
  let m := if String.eqb name "exposure" then _map_spectrum_weight m spectrum else m in
  let m := if String.eqb name "exclusion" then Map.slice_by_idx m "energy" 0 else m in
  Map.sum_over_axes m keepdims.

(** Compute weighted sum over map axes. *)
Definition _maps_sum_over_axes (maps : gmap string Map.t) (spectrum : option SpectralModel)
    (keepdims : bool) : gmap string Map.t :=
  map_imap (λ name m, Some (sum_entry spectrum keepdims name m)) maps.

Definition run_images (self : t) (observations : option (list Observation))
    (spectrum : option SpectralModel) (keepdims : bool)
    : res (gmap string Map.t * t * list log_record) :=
  r ← match _maps self with
      | None =>
          match observations with
          | None => Raise (ValueError "Requires observations..." [])
          | Some observations =>
              r ← run self observations PyNone;
              Ok (r.1.2, r.2)
          end
      | Some _ => Ok (self, [])
      end;
  maps ← match _maps r.1 with
         | Some maps => Ok maps
         | None => Raise (AttributeError "_maps")
         end;
  Ok (_maps_sum_over_axes maps spectrum keepdims, r.1, r.2).

End defs.
End MapMaker.

(** ** [MapMakerRing]: on and off maps for ring background analysis *)

Module MapMakerRing.
Section defs.
Context `{Services}.

(** The maker extends [MapMaker]: [base] holds the inherited attributes. *)
Record t : Type := {
  base : MapMaker.t;
  background_estimator : option Estimator;
}.

Definition __init__ (geom : geom_arg) (offset_max : offset_arg)
    (exclusion_mask : option Map.t) (background_estimator : option Estimator) : res t :=
  b ← MapMaker.__init__ geom offset_max (NotWcsGeom PyNone) exclusion_mask;
  Ok {| base := b; background_estimator := background_estimator |}.

Definition selection : list string := ["on"; "exposure_on"; "off"; "exposure_off"].

(** Use of a dictionary value as a map: the value may be [None]. *)
Definition as_map (v : option Map.t) : res Map.t :=
  match v with
  | Some m => Ok m
  | None => Raise (AttributeError "'NoneType' object is not a map")
  end.

(** [_maps_sum_over_axes] on a dictionary whose values may be [None]. *)
Definition sum_over_axes_dict (maps : gmap string (option Map.t))
    (spectrum : option SpectralModel) (keepdims : bool) : res (gmap string (option Map.t)) :=
  if bool_decide (map_Forall (λ _ v, is_Some v) maps) then
    Ok (Some <$> MapMaker._maps_sum_over_axes (omap id maps) spectrum keepdims)
  else Raise (AttributeError "'NoneType' object is not a map").

(** The body of the inner loop of [_run]. *)
Definition stack (maps_obs : gmap string (option Map.t))
    (maps : gmap string Map.t) (name : string) : res (gmap string Map.t) :=
  v ← getitem maps_obs name;
  map_obs ← as_map v;
  m ← getitem maps name;
  data ← quantity_to_value map_obs (Map.unit m);
  Ok (<[name := Map.fill_by_coord m (WcsGeom.get_coord (Map.geom map_obs)) data]> maps).

(** The body of the loop of [_run] over the observations. *)
Definition run_obs (self : t) (sum_over_axis : bool) (spectrum : option SpectralModel)
    (keepdims : bool) (st : gmap string Map.t * list log_record) (obs : Observation)
    : res (gmap string Map.t * list log_record) :=
  match MapMaker._get_obs_maker (base self) obs strict with
  | Raise NoOverlapError => Ok (st.1, st.2 ++ [LogSkipNoOverlap (obs_id obs)])
  | Raise PartialOverlapError => Ok (st.1, st.2 ++ [LogSkipPartialOverlap (obs_id obs)])
  | Raise e => Raise e
  | Ok obs_maker =>
      r ← MapMakerObs.run obs_maker PyNone;
      let obs_maker := r.2 in
      let maps_obs : gmap string (option Map.t) :=
        <["exclusion" := MapMakerObs.exclusion_mask obs_maker]> (Some <$> r.1) in
      maps_obs ←
        (if sum_over_axis then
           images ← sum_over_axes_dict maps_obs spectrum keepdims;
           mask ← as_map (MapMakerObs.exclusion_mask obs_maker);
           Ok (<["exclusion" := Some (Map.get_image_by_idx mask [0%nat])]> images)
         else Ok maps_obs);
      estimator ←
        match background_estimator self with
        | Some e => Ok e
        | None => Raise (AttributeError "'NoneType' object has no attribute 'run'")
        end;
      maps_obs_bkg ← estimator_run estimator maps_obs;
      let maps_obs := maps_obs_bkg ∪ maps_obs in
      background ← getitem maps_obs "background";
      let maps_obs := <["exposure_on" := background]> (delete "background" maps_obs) in
      counts ← getitem maps_obs "counts";
      let maps_obs := <["on" := counts]> (delete "counts" maps_obs) in
      maps ← for_each (stack maps_obs) selection st.1;
      Ok (maps, st.2)
  end.

Definition _run (self : t) (observations : list Observation) (sum_over_axis : bool)
    (spectrum : option SpectralModel) (keepdims : bool)
    : res (gmap string Map.t * t * list log_record) :=
  maps ← MapMaker._get_empty_maps (base self) selection;
  let maps :=
    if sum_over_axis then MapMaker._maps_sum_over_axes maps spectrum keepdims else maps in
  st ← for_each (run_obs self sum_over_axis spectrum keepdims) observations (maps, []);
  Ok (st.1,
      {| base := MapMaker.set_maps (base self) st.1;
         background_estimator := background_estimator self |},
      st.2).

Definition run_images (self : t) (observations : list Observation)
    (spectrum : option SpectralModel) (keepdims : bool)
    : res (gmap string Map.t * t * list log_record) :=
  _run self observations true spectrum keepdims.

Definition run (self : t) (observations : list Observation)
    : res (gmap string Map.t * t * list log_record) :=
  _run self observations false None false.

End defs.
End MapMakerRing.

(** ** Notions used to state the properties *)

Section derived.
Context `{Services}.

(** The value of an element of a map, if the element exists. *)
Definition pixel (m : Map.t) (e p : nat) : option Z :=
  row ← Map.data m !! e; row !! p.

(** The sum of two maps, element by element, on the geometry of the first. *)
Definition map_add (m x : Map.t) : Map.t :=
  {| Map.geom := Map.geom m; Map.unit := Map.unit m;
     Map.data := zip_with (zip_with Z.add) (Map.data m) (Map.data x) |}.

(** A map with every value multiplied by [k]. *)
Definition map_scale (k : Z) (m : Map.t) : Map.t :=
  {| Map.geom := Map.geom m; Map.unit := Map.unit m;
     Map.data := List.map (List.map (Z.mul k)) (Map.data m) |}.

(** The map [_make_<name>] stores for an available name. *)
Definition obs_product (self : MapMakerObs.t) (name : string) : Map.t :=
  if String.eqb name "counts" then
    MapMakerObs.mask_zero
      (fill_map_counts (Map.from_geom (MapMakerObs.geom self) "")
         (events (MapMakerObs.observation self)))
      (MapMakerObs.fov_mask self)
  else if String.eqb name "exposure" then
    MapMakerObs.mask_zero
      (make_map_exposure_true_energy
         (pointing_radec (MapMakerObs.observation self))
         (observation_live_time_duration (MapMakerObs.observation self))
         (aeff (MapMakerObs.observation self))
         (MapMakerObs.geom_true self))
      (MapMakerObs.fov_mask_etrue self)
  else
    MapMakerObs.mask_zero
      (make_map_background_irf
         (fixed_pointing_info (MapMakerObs.observation self))
         (observation_time_duration (MapMakerObs.observation self))
         (bkg (MapMakerObs.observation self))
         (MapMakerObs.geom self))
      (MapMakerObs.fov_mask self).

(** The geometry a product of an observation lives on, and the coordinates
    of its elements. *)
Definition obs_geom (self : MapMakerObs.t) (name : string) : WcsGeom.t :=
  if String.eqb name "exposure" then MapMakerObs.geom_true self else MapMakerObs.geom self.

Definition obs_coords (self : MapMakerObs.t) (name : string) : list (list MapCoord) :=
  if String.eqb name "exposure" then MapMakerObs.coords_etrue self else MapMakerObs.coords self.

(** One product of an observation added to the stacked map [m] of its name:
    what an iteration of the inner loop of [MapMaker.run] does to [m]. *)
Definition deposit (obs_maker : MapMakerObs.t) (name : string) (m : Map.t) : res Map.t :=
  data ← quantity_to_value (obs_product obs_maker name) (Map.unit m);
  Ok (Map.fill_by_coord m (obs_coords obs_maker name) data).

(** The product deposited [k] times. *)
Fixpoint deposit_iter (k : nat) (obs_maker : MapMakerObs.t) (name : string) (m : Map.t)
    : res Map.t :=
  match k with
  | O => Ok m
  | S k => m' ← deposit obs_maker name m; deposit_iter k obs_maker name m'
  end.

(** The body of the inner loop of [MapMaker.run] in terms of [deposit]. *)
Definition stack_product (obs_maker : MapMakerObs.t) (maps : gmap string Map.t)
    (name : string) : res (gmap string Map.t) :=
  m ← getitem maps name;
  m' ← deposit obs_maker name m;
  Ok (<[name := m']> maps).

(** What an iteration of the loop of [MapMaker.run] does to the stacked
    maps, and what it logs. *)
Definition obs_step (self : MapMaker.t) (names : list string) (maps : gmap string Map.t)
    (obs : Observation) : res (gmap string Map.t) :=
  match MapMaker._get_obs_maker self obs trim with
  | Ok obs_maker => for_each (stack_product obs_maker) names maps
  | Raise NoOverlapError => Ok maps
  | Raise e => Raise e
  end.

Definition obs_log (self : MapMaker.t) (obs : Observation) : list log_record :=
  match MapMaker._get_obs_maker self obs trim with
  | Raise NoOverlapError => [LogProcessing (obs_id obs); LogSkipNoOverlap (obs_id obs)]
  | _ => [LogProcessing (obs_id obs)]
  end.

(** Sets of maps added key by key. *)
Definition maps_add (A X : gmap string Map.t) : gmap string Map.t :=
  map_zip_with map_add A X.

(** Arrays of the same shape; maps on the same geometry with the same unit
    and shape. *)
Definition same_shape (d d' : list (list Z)) : Prop :=
  Forall2 (λ r r' : list Z, length r = length r') d d'.

Definition same_frame (m m' : Map.t) : Prop :=
  Map.geom m = Map.geom m' ∧ Map.unit m = Map.unit m' ∧ same_shape (Map.data m) (Map.data m').

(** Sets of maps with the same keys and, key by key, the same frame. *)
Definition maps_frame (A B : gmap string Map.t) : Prop :=
  ∀ n, match A !! n, B !! n with
       | Some a, Some b => same_frame a b
       | None, None => True
       | _, _ => False
       end.

(** How often a name occurs in a selection. *)
Definition occurrences (n : string) (names : list string) : nat :=
  length (filter (λ x, x = n) names).

(** The zero-filled map [run] starts from for a name. *)
Definition empty_map (self : MapMaker.t) (n : string) (z : Map.t) : Prop :=
  if String.eqb n "exposure"
  then ∃ gt, MapMaker.geom_true self = IsWcsGeom gt ∧ z = Map.from_geom gt "m2 s"
  else z = Map.from_geom (MapMaker.geom self) "".

(** The elements of the stacked map of a name that the cutout of an
    observation covers, and the spatial pixels among them. *)
Definition footprint (self : MapMaker.t) (obs : Observation) (name : string) : list (nat * nat) :=
  match MapMaker._get_obs_maker self obs trim with
  | Ok obs_maker =>
      match (if String.eqb name "exposure" then MapMaker.as_geom (MapMaker.geom_true self)
             else Ok (MapMaker.geom self)) with
      | Ok g => omap (WcsGeom.coord_to_idx g) (concat (obs_coords obs_maker name))
      | Raise _ => []
      end
  | Raise _ => []
  end.

Definition spatial_footprint (self : MapMaker.t) (obs : Observation) (name : string) : list nat :=
  snd <$> footprint self obs name.

(** The exceptions raised inside the pipeline that are neither validation
    errors nor overlap signals. *)
Definition internal_exn (e : exn) : Prop :=
  match e with
  | AttributeError _ | KeyError _ | UnitConversionError _ _ => True
  | _ => False
  end.

(** The maps and the stored state of a result, without the log. *)
Definition without_log {T : Type} (r : res (gmap string Map.t * T * list log_record))
    : res (gmap string Map.t * T) :=
  x ← r; Ok x.1.


(** The value the services give for an element of a product of an
    observation, before masking. *)
Definition service_value (self : MapMakerObs.t) (name : string) (e p : nat) : Z :=
  if String.eqb name "counts" then
    binned_events (events (MapMakerObs.observation self)) (MapMakerObs.geom self) e p
  else if String.eqb name "exposure" then
    (exposure_true_energy
       (pointing_radec (MapMakerObs.observation self))
       (observation_live_time_duration (MapMakerObs.observation self))
       (aeff (MapMakerObs.observation self))
       (MapMakerObs.geom_true self)).2 e p
  else
    (background_irf
       (fixed_pointing_info (MapMakerObs.observation self))
       (observation_time_duration (MapMakerObs.observation self))
       (bkg (MapMakerObs.observation self))
       (MapMakerObs.geom self)).2 e p.

(** The observations the ring maker leaves out: their cutout in strict mode
    raises one of the two overlap signals. *)
Definition ring_skips (ring : MapMakerRing.t) (obs : Observation) : Prop :=
  MapMaker._get_obs_maker (MapMakerRing.base ring) obs strict = Raise NoOverlapError ∨
  MapMaker._get_obs_maker (MapMakerRing.base ring) obs strict = Raise PartialOverlapError.

(** The maps the loop of [MapMakerRing._run] starts from: the zero-filled
    maps of the four keys, summed over their axes when images are asked
    for. *)
Definition ring_empty_maps (ring : MapMakerRing.t) (sum_over_axis : bool)
    (spectrum : option SpectralModel) (keepdims : bool) : gmap string Map.t :=
  let maps := foldl (λ maps name,
                <[name := Map.from_geom (MapMaker.geom (MapMakerRing.base ring)) ""]> maps)
              ∅ MapMakerRing.selection in
  if sum_over_axis then MapMaker._maps_sum_over_axes maps spectrum keepdims else maps.

(** The observations the ring maker processes. *)
Definition ring_processes (ring : MapMakerRing.t) (obs : Observation) : bool :=
  returns (MapMaker._get_obs_maker (MapMakerRing.base ring) obs strict).

End derived.

(** ** A small instance of the services

    Sky positions are the integers of a line and a spatial grid is the list
    of the positions of its pixels.  The instance is used to run the
    pipeline on concrete observations. *)

Module Toy.

Definition sep (a b : Z) : Q := inject_Z (Z.abs (a - b)).

(** The string "2 deg" denotes an angle; any other object that is no angle
    has no unit. *)
Definition angle_of (o : pyobj) : res Q :=
  match o with
  | PyStr s => if String.eqb s "2 deg" then Ok (2#1) else Raise (UnitsError "No unit was specified")
  | _ => Raise (UnitsError "No unit was specified")
  end.

Definition find_pix (w : list Z) (s : Z) : option nat :=
  fst <$> list_find (λ x, x = s) w.

Definition window (pos : Z) (width : Q) : list Z :=
  let hw := Qfloor (width / 2) in
  seqZ (pos - hw) (2 * hw + 1).

Definition cut (w : list Z) (pos : Z) (width : Q) : Overlap (list Z) :=
  let win := window pos width in
  let inside := filter (λ s, s ∈ w) win in
  match inside with
  | [] => Disjoint
  | _ => if bool_decide (inside = win) then Contained inside else Partial inside
  end.

Definition bin_of (edges : list Q) (c : Q) : option nat :=
  fst <$> list_find (λ lh : Q * Q, Qle_bool lh.1 c && negb (Qle_bool lh.2 c) = true)
                    (zip edges (tail edges)).

#[local] Instance geometry : Geometry := {|
  SkyCoord := Z;
  Wcs := list Z;
  EventList := list (Z * Z);
  EffectiveArea := Z;
  Background := Z;
  PointingInfo := Z;
  Duration := Z;
  SpectralModel := Z;
  Estimator := Z;
  to_angle := angle_of;
  separation := sep;
  pix_skycoord := λ w, w;
  skycoord_to_pix := find_pix;
  axis_center := λ lo hi, ((lo + hi) / 2)%Q;
  axis_coord_to_idx := bin_of;
  wcs_cutout := cut;
  cutout_parent_pix := λ parent child p, s ← child !! p; find_pix parent s;
|}.

Definition count_events (ev : list (Z * Z)) (g : WcsGeom.t) (e p : nat) : Z :=
  Z.of_nat (length (filter
    (λ sq : Z * Z, WcsGeom.coord_to_idx g {| skycoord := sq.1; axes_coord := [inject_Z sq.2] |} = Some (e, p))
    ev)).

(** The estimator of the instance takes the counts as the off counts and
    the background as the off exposure. *)
Definition estimate (k : Z) (d : gmap string (option Map.t)) : res (gmap string (option Map.t)) :=
  counts ← getitem d "counts";
  background ← getitem d "background";
  Ok (<["off" := counts]> (<["exposure_off" := background]> ∅)).

#[local] Instance services : Services := {|
  binned_events := count_events;
  exposure_true_energy := λ pointing livetime aeff g, ("m2 s", λ e p, aeff * livetime);
  background_irf := λ pointing ontime bkg g, ("", λ e p, bkg * ontime);
  spectrum_weight := λ spectrum g e v, v;
  unit_to_value := λ from to, if String.eqb from to then Some (λ v, v) else None;
  estimator_run := estimate;
|}.

Definition energy : MapAxis.t := {| MapAxis.name := "energy"; MapAxis.edges := inject_Z <$> [1; 10; 100] |}.

(** Ten pixels at the positions 0 to 9, two energy bins. *)
Definition geom : WcsGeom.t := {| WcsGeom.wcs := seqZ 0 10; WcsGeom.axes := [energy] |}.
Definition image_geom : WcsGeom.t := {| WcsGeom.wcs := seqZ 0 10; WcsGeom.axes := [] |}.

Definition obs_at (id pointing : Z) (ev : list (Z * Z)) : Observation :=
  {| obs_id := id; pointing_radec := pointing; events := ev;
     observation_live_time_duration := 10; observation_time_duration := 12;
     aeff := 3; fixed_pointing_info := pointing; bkg := 1 |}.

(** Two observations inside the grid with disjoint cutouts, one that
    overlaps it in part and one that misses it. *)
Definition obs1 : Observation := obs_at 1 2 [(1, 5); (2, 5); (2, 50); (4, 5)].
Definition obs2 : Observation := obs_at 2 7 [(7, 20); (8, 5)].
Definition obs_partial : Observation := obs_at 3 0 [(0, 5); (1, 5)].
Definition obs_far : Observation := obs_at 4 50 [(50, 5)].

Definition offset_max : Q := 2#1.

Definition maker : MapMaker.t :=
  {| MapMaker.geom := geom; MapMaker.geom_true := IsWcsGeom geom;
     MapMaker.offset_max := offset_max; MapMaker.exclusion_mask := None;
     MapMaker._maps := None |}.

Definition exclusion : Map.t :=
  {| Map.geom := geom; Map.unit := ""; Map.data := Map.tabulate geom (λ _ _, 1) |}.

Definition ring : MapMakerRing.t :=
  {| MapMakerRing.base :=
       {| MapMaker.geom := geom; MapMaker.geom_true := IsWcsGeom geom;
          MapMaker.offset_max := offset_max; MapMaker.exclusion_mask := Some exclusion;
          MapMaker._maps := None |};
     MapMakerRing.background_estimator := Some 0 |}.

End Toy.

(** ** General facts about loops, arrays and dictionaries *)

Section loops.
Context {A S : Type}.
Implicit Types (body : S → A → res S) (l : list A) (s : S).

Lemma for_each_app body l1 l2 s :
  for_each body (l1 ++ l2) s = s' ← for_each body l1 s; for_each body l2 s'.
Proof.
  revert s. induction l1 as [|x l1 IH]; intros s; simpl; [done|].
  destruct (body s x) as [s'|e]; simpl; [apply IH|done].
Qed.

(** An exception of a loop is an exception of its body. *)
Lemma for_each_raise body l s e :
  for_each body l s = Raise e → ∃ s' x, x ∈ l ∧ body s' x = Raise e.
Proof.
  revert s. induction l as [|x l IH]; intros s; simpl; [done|].
  destruct (body s x) as [s'|e'] eqn:Hb; simpl.
  - intros Hl. destruct (IH _ Hl) as (s'' & y & Hy & Hr).
    exists s'', y. split; [by right|done].
  - intros [= ->]. exists s, x. split; [by left|done].
Qed.

(** A property kept by the body is kept by the loop. *)
Lemma for_each_invariant (P : S → Prop) body l s s' :
  (∀ s x s', x ∈ l → P s → body s x = Ok s' → P s') →
  P s → for_each body l s = Ok s' → P s'.
Proof.
  revert s. induction l as [|x l IH]; intros s Hbody Hs; simpl.
  - by intros [= <-].
  - destruct (body s x) as [s1|e] eqn:Hb; simpl; [|done].
    apply IH.
    + intros s2 y s3 Hy. apply Hbody. by right.
    + eapply Hbody; [by left|done..].
Qed.

End loops.

Lemma bind_Ok {A B} (r : res A) (f : A → res B) (b : B) :
  r ≫= f = Ok b ↔ ∃ a, r = Ok a ∧ f a = Ok b.
Proof.
  destruct r as [a|e]; simpl; split.
  - intros Hf. by exists a.
  - by intros (a' & [= <-] & Hf).
  - done.
  - by intros (a' & [=] & _).
Qed.

Lemma bind_Raise {A B} (r : res A) (f : A → res B) (e : exn) :
  r ≫= f = Raise e ↔ r = Raise e ∨ ∃ a, r = Ok a ∧ f a = Raise e.
Proof.
  destruct r as [a|e']; simpl; split.
  - intros Hf. right. by exists a.
  - intros [[=]|(a' & [= <-] & Hf)]; done.
  - intros [= ->]. by left.
  - intros [[= ->]|(a' & [=] & _)]; done.
Qed.

(** ** Selection validation *)

Section selection.

Lemma is_available_str (o : pyobj) :
  is_available o = true → ∃ s, o = PyStr s ∧ s ∈ available.
Proof.
  destruct o; simpl; try done.
  intros Hs. apply bool_decide_eq_true in Hs. by eexists.
Qed.

Lemma find_unavailable_none (l : list pyobj) :
  Forall (λ o, is_available o = true) l →
  find (λ name, negb (is_available name)) l = None.
Proof.
  induction 1 as [|o l Ho _ IH]; simpl; [done|]. by rewrite Ho.
Qed.

Lemma find_unavailable_first (l1 l2 : list pyobj) (name : pyobj) :
  Forall (λ o, is_available o = true) l1 → is_available name = false →
  find (λ name, negb (is_available name)) (l1 ++ name :: l2) = Some name.
Proof.
  intros Hl1 Hname. induction Hl1 as [|o l Ho _ IH]; simpl.
  - by rewrite Hname.
  - by rewrite Ho.
Qed.

(** A list holding an unavailable element splits at the first of them. *)
Lemma first_unavailable (l : list pyobj) (x : pyobj) :
  x ∈ l → is_available x = false →
  ∃ l1 name l2, l = l1 ++ name :: l2 ∧
    Forall (λ o, is_available o = true) l1 ∧ is_available name = false.
Proof.
  induction l as [|o l IH]; intros Hx Hbad; [by apply not_elem_of_nil in Hx|].
  destruct (is_available o) eqn:Ho.
  - apply elem_of_cons in Hx as [->|Hx]; [congruence|].
    destruct (IH Hx Hbad) as (l1 & name & l2 & -> & Hl1 & Hname).
    exists (o :: l1), name, l2. split; [done|]. split; [by constructor|done].
  - exists [], o, l. by repeat split.
Qed.

Lemma omap_str_of_names (names : list string) :
  omap str_of (PyStr <$> names) = names.
Proof. induction names as [|n names IH]; csimpl; [done|]. by rewrite IH. Qed.

Lemma check_selection_names (names : list string) :
  names ⊆ available → _check_selection (PyList (PyStr <$> names)) = Ok names.
Proof.
  intros Hsub. unfold _check_selection.
  rewrite find_unavailable_none, omap_str_of_names; [done|].
  apply Forall_fmap, Forall_forall. intros n Hn. simpl.
  apply bool_decide_eq_true. by apply Hsub.
Qed.

(** What [_check_selection] accepts, it returns as a list of available
    names, and it accepts that list again. *)
Lemma check_selection_Ok (selection : pyobj) (names : list string) :
  _check_selection selection = Ok names →
  names ⊆ available ∧ _check_selection (PyList (PyStr <$> names)) = Ok names.
Proof.
  intros Hc. assert (names ⊆ available) as Hsub; [|by auto using check_selection_names].
  unfold _check_selection in Hc.
  assert (∀ l, match find (λ name, negb (is_available name)) l with
               | Some name => Raise (ValueError "Selection not available: {!r}" [name])
               | None => Ok (omap str_of l)
               end = Ok names → names ⊆ available) as Hlist.
  { clear. intros l. revert names. induction l as [|o l IH]; intros names; simpl.
    - intros [= <-]. apply list_subseteq_nil.
    - destruct (is_available o) eqn:Ho; simpl; [|done].
      apply is_available_str in Ho as (s & -> & Hs). simpl.
      destruct (find _ l); [done|]. intros [= <-].
      intros n Hn. apply elem_of_cons in Hn as [->|Hn]; [done|].
      by apply (IH (omap str_of l)). }
  destruct selection as [| | | |l| |]; try done.
  - exact (Hlist (PyStr <$> available) Hc).
  - exact (Hlist l Hc).
Qed.

End selection.

(** ** The constructors *)

Section constructors.
Context `{Services}.

Lemma is_image_axes (g : WcsGeom.t) : WcsGeom.is_image g = true ↔ WcsGeom.axes g = [].
Proof. unfold WcsGeom.is_image. by destruct (WcsGeom.axes g). Qed.

Lemma is_image_false (g : WcsGeom.t) : WcsGeom.is_image g = false ↔ WcsGeom.axes g ≠ [].
Proof. unfold WcsGeom.is_image. by destruct (WcsGeom.axes g). Qed.

(** The constructor returns exactly when the reference geometry passes its
    two checks, the truth test of [geom_true] returns and [Angle] accepts
    the offset. *)
Lemma init_Ok (geom geom_true : geom_arg) (offset_max : offset_arg) (mask : option Map.t)
    (self : MapMaker.t) :
  MapMaker.__init__ geom offset_max geom_true mask = Ok self ↔
  ∃ g (given : bool) a, geom = IsWcsGeom g ∧ WcsGeom.axes g ≠ [] ∧
    MapMaker.arg_truthy geom_true = Ok given ∧ Angle offset_max = Ok a ∧
    self = {| MapMaker.geom := g;
              MapMaker.geom_true := if given then geom_true else geom;
              MapMaker.offset_max := a;
              MapMaker.exclusion_mask := mask;
              MapMaker._maps := None |}.
Proof.
  unfold MapMaker.__init__. destruct geom as [g|o].
  - destruct (WcsGeom.is_image g) eqn:Himg.
    + split; [done|]. intros (g' & given & a & [= <-] & Hax & _).
      by apply is_image_axes in Himg.
    + apply is_image_false in Himg. split.
      * intros (given & Hgiven & Hr)%bind_Ok. apply bind_Ok in Hr as (a & Ha & [= <-]).
        by exists g, given, a.
      * intros (g' & given & a & [= <-] & _ & -> & -> & ->). done.
  - split; [done|]. by intros (g' & given & a & [=] & _).
Qed.

(** The constructor raises the exception of the truth test of [geom_true],
    or else that of [Angle], when the reference geometry passes its checks. *)
Lemma init_Raise (g : WcsGeom.t) (geom_true : geom_arg) (offset_max : offset_arg)
    (mask : option Map.t) (e : exn) :
  WcsGeom.axes g ≠ [] →
  MapMaker.__init__ (IsWcsGeom g) offset_max geom_true mask = Raise e ↔
  MapMaker.arg_truthy geom_true = Raise e ∨
  ((∃ given, MapMaker.arg_truthy geom_true = Ok given) ∧ Angle offset_max = Raise e).
Proof.
  intros Hax. unfold MapMaker.__init__. rewrite (proj2 (is_image_false g) Hax).
  destruct (MapMaker.arg_truthy geom_true) as [given|e1]; res_simpl.
  - destruct (Angle offset_max) as [a|e2]; res_simpl.
    + split; [done|]. by intros [[=]|[_ [=]]].
    + split; [intros [= <-]; right; by eauto|]. by intros [[=]|[_ [= <-]]].
  - split; [intros [= <-]; by left|]. by intros [[= <-]|[[given [=]] _]].
Qed.

(** C6, as the code has it: the constructor of [MapMaker] first checks the
    reference geometry and raises a [ValueError] when it is not a [WcsGeom]
    or is an image (has no extra axis), whatever the other arguments are.
    For a reference geometry that passes, it goes on to the truth test of
    [geom_true] and to [Angle(offset_max)], and raises what they raise; it
    succeeds exactly when both return.  In particular it succeeds for an
    offset that is an angle and a [geom_true] that is [None] or a geometry.
    On success the maker holds the geometry and the angle, and its
    true-energy geometry is the reference geometry when none is given. *)
Theorem init_validates_geometry (geom geom_true : geom_arg) (offset_max : offset_arg)
    (mask : option Map.t) :
  (∀ o, geom = NotWcsGeom o →
     MapMaker.__init__ geom offset_max geom_true mask =
       Raise (ValueError "MapMaker only works with WcsGeom" [])) ∧
  (∀ g, geom = IsWcsGeom g → WcsGeom.axes g = [] →
     MapMaker.__init__ geom offset_max geom_true mask =
       Raise (ValueError "MapMaker only works with geom with an energy axis" [])) ∧
  (∀ g, geom = IsWcsGeom g → WcsGeom.axes g ≠ [] →
     match MapMaker.arg_truthy geom_true, Angle offset_max with
     | Ok given, Ok a =>
         ∃ self, MapMaker.__init__ geom offset_max geom_true mask = Ok self ∧
           MapMaker.geom self = g ∧
           MapMaker.offset_max self = a ∧
           MapMaker.exclusion_mask self = mask ∧
           MapMaker._maps self = None ∧
           MapMaker.geom_true self = (if given then geom_true else IsWcsGeom g)
     | Ok _, Raise e | Raise e, _ =>
         MapMaker.__init__ geom offset_max geom_true mask = Raise e
     end) ∧
  (∀ g a, geom = IsWcsGeom g → WcsGeom.axes g ≠ [] → offset_max = IsAngle a →
     geom_true = NotWcsGeom PyNone ∨ (∃ gt, geom_true = IsWcsGeom gt) →
     ∃ self, MapMaker.__init__ geom offset_max geom_true mask = Ok self ∧
       MapMaker.geom self = g ∧
       MapMaker.offset_max self = a ∧
       MapMaker.exclusion_mask self = mask ∧
       MapMaker._maps self = None ∧
       MapMaker.geom_true self =
         match geom_true with
         | IsWcsGeom gt => IsWcsGeom gt
         | NotWcsGeom _ => IsWcsGeom g
         end).
Proof.
  split; [|split; [|split]].
  - by intros o ->.
  - intros g -> Hax. unfold MapMaker.__init__.
    by rewrite (proj2 (is_image_axes g) Hax).
  - intros g -> Hax.
    destruct (MapMaker.arg_truthy geom_true) as [given|e1] eqn:Hgiven.
    + destruct (Angle offset_max) as [a|e2] eqn:Ha.
      * eexists. split; [apply init_Ok; by exists g, given, a|]. done.
      * apply init_Raise; [done|]. right. by eauto.
    + apply init_Raise; [done|]. by left.
  - intros g a -> Hax -> Hgt. eexists. split.
    + apply init_Ok. exists g, (match geom_true with IsWcsGeom _ => true | _ => false end), a.
      repeat split; try done. by destruct Hgt as [->|[gt ->]].
    + repeat split. by destruct Hgt as [->|[gt ->]].
Qed.

(** C10, as the code has it: only the reference geometry is validated, but
    the constructor can raise for other reasons.  It raises exactly when
    the reference geometry is not a [WcsGeom] or is an image, or the truth
    test of [geom_true] raises, or [Angle] rejects the offset.  A geometry
    given as [geom_true], image or not, is stored without being looked at;
    any other object is asked for its truth value only: it is stored as it
    is when the test gives true, the reference geometry stands in for it
    when the test gives false, and the exception of the test leaves the
    constructor when it raises. *)
Theorem init_ignores_geom_true (geom geom_true : geom_arg) (offset_max : offset_arg)
    (mask : option Map.t) :
  ((∃ e, MapMaker.__init__ geom offset_max geom_true mask = Raise e) ↔
     ((∃ o, geom = NotWcsGeom o) ∨ (∃ g, geom = IsWcsGeom g ∧ WcsGeom.axes g = []) ∨
      (∃ e, MapMaker.arg_truthy geom_true = Raise e) ∨ (∃ e, Angle offset_max = Raise e))) ∧
  (∀ g a, geom = IsWcsGeom g → WcsGeom.axes g ≠ [] → Angle offset_max = Ok a →
     match geom_true with
     | IsWcsGeom gt =>
         ∃ self, MapMaker.__init__ geom offset_max geom_true mask = Ok self ∧
           MapMaker.geom_true self = IsWcsGeom gt
     | NotWcsGeom o =>
         match truthy o with
         | Ok given =>
             ∃ self, MapMaker.__init__ geom offset_max geom_true mask = Ok self ∧
               MapMaker.geom_true self = if given then NotWcsGeom o else IsWcsGeom g
         | Raise e => MapMaker.__init__ geom offset_max geom_true mask = Raise e
         end
     end).
Proof.
  split.
  - destruct geom as [g|o].
    + destruct (WcsGeom.is_image g) eqn:Himg.
      * apply is_image_axes in Himg. split.
        -- intros _. right. left. by exists g.
        -- intros _. unfold MapMaker.__init__. rewrite (proj2 (is_image_axes g) Himg). by eauto.
      * apply is_image_false in Himg. split.
        -- intros [e He]. apply init_Raise in He; [|done].
           destruct He as [He|[_ He]]; right; right; [left|right]; by eauto.
        -- intros [[o [=]]|[(g' & [= <-] & Hax)|Hr]]; [done|].
           destruct (MapMaker.arg_truthy geom_true) as [given|e1] eqn:Hgiven.
           ++ destruct Hr as [[e [=]]|[e He]]. exists e. apply init_Raise; [done|].
              right. by eauto.
           ++ exists e1. apply init_Raise; [done|]. by left.
    + split; [|by eauto]. intros _. left. by exists o.
  - intros g a -> Hax Ha. destruct geom_true as [gt|o].
    + eexists. split; [apply init_Ok; by exists g, true, a|]. done.
    + destruct (truthy o) as [given|e] eqn:Ht.
      * eexists. split; [apply init_Ok; by exists g, given, a|]. done.
      * apply init_Raise; [done|]. by left.
Qed.

Lemma ring_init_Ok (geom : geom_arg) (offset_max : offset_arg) (mask : option Map.t)
    (estimator : option Estimator) (self : MapMakerRing.t) :
  MapMakerRing.__init__ geom offset_max mask estimator = Ok self →
  MapMaker.geom_true (MapMakerRing.base self) = IsWcsGeom (MapMaker.geom (MapMakerRing.base self)) ∧
  geom = IsWcsGeom (MapMaker.geom (MapMakerRing.base self)) ∧
  MapMaker._maps (MapMakerRing.base self) = None.
Proof.
  unfold MapMakerRing.__init__. intros Hi.
  apply bind_Ok in Hi as (b & Hb & [= <-]).
  apply init_Ok in Hb as (g & given & a & -> & _ & [= <-] & _ & ->). done.
Qed.

End constructors.

(** ** The empty output maps *)

Section empty_maps.
Context `{Services}.

(** The maps allocated for names none of which is ["exposure"]. *)
Lemma get_empty_maps_reco (self : MapMaker.t) (selection : list string)
    (maps0 : gmap string Map.t) :
  "exposure" ∉ selection →
  for_each (λ (maps : gmap string Map.t) name,
    if String.eqb name "exposure" then
      g ← MapMaker.as_geom (MapMaker.geom_true self);
      Ok (<[name := Map.from_geom g "m2 s"]> maps)
    else
      Ok (<[name := Map.from_geom (MapMaker.geom self) ""]> maps))
    selection maps0 =
  Ok (foldl (λ maps name, <[name := Map.from_geom (MapMaker.geom self) ""]> maps)
            maps0 selection).
Proof.
  revert maps0. induction selection as [|name selection IH]; intros maps0 Hne; simpl; [done|].
  apply not_elem_of_cons in Hne as [Hname Hne].
  destruct (String.eqb name "exposure") eqn:Heq.
  - apply String.eqb_eq in Heq. congruence.
  - simpl. by apply IH.
Qed.

(** The maps allocated when [geom_true] is a geometry. *)
Lemma get_empty_maps_Ok (self : MapMaker.t) (gt : WcsGeom.t) (selection : list string) :
  MapMaker.geom_true self = IsWcsGeom gt →
  MapMaker._get_empty_maps self selection =
  Ok (foldl (λ maps name,
        <[name := if String.eqb name "exposure" then Map.from_geom gt "m2 s"
                  else Map.from_geom (MapMaker.geom self) ""]> maps) ∅ selection).
Proof.
  intros Hgt. unfold MapMaker._get_empty_maps. rewrite Hgt.
  generalize (∅ : gmap string Map.t).
  induction selection as [|name selection IH]; intros maps0; simpl; [done|].
  destruct (String.eqb name "exposure"); simpl; apply IH.
Qed.

Lemma foldl_insert_lookup {V} (f : string → V) (selection : list string)
    (maps0 : gmap string V) (name : string) :
  foldl (λ maps n, <[n := f n]> maps) maps0 selection !! name =
  if bool_decide (name ∈ selection) then Some (f name) else maps0 !! name.
Proof.
  revert maps0. induction selection as [|n selection IH]; intros maps0; simpl; [done|].
  rewrite IH. destruct (decide (name ∈ selection)) as [Hin|Hin].
  - rewrite !bool_decide_eq_true_2; [done|by right|done].
  - rewrite (bool_decide_eq_false_2 _ Hin).
    destruct (decide (name = n)) as [->|Hne].
    + rewrite bool_decide_eq_true_2 by by left. by rewrite lookup_insert_eq.
    + rewrite bool_decide_eq_false_2.
      * by rewrite lookup_insert_ne.
      * intros [?|?]%elem_of_cons; done.
Qed.

Lemma fmap_const_replicate {A B} (c : B) (l : list A) :
  (λ _, c) <$> l = replicate (length l) c.
Proof. induction l as [|x l IH]; simpl; [done|]. by f_equal. Qed.

Lemma tabulate_const (g : WcsGeom.t) (c : Z) :
  Map.tabulate g (λ _ _, c) = replicate (WcsGeom.nplanes g) (replicate (WcsGeom.npix g) c).
Proof.
  unfold Map.tabulate.
  rewrite (fmap_const_replicate c (seq 0 (WcsGeom.npix g))), length_seq.
  by rewrite fmap_const_replicate, length_seq.
Qed.

Lemma ring_selection_reco : "exposure" ∉ MapMakerRing.selection.
Proof.
  unfold MapMakerRing.selection. intros Hin.
  repeat (apply elem_of_cons in Hin as [Hin|Hin]; [discriminate|]).
  by apply not_elem_of_nil in Hin.
Qed.

(** C1, as the code has it: the output maps [_run] allocates for the keys
    on, exposure_on, off and exposure_off are all zero-filled maps on the
    reference geometry with the dimensionless unit; only a key that is
    exactly "exposure" gets the true-energy geometry and the unit m2 s.
    In a [MapMakerRing] the true-energy geometry is the reference geometry,
    and a run without observations returns the allocated maps. *)
Theorem ring_output_maps (geom : geom_arg) (offset_max : offset_arg) (mask : option Map.t)
    (estimator : option Estimator) (self : MapMakerRing.t) :
  MapMakerRing.__init__ geom offset_max mask estimator = Ok self →
  let g := MapMaker.geom (MapMakerRing.base self) in
  MapMaker.geom_true (MapMakerRing.base self) = IsWcsGeom g ∧
  ∃ maps,
    MapMaker._get_empty_maps (MapMakerRing.base self) MapMakerRing.selection = Ok maps ∧
    (∃ self', MapMakerRing.run self [] = Ok (maps, self', [])) ∧
    ∀ name,
      maps !! name =
        if bool_decide (name ∈ ["on"; "exposure_on"; "off"; "exposure_off"])
        then Some {| Map.geom := g; Map.unit := "";
                     Map.data := replicate (WcsGeom.nplanes g) (replicate (WcsGeom.npix g) 0) |}
        else None.
Proof.
  intros Hinit g. apply ring_init_Ok in Hinit as (Hgt & _ & _). split; [done|].
  eexists. split; [|split].
  - unfold MapMaker._get_empty_maps. apply get_empty_maps_reco, ring_selection_reco.
  - unfold MapMakerRing.run, MapMakerRing._run, MapMaker._get_empty_maps.
    rewrite get_empty_maps_reco by apply ring_selection_reco.
    simpl. eauto.
  - intros name.
    rewrite (foldl_insert_lookup (λ _, Map.from_geom (MapMaker.geom (MapMakerRing.base self)) "")).
    rewrite lookup_empty. unfold MapMakerRing.selection, Map.from_geom.
    by rewrite tabulate_const.
Qed.

End empty_maps.

(** ** Collapsing the energy axis *)

Section images.
Context `{Services}.

Lemma sum_planes_length (n : nat) (planes : list (list Z)) :
  (length (Map.sum_planes n planes) ≤ n)%nat.
Proof.
  induction planes as [|p planes IH]; simpl.
  - by rewrite length_replicate.
  - rewrite length_zip_with. lia.
Qed.

Lemma zip_with_add_zeros (n : nat) (p : list Z) :
  (length p ≤ n)%nat → zip_with Z.add p (replicate n 0) = p.
Proof.
  revert n. induction p as [|x p IH]; intros n Hn; simpl; [done|].
  destruct n as [|n]; simpl in *; [lia|].
  rewrite Z.add_0_r, IH; [done|lia].
Qed.

(** Summing a single plane gives the plane back. *)
Lemma sum_planes_singleton (n : nat) (p : list Z) :
  (length p ≤ n)%nat → Map.sum_planes n [p] = p.
Proof. apply zip_with_add_zeros. Qed.

Lemma npix_squash_axes (g : WcsGeom.t) :
  WcsGeom.npix (WcsGeom.squash_axes g) = WcsGeom.npix g.
Proof. done. Qed.

Lemma sum_over_axes_keepdims_sum (m : Map.t) :
  Map.sum_over_axes (Map.sum_over_axes m true) false = Map.sum_over_axes m false.
Proof.
  unfold Map.sum_over_axes at 1 3. f_equal. simpl.
  rewrite npix_squash_axes. f_equal. apply sum_planes_singleton, sum_planes_length.
Qed.

Lemma sum_entry_keepdims_sum (spectrum : option SpectralModel) (name : string) (m : Map.t) :
  Map.sum_over_axes (MapMaker.sum_entry spectrum true name m) false =
  MapMaker.sum_entry spectrum false name m.
Proof. apply sum_over_axes_keepdims_sum. Qed.

Lemma maps_sum_over_axes_lookup (maps : gmap string Map.t)
    (spectrum : option SpectralModel) (keepdims : bool) (name : string) :
  MapMaker._maps_sum_over_axes maps spectrum keepdims !! name =
  MapMaker.sum_entry spectrum keepdims name <$> maps !! name.
Proof.
  unfold MapMaker._maps_sum_over_axes. rewrite map_lookup_imap.
  by destruct (maps !! name).
Qed.

Lemma maps_keepdims_sum (maps : gmap string Map.t) (spectrum : option SpectralModel) :
  (λ m, Map.sum_over_axes m false) <$> MapMaker._maps_sum_over_axes maps spectrum true =
  MapMaker._maps_sum_over_axes maps spectrum false.
Proof.
  apply map_eq. intros name.
  rewrite lookup_fmap, !maps_sum_over_axes_lookup.
  destruct (maps !! name); simpl; [|done]. by rewrite sum_entry_keepdims_sum.
Qed.

(** C8: [run_images] with [keepdims=True], followed by a sum of every image
    over its remaining single-bin axes, is [run_images] with
    [keepdims=False]: the same images for every key (the weighted exposure
    included), the same stored state and log, and the same exception if the
    run raises.  For a maker with stored maps both calls return the
    collapsed stored maps. *)
Theorem run_images_keepdims_sum (self : MapMaker.t)
    (observations : option (list Observation)) (spectrum : option SpectralModel) :
  match MapMaker.run_images self observations spectrum true with
  | Ok r =>
      MapMaker.run_images self observations spectrum false =
        Ok ((λ m, Map.sum_over_axes m false) <$> r.1.1, r.1.2, r.2)
  | Raise e => MapMaker.run_images self observations spectrum false = Raise e
  end ∧
  ∀ maps,
    MapMaker.run_images (MapMaker.set_maps self maps) observations spectrum true =
      Ok (MapMaker._maps_sum_over_axes maps spectrum true, MapMaker.set_maps self maps, []).
Proof.
  split; [|done].
  unfold MapMaker.run_images.
  destruct (match MapMaker._maps self with
            | Some _ => Ok (self, [])
            | None => _
            end) as [[self' lg]|e]; simpl; [|done].
  destruct (MapMaker._maps self'); simpl; [|done].
  by rewrite maps_keepdims_sum.
Qed.

End images.

(** ** One observation: products and field-of-view masking *)

Section observation.
Context `{Services}.

Lemma tabulate_lookup (g : WcsGeom.t) (f : nat → nat → Z) (e p : nat) :
  (e < WcsGeom.nplanes g)%nat → (p < WcsGeom.npix g)%nat →
  ∃ row, Map.tabulate g f !! e = Some row ∧ row !! p = Some (f e p).
Proof.
  intros He Hp. unfold Map.tabulate. eexists. split.
  - rewrite list_lookup_fmap, lookup_seq_lt by done. done.
  - rewrite list_lookup_fmap, lookup_seq_lt by done. done.
Qed.

Lemma get_coord_lookup (g : WcsGeom.t) (e p : nat) (crow : list MapCoord) (c : MapCoord) :
  WcsGeom.get_coord g !! e = Some crow → crow !! p = Some c →
  (e < WcsGeom.nplanes g)%nat ∧ (p < WcsGeom.npix g)%nat.
Proof.
  unfold WcsGeom.get_coord, WcsGeom.nplanes, WcsGeom.npix. intros He Hp.
  rewrite list_lookup_fmap in He.
  destruct (WcsGeom.planes_coord (WcsGeom.axes g) !! e) as [pc|] eqn:Hpc; [|done].
  injection He as <-. split.
  - by apply lookup_lt_Some in Hpc.
  - apply lookup_lt_Some in Hp. by rewrite length_fmap in Hp.
Qed.

(** The counts map before masking has the shape of its geometry. *)
Lemma fill_map_counts_lookup (g : WcsGeom.t) (u : string) (ev : EventList) (e p : nat) :
  (e < WcsGeom.nplanes g)%nat → (p < WcsGeom.npix g)%nat →
  ∃ v, pixel (fill_map_counts (Map.from_geom g u) ev) e p = Some v.
Proof.
  intros He Hp. unfold pixel, fill_map_counts, Map.from_geom. simpl.
  destruct (tabulate_lookup g (λ _ _, 0) e p He Hp) as (row & Hrow & Hv).
  rewrite list_lookup_imap, Hrow. simpl.
  rewrite list_lookup_imap, Hv. simpl. eauto.
Qed.

(** Masking sets the value of every element whose coordinate is at or
    beyond the maximum offset to zero. *)
Lemma mask_zero_pixel (self : MapMakerObs.t) (m : Map.t) (coords : list (list MapCoord))
    (e p : nat) (crow : list MapCoord) (c : MapCoord) (v : Z) :
  coords !! e = Some crow → crow !! p = Some c → pixel m e p = Some v →
  (MapMakerObs.offset_max self <=
     separation (skycoord c) (pointing_radec (MapMakerObs.observation self)))%Q →
  pixel (MapMakerObs.mask_zero m (MapMakerObs._fov_mask self coords)) e p = Some 0.
Proof.
  intros He Hp Hv Hoff. unfold pixel in *. simpl.
  destruct (Map.data m !! e) as [row|] eqn:Hrow; [|done]. simpl in Hv.
  unfold MapMakerObs._fov_mask.
  rewrite lookup_zip_with, Hrow. simpl.
  change (List.map ?f ?l) with (f <$> l).
  rewrite list_lookup_fmap, He. simpl.
  rewrite lookup_zip_with, Hv. simpl.
  change (List.map ?f crow) with (f <$> crow).
  rewrite list_lookup_fmap, Hp. simpl.
  by rewrite (proj2 (Qle_bool_iff _ _) Hoff).
Qed.

Lemma obs_product_geom (self : MapMakerObs.t) (name : string) :
  Map.geom (obs_product self name) = obs_geom self name.
Proof.
  unfold obs_product, obs_geom.
  destruct (String.eqb name "counts") eqn:Hc.
  - apply String.eqb_eq in Hc as ->. done.
  - by destruct (String.eqb name "exposure").
Qed.

Lemma obs_coords_get_coord (self : MapMakerObs.t) (name : string) :
  obs_coords self name = WcsGeom.get_coord (obs_geom self name).
Proof. unfold obs_coords, obs_geom. by destruct (String.eqb name "exposure"). Qed.

(** Every product of an observation is zero at the elements that lie at or
    beyond the maximum offset from the pointing. *)
Lemma obs_product_masked (self : MapMakerObs.t) (name : string) (e p : nat)
    (crow : list MapCoord) (c : MapCoord) :
  obs_coords self name !! e = Some crow → crow !! p = Some c →
  (MapMakerObs.offset_max self <=
     separation (skycoord c) (pointing_radec (MapMakerObs.observation self)))%Q →
  pixel (obs_product self name) e p = Some 0.
Proof.
  intros He Hp Hoff.
  assert (Hlt := He). rewrite obs_coords_get_coord in Hlt.
  destruct (get_coord_lookup _ _ _ _ _ Hlt Hp) as [Hlte Hltp].
  unfold obs_product, obs_coords, obs_geom in *.
  destruct (String.eqb name "counts") eqn:Hc.
  - apply String.eqb_eq in Hc as ->. simpl in *.
    destruct (fill_map_counts_lookup (MapMakerObs.geom self) "" (events (MapMakerObs.observation self))
                e p Hlte Hltp) as [v Hv].
    by eapply mask_zero_pixel.
  - destruct (String.eqb name "exposure") eqn:Hx.
    + destruct (tabulate_lookup (MapMakerObs.geom_true self)
        (exposure_true_energy (pointing_radec (MapMakerObs.observation self))
           (observation_live_time_duration (MapMakerObs.observation self))
           (aeff (MapMakerObs.observation self)) (MapMakerObs.geom_true self)).2
        e p Hlte Hltp) as (row & Hrow & Hv).
      eapply mask_zero_pixel; [done..| |done].
      unfold pixel, make_map_exposure_true_energy. simpl. by rewrite Hrow.
    + destruct (tabulate_lookup (MapMakerObs.geom self)
        (background_irf (fixed_pointing_info (MapMakerObs.observation self))
           (observation_time_duration (MapMakerObs.observation self))
           (bkg (MapMakerObs.observation self)) (MapMakerObs.geom self)).2
        e p Hlte Hltp) as (row & Hrow & Hv).
      eapply mask_zero_pixel; [done..| |done].
      unfold pixel, make_map_background_irf. simpl. by rewrite Hrow.
Qed.

Lemma make_available (self : MapMakerObs.t) (name : string) :
  name ∈ available →
  MapMakerObs._make self name = Ok (MapMakerObs.set_map self name (obs_product self name)).
Proof.
  unfold available. intros Hin.
  repeat (apply elem_of_cons in Hin as [->|Hin]; [done|]).
  by apply not_elem_of_nil in Hin.
Qed.

Lemma for_each_make (names : list string) (self : MapMakerObs.t) :
  names ⊆ available →
  for_each MapMakerObs._make names self =
  Ok (foldl (λ s n, MapMakerObs.set_map s n (obs_product self n)) self names).
Proof.
  revert self. induction names as [|n names IH]; intros self Hsub; simpl; [done|].
  rewrite make_available by (apply Hsub; by left). simpl.
  rewrite IH by (intros x Hx; apply Hsub; by right). done.
Qed.

Lemma foldl_set_map_maps (names : list string) (self s : MapMakerObs.t) :
  MapMakerObs.maps (foldl (λ s n, MapMakerObs.set_map s n (obs_product self n)) s names) =
  foldl (λ maps n, <[n := obs_product self n]> maps) (MapMakerObs.maps s) names.
Proof. revert s. induction names as [|n names IH]; intros s; simpl; [done|]. by rewrite IH. Qed.

Lemma foldl_set_map_frame (names : list string) (self s : MapMakerObs.t) :
  let s' := foldl (λ s n, MapMakerObs.set_map s n (obs_product self n)) s names in
  obs_product s' = obs_product s ∧ obs_coords s' = obs_coords s ∧
  MapMakerObs.exclusion_mask s' = MapMakerObs.exclusion_mask s ∧
  MapMakerObs.coords s' = MapMakerObs.coords s ∧
  MapMakerObs.coords_etrue s' = MapMakerObs.coords_etrue s.
Proof.
  revert s. induction names as [|n names IH]; intros s; simpl; [done|].
  destruct (IH (MapMakerObs.set_map s n (obs_product self n))) as (-> & -> & -> & -> & ->).
  done.
Qed.

(** [MapMakerObs.run] on a validated selection: it returns, every selected
    name is bound to its product, and the other entries are kept. *)
Lemma obs_run_Ok (self : MapMakerObs.t) (selection : pyobj) (names : list string) :
  _check_selection selection = Ok names →
  ∃ self',
    MapMakerObs.run self selection = Ok (MapMakerObs.maps self', self') ∧
    obs_product self' = obs_product self ∧ obs_coords self' = obs_coords self ∧
    MapMakerObs.exclusion_mask self' = MapMakerObs.exclusion_mask self ∧
    MapMakerObs.coords self' = MapMakerObs.coords self ∧
    MapMakerObs.coords_etrue self' = MapMakerObs.coords_etrue self ∧
    ∀ name, MapMakerObs.maps self' !! name =
      if bool_decide (name ∈ names) then Some (obs_product self name)
      else MapMakerObs.maps self !! name.
Proof.
  intros Hc. destruct (check_selection_Ok _ _ Hc) as [Hsub _].
  eexists. unfold MapMakerObs.run. rewrite Hc. simpl.
  rewrite for_each_make by done. simpl. split; [done|].
  destruct (foldl_set_map_frame names self self) as (-> & -> & -> & -> & ->).
  repeat split. intros name.
  by rewrite foldl_set_map_maps, (foldl_insert_lookup (obs_product self)).
Qed.

(** C2: in the maps [MapMakerObs.run] returns for an observation, every
    element whose angular separation from the pointing is at least the
    maximum offset has the value 0, for counts, exposure and background
    alike; the exposure is a map on the true-energy geometry and is masked
    with the coordinates of that geometry, the others are maps on the reco
    geometry and are masked with its coordinates. *)
Theorem fov_masking (observation : Observation) (geom : WcsGeom.t) (offset_max : Q)
    (geom_true : option WcsGeom.t) (mask : option Map.t) (selection : pyobj)
    (maps : gmap string Map.t) (self' : MapMakerObs.t) (name : string) (m : Map.t)
    (e p : nat) (crow : list MapCoord) (c : MapCoord) :
  let self := MapMakerObs.__init__ observation geom offset_max geom_true mask in
  let g := if String.eqb name "exposure" then default geom geom_true else geom in
  MapMakerObs.run self selection = Ok (maps, self') →
  maps !! name = Some m →
  WcsGeom.get_coord g !! e = Some crow → crow !! p = Some c →
  (offset_max <= separation (skycoord c) (pointing_radec observation))%Q →
  name ∈ ["counts"; "exposure"; "background"] ∧ Map.geom m = g ∧ pixel m e p = Some 0.
Proof.
  intros self g Hrun Hm He Hp Hoff.
  unfold MapMakerObs.run in Hrun.
  apply bind_Ok in Hrun as (names & Hc & Hrun).
  destruct (obs_run_Ok self selection names Hc) as (s & Hrun' & _ & _ & _ & _ & _ & Hmaps).
  unfold MapMakerObs.run in Hrun'. rewrite Hc in Hrun'. simpl in Hrun'.
  rewrite Hrun in Hrun'. injection Hrun' as -> ->.
  rewrite Hmaps in Hm. simpl in Hm. rewrite lookup_empty in Hm.
  case_bool_decide as Hin; [|done]. injection Hm as <-.
  split; [by apply (proj1 (check_selection_Ok _ _ Hc))|].
  split.
  - rewrite obs_product_geom. done.
  - eapply obs_product_masked; [|done..].
    rewrite obs_coords_get_coord. done.
Qed.

End observation.

(** ** The loop over the observations *)

Section log.
Context {A M : Type}.
Variable body : M * list log_record → A → res (M * list log_record).

(** The body only appends to the log. *)
Hypothesis body_log : ∀ m lg x,
  body (m, lg) x = st ← body (m, []) x; Ok (st.1, lg ++ st.2).

Lemma for_each_log (l : list A) (m : M) (lg : list log_record) :
  for_each body l (m, lg) = st ← for_each body l (m, []); Ok (st.1, lg ++ st.2).
Proof.
  revert m lg. induction l as [|x l IH]; intros m lg; simpl.
  - by rewrite app_nil_r.
  - rewrite body_log. destruct (body (m, []) x) as [[m1 d1]|e]; simpl; [|done].
    rewrite IH. rewrite (IH m1 d1).
    destruct (for_each body l (m1, [])) as [[m2 d2]|e]; simpl; [|done].
    by rewrite app_assoc.
Qed.

(** An element the body skips can be left out of the list. *)
Lemma for_each_skip (l1 l2 : list A) (x : A) (m0 : M) (lg0 : list log_record) :
  (∀ st, ∃ d, body st x = Ok (st.1, st.2 ++ d)) →
  (st ← for_each body (l1 ++ x :: l2) (m0, lg0); Ok st.1) =
  (st ← for_each body (l1 ++ l2) (m0, lg0); Ok st.1).
Proof.
  intros Hskip. rewrite !for_each_app.
  destruct (for_each body l1 (m0, lg0)) as [[m1 lg1]|e]; simpl; [|done].
  destruct (Hskip (m1, lg1)) as [d ->]. simpl.
  rewrite for_each_log. rewrite (for_each_log l2 m1 lg1).
  destruct (for_each body l2 (m1, [])) as [[m2 d2]|e]; simpl; done.
Qed.

End log.

Section runs.
Context `{Services}.

Lemma run_obs_log (self : MapMaker.t) (names : list string) (maps : gmap string Map.t)
    (lg : list log_record) (obs : Observation) :
  MapMaker.run_obs self names (maps, lg) obs =
  st ← MapMaker.run_obs self names (maps, []) obs; Ok (st.1, lg ++ st.2).
Proof.
  unfold MapMaker.run_obs. simpl.
  destruct (MapMaker._get_obs_maker self obs trim) as [om|e].
  - destruct (MapMakerObs.run om _) as [r|e]; simpl; [|done].
    destruct (for_each _ names maps); simpl; done.
  - destruct e; simpl; try done. by rewrite <- app_assoc.
Qed.

Lemma ring_run_obs_log (self : MapMakerRing.t) (sum_over_axis : bool)
    (spectrum : option SpectralModel) (keepdims : bool) (maps : gmap string Map.t)
    (lg : list log_record) (obs : Observation) :
  MapMakerRing.run_obs self sum_over_axis spectrum keepdims (maps, lg) obs =
  st ← MapMakerRing.run_obs self sum_over_axis spectrum keepdims (maps, []) obs;
  Ok (st.1, lg ++ st.2).
Proof.
  unfold MapMakerRing.run_obs. cbn [fst snd].
  destruct (MapMaker._get_obs_maker (MapMakerRing.base self) obs strict) as [om|e].
  - destruct (MapMakerObs.run om PyNone) as [r|e]; res_simpl; [|done].
    match goal with |- ?a ≫= ?f = _ => destruct a as [mo|e] end; res_simpl; [|done].
    destruct (MapMakerRing.background_estimator self) as [be|]; res_simpl; [|done].
    destruct (estimator_run be mo) as [bk|e]; res_simpl; [|done].
    destruct (getitem _ "background") as [b|e]; res_simpl; [|done].
    destruct (getitem _ "counts") as [c|e]; res_simpl; [|done].
    destruct (for_each _ MapMakerRing.selection maps); res_simpl; [|done].
    by rewrite app_nil_r.
  - destruct e; res_simpl; done.
Qed.

(** The cutouts of trim mode signal no partial overlap. *)
Lemma cutout_trim_raise (g : WcsGeom.t) (position : SkyCoord) (width : Q) (e : exn) :
  WcsGeom.cutout g position width trim = Raise e → e = NoOverlapError.
Proof.
  unfold WcsGeom.cutout. destruct (wcs_cutout _ _ _); try done. by intros [= <-].
Qed.

Lemma cutout_raise (g : WcsGeom.t) (position : SkyCoord) (width : Q) (mode : cutout_mode)
    (e : exn) :
  WcsGeom.cutout g position width mode = Raise e →
  e = NoOverlapError ∨ (mode = strict ∧ e = PartialOverlapError).
Proof.
  unfold WcsGeom.cutout. destruct (wcs_cutout _ _ _); [|destruct mode|]; try done.
  - intros [= <-]. by left.
  - intros [= <-]. by right.
Qed.

Lemma map_cutout_raise (m : Map.t) (position : SkyCoord) (width : Q) (mode : cutout_mode)
    (e : exn) :
  Map.cutout m position width mode = Raise e →
  e = NoOverlapError ∨ (mode = strict ∧ e = PartialOverlapError).
Proof.
  unfold Map.cutout. intros [Hc|(g & _ & [=])]%bind_Raise. by eapply cutout_raise.
Qed.

(** What [_get_obs_maker] can raise: an overlap signal of one of its
    cutouts (the partial one in strict mode only), or the failure to use
    [geom_true] as a geometry. *)
Lemma get_obs_maker_raise (self : MapMaker.t) (obs : Observation) (mode : cutout_mode)
    (e : exn) :
  MapMaker._get_obs_maker self obs mode = Raise e →
  e = NoOverlapError ∨ (mode = strict ∧ e = PartialOverlapError) ∨
  (∃ msg, e = AttributeError msg).
Proof.
  unfold MapMaker._get_obs_maker.
  intros [Hc|(g & _ & Hr)]%bind_Raise.
  { apply cutout_raise in Hc. tauto. }
  apply bind_Raise in Hr as [Hg|(gt & _ & Hr)].
  { unfold MapMaker.as_geom in Hg. destruct (MapMaker.geom_true self); [done|].
    injection Hg as <-. right. right. by eexists. }
  apply bind_Raise in Hr as [Hc|(g' & _ & Hr)].
  { apply cutout_raise in Hc. tauto. }
  apply bind_Raise in Hr as [Hm|(m' & _ & [=])].
  destruct (MapMaker.exclusion_mask self) as [mask|]; [|done].
  apply bind_Raise in Hm as [Hm|(m' & _ & [=])].
  apply map_cutout_raise in Hm. tauto.
Qed.

(** The first cutout decides when it raises. *)
Lemma get_obs_maker_cutout (self : MapMaker.t) (obs : Observation) (mode : cutout_mode)
    (e : exn) :
  WcsGeom.cutout (MapMaker.geom self) (pointing_radec obs)
    (2 * MapMaker.offset_max self)%Q mode = Raise e →
  MapMaker._get_obs_maker self obs mode = Raise e.
Proof. unfold MapMaker._get_obs_maker. by intros ->. Qed.

Lemma run_obs_skip (self : MapMaker.t) (names : list string) (obs : Observation)
    (st : gmap string Map.t * list log_record) :
  MapMaker._get_obs_maker self obs trim = Raise NoOverlapError →
  MapMaker.run_obs self names st obs =
  Ok (st.1, st.2 ++ [LogProcessing (obs_id obs); LogSkipNoOverlap (obs_id obs)]).
Proof. unfold MapMaker.run_obs. intros ->. by rewrite <- app_assoc. Qed.

Lemma ring_run_obs_skip (self : MapMakerRing.t) (sum_over_axis : bool)
    (spectrum : option SpectralModel) (keepdims : bool) (obs : Observation)
    (st : gmap string Map.t * list log_record) :
  (MapMaker._get_obs_maker (MapMakerRing.base self) obs strict = Raise NoOverlapError →
   MapMakerRing.run_obs self sum_over_axis spectrum keepdims st obs =
     Ok (st.1, st.2 ++ [LogSkipNoOverlap (obs_id obs)])) ∧
  (MapMaker._get_obs_maker (MapMakerRing.base self) obs strict = Raise PartialOverlapError →
   MapMakerRing.run_obs self sum_over_axis spectrum keepdims st obs =
     Ok (st.1, st.2 ++ [LogSkipPartialOverlap (obs_id obs)])).
Proof. unfold MapMakerRing.run_obs. split; by intros ->. Qed.

End runs.

(** ** What a run can raise *)

Section exceptions.
Context `{Services}.

Lemma getitem_raise {V} (d : gmap string V) (k : string) (e : exn) :
  getitem d k = Raise e → internal_exn e.
Proof. unfold getitem. destruct (d !! k); [done|]. by intros [= <-]. Qed.

Lemma quantity_to_value_raise (m : Map.t) (u : string) (e : exn) :
  quantity_to_value m u = Raise e → internal_exn e.
Proof. unfold quantity_to_value. destruct (unit_to_value _ _); [done|]. by intros [= <-]. Qed.

Lemma as_geom_raise (a : geom_arg) (e : exn) :
  MapMaker.as_geom a = Raise e → internal_exn e.
Proof. destruct a; [done|]. by intros [= <-]. Qed.

Lemma stack_raise (maps_obs : gmap string Map.t) (obs_maker : MapMakerObs.t)
    (maps : gmap string Map.t) (name : string) (e : exn) :
  MapMaker.stack maps_obs obs_maker maps name = Raise e → internal_exn e.
Proof.
  unfold MapMaker.stack.
  intros [Hr|(mo & _ & Hr)]%bind_Raise; [by eapply getitem_raise|].
  apply bind_Raise in Hr as [Hr|(m & _ & Hr)]; [by eapply getitem_raise|].
  apply bind_Raise in Hr as [Hr|(d & _ & Hr)]; [by eapply quantity_to_value_raise|].
  by destruct (String.eqb name "exposure").
Qed.

Lemma get_empty_maps_raise (self : MapMaker.t) (names : list string) (e : exn) :
  MapMaker._get_empty_maps self names = Raise e → internal_exn e.
Proof.
  unfold MapMaker._get_empty_maps. intros Hr.
  apply for_each_raise in Hr as (maps & name & _ & Hr).
  destruct (String.eqb name "exposure"); [|done].
  apply bind_Raise in Hr as [Hr|(g & _ & [=])]. by eapply as_geom_raise.
Qed.

Lemma run_obs_raise (self : MapMaker.t) (names : list string)
    (st : gmap string Map.t * list log_record) (obs : Observation) (e : exn) :
  names ⊆ available → MapMaker.run_obs self names st obs = Raise e → internal_exn e.
Proof.
  intros Hsub. unfold MapMaker.run_obs.
  destruct (MapMaker._get_obs_maker self obs trim) as [om|e'] eqn:Hom.
  - destruct (obs_run_Ok om (PyList (PyStr <$> names)) names) as (om' & -> & _);
      [by apply check_selection_names|].
    res_simpl.
    intros [Hr|(maps & _ & [=])]%bind_Raise.
    apply for_each_raise in Hr as (maps & name & _ & Hr). by eapply stack_raise.
  - apply get_obs_maker_raise in Hom as [->|[[[=] _]|[msg ->]]]; [done|].
    by intros [= <-].
Qed.

(** [MapMaker.run] raises the exception of the selection validation or an
    internal exception; never an overlap signal. *)
Lemma run_raise (self : MapMaker.t) (observations : list Observation) (selection : pyobj)
    (e : exn) :
  MapMaker.run self observations selection = Raise e →
  _check_selection selection = Raise e ∨ internal_exn e.
Proof.
  unfold MapMaker.run.
  intros [Hr|(names & Hc & Hr)]%bind_Raise; [by left|]. right.
  apply check_selection_Ok in Hc as [Hsub _].
  apply bind_Raise in Hr as [Hr|(maps & _ & Hr)]; [by eapply get_empty_maps_raise|].
  apply bind_Raise in Hr as [Hr|(st & _ & [=])].
  apply for_each_raise in Hr as (st & obs & _ & Hr). by eapply run_obs_raise.
Qed.

Lemma check_selection_raise (selection : pyobj) (e : exn) :
  _check_selection selection = Raise e →
  (∃ msg, e = TypeError msg) ∨ (∃ fmt args, e = ValueError fmt args).
Proof.
  unfold _check_selection.
  assert (∀ l, match find (λ name, negb (is_available name)) l with
               | Some name => Raise (ValueError "Selection not available: {!r}" [name])
               | None => Ok (omap str_of l)
               end = Raise e → ∃ fmt args, e = ValueError fmt args) as Hlist.
  { intros l. destruct (find _ l); [|done]. intros [= <-]. eauto. }
  destruct selection as [| | | |l| |]; try (intros [= <-]; left; by eexists).
  intros Hr. right. exact (Hlist l Hr).
Qed.

Lemma ring_stack_raise (maps_obs : gmap string (option Map.t))
    (maps : gmap string Map.t) (name : string) (e : exn) :
  MapMakerRing.stack maps_obs maps name = Raise e → internal_exn e.
Proof.
  unfold MapMakerRing.stack.
  intros [Hr|(v & _ & Hr)]%bind_Raise; [by eapply getitem_raise|].
  apply bind_Raise in Hr as [Hr|(mo & _ & Hr)].
  { destruct v; [done|]. by injection Hr as <-. }
  apply bind_Raise in Hr as [Hr|(m & _ & Hr)]; [by eapply getitem_raise|].
  apply bind_Raise in Hr as [Hr|(d & _ & [=])]. by eapply quantity_to_value_raise.
Qed.

(** [MapMakerRing._run] raises an internal exception or what the
    background estimator raises. *)
Lemma ring_run_raise (self : MapMakerRing.t) (observations : list Observation)
    (sum_over_axis : bool) (spectrum : option SpectralModel) (keepdims : bool) (e : exn) :
  MapMakerRing._run self observations sum_over_axis spectrum keepdims = Raise e →
  internal_exn e ∨
  ∃ estimator maps_obs, MapMakerRing.background_estimator self = Some estimator ∧
    estimator_run estimator maps_obs = Raise e.
Proof.
  unfold MapMakerRing._run.
  intros [Hr|(maps & _ & Hr)]%bind_Raise; [left; by eapply get_empty_maps_raise|].
  apply bind_Raise in Hr as [Hr|(st & _ & [=])].
  apply for_each_raise in Hr as (st & obs & _ & Hr).
  unfold MapMakerRing.run_obs in Hr.
  destruct (MapMaker._get_obs_maker (MapMakerRing.base self) obs strict) as [om|e'] eqn:Hom.
  - destruct (obs_run_Ok om PyNone available) as (om' & Hrun & _); [done|].
    rewrite Hrun in Hr. revert Hr. res_simpl.
    intros [Hr|(mo & _ & Hr)]%bind_Raise.
    { left. destruct sum_over_axis; [|done].
      apply bind_Raise in Hr as [Hr|(im & _ & Hr)].
      - unfold MapMakerRing.sum_over_axes_dict in Hr.
        case_bool_decide; [done|]. by injection Hr as <-.
      - apply bind_Raise in Hr as [Hr|(mk & _ & [=])].
        destruct (MapMakerObs.exclusion_mask om'); [done|]. by injection Hr as <-. }
    apply bind_Raise in Hr as [Hr|(be & Hbe & Hr)].
    { left. destruct (MapMakerRing.background_estimator self); [done|]. by injection Hr as <-. }
    destruct (MapMakerRing.background_estimator self) as [be'|] eqn:Hself; [|done].
    injection Hbe as ->.
    apply bind_Raise in Hr as [Hr|(bk & _ & Hr)]; [right; by eauto|]. left.
    apply bind_Raise in Hr as [Hr|(b & _ & Hr)]; [by eapply getitem_raise|].
    apply bind_Raise in Hr as [Hr|(c & _ & Hr)]; [by eapply getitem_raise|].
    apply bind_Raise in Hr as [Hr|(m & _ & [=])].
    apply for_each_raise in Hr as (m & name & _ & Hr). by eapply ring_stack_raise.
  - left. apply get_obs_maker_raise in Hom as [->|[[_ ->]|[msg ->]]]; [done..|].
    by injection Hr as <-.
Qed.

End exceptions.

(** ** Skipped observations, validation and stored state *)

Section policies.
Context `{Services}.

Lemma run_skip (self : MapMaker.t) (before after : list Observation) (obs : Observation)
    (selection : pyobj) :
  MapMaker._get_obs_maker self obs trim = Raise NoOverlapError →
  without_log (MapMaker.run self (before ++ obs :: after) selection) =
  without_log (MapMaker.run self (before ++ after) selection).
Proof.
  intros Hskip. unfold without_log, MapMaker.run.
  destruct (_check_selection selection) as [names|e]; res_simpl; [|done].
  destruct (MapMaker._get_empty_maps self names) as [maps|e]; res_simpl; [|done].
  assert (Hs := for_each_skip (MapMaker.run_obs self names) (run_obs_log self names)
                  before after obs maps []).
  unfold mbind in *.
  destruct (for_each _ (before ++ obs :: after) _) as [[m1 l1]|e1];
    destruct (for_each _ (before ++ after) _) as [[m2 l2]|e2]; simpl in *;
    try (specialize (Hs ltac:(intros st; eexists; by apply run_obs_skip))); by simplify_eq.
Qed.

Lemma ring_run_skip (self : MapMakerRing.t) (before after : list Observation)
    (obs : Observation) (sum_over_axis : bool) (spectrum : option SpectralModel)
    (keepdims : bool) :
  MapMaker._get_obs_maker (MapMakerRing.base self) obs strict = Raise NoOverlapError ∨
  MapMaker._get_obs_maker (MapMakerRing.base self) obs strict = Raise PartialOverlapError →
  without_log (MapMakerRing._run self (before ++ obs :: after) sum_over_axis spectrum keepdims) =
  without_log (MapMakerRing._run self (before ++ after) sum_over_axis spectrum keepdims).
Proof.
  intros Hskip. unfold without_log, MapMakerRing._run.
  destruct (MapMaker._get_empty_maps _ _) as [maps|e]; res_simpl; [|done].
  set (maps0 := if sum_over_axis then _ else maps).
  assert (Hs := for_each_skip (MapMakerRing.run_obs self sum_over_axis spectrum keepdims)
                  (ring_run_obs_log self sum_over_axis spectrum keepdims)
                  before after obs maps0 []).
  assert (∀ st, ∃ d, MapMakerRing.run_obs self sum_over_axis spectrum keepdims st obs =
                     Ok (st.1, st.2 ++ d)) as Hd.
  { intros st.
    destruct (ring_run_obs_skip self sum_over_axis spectrum keepdims obs st) as [H1 H2].
    destruct Hskip as [Hskip|Hskip]; eexists; eauto. }
  specialize (Hs Hd). unfold mbind in *.
  destruct (for_each _ (before ++ obs :: after) _) as [[m1 l1]|e1];
    destruct (for_each _ (before ++ after) _) as [[m2 l2]|e2]; simpl in *; by simplify_eq.
Qed.

(** C4: an observation whose cutout raises the no-overlap signal is skipped
    by [MapMaker.run] and by [MapMakerRing._run]: its iteration returns with
    the maps unchanged and the loop goes on, so the maps and the stored
    state are those of the run without it.  In the strict mode of the ring
    maker the same holds for the partial-overlap signal, which the cutouts
    of trim mode never raise.  No overlap signal leaves [MapMaker.run], and
    one can leave [MapMakerRing._run] only as an exception of the
    background estimator. *)
Theorem overlap_skip (self : MapMaker.t) (ring : MapMakerRing.t) (obs : Observation)
    (before after : list Observation) (selection : pyobj) (sum_over_axis : bool)
    (spectrum : option SpectralModel) (keepdims : bool) :
  let cutout_of (maker : MapMaker.t) (mode : cutout_mode) :=
    WcsGeom.cutout (MapMaker.geom maker) (pointing_radec obs)
      (2 * MapMaker.offset_max maker)%Q mode in
  (∀ e, cutout_of self trim = Raise e ∨ MapMaker._get_obs_maker self obs trim = Raise e →
     MapMaker._get_obs_maker self obs trim = Raise e ∧ e ≠ PartialOverlapError) ∧
  (MapMaker._get_obs_maker self obs trim = Raise NoOverlapError →
     (∀ names st, MapMaker.run_obs self names st obs =
        Ok (st.1, st.2 ++ [LogProcessing (obs_id obs); LogSkipNoOverlap (obs_id obs)])) ∧
     without_log (MapMaker.run self (before ++ obs :: after) selection) =
     without_log (MapMaker.run self (before ++ after) selection)) ∧
  (∀ e, e = NoOverlapError ∨ e = PartialOverlapError →
     cutout_of (MapMakerRing.base ring) strict = Raise e ∨
     MapMaker._get_obs_maker (MapMakerRing.base ring) obs strict = Raise e →
     (∀ st, MapMakerRing.run_obs ring sum_over_axis spectrum keepdims st obs =
        Ok (st.1, st.2 ++ [match e with
                           | PartialOverlapError => LogSkipPartialOverlap (obs_id obs)
                           | _ => LogSkipNoOverlap (obs_id obs)
                           end])) ∧
     without_log (MapMakerRing._run ring (before ++ obs :: after) sum_over_axis spectrum keepdims) =
     without_log (MapMakerRing._run ring (before ++ after) sum_over_axis spectrum keepdims)) ∧
  (∀ e, MapMaker.run self (before ++ obs :: after) selection = Raise e →
     e ≠ NoOverlapError ∧ e ≠ PartialOverlapError) ∧
  (∀ e, MapMakerRing._run ring (before ++ obs :: after) sum_over_axis spectrum keepdims = Raise e →
     e = NoOverlapError ∨ e = PartialOverlapError →
     ∃ estimator maps_obs, MapMakerRing.background_estimator ring = Some estimator ∧
       estimator_run estimator maps_obs = Raise e).
Proof.
  intros cutout_of. split; [|split; [|split; [|split]]].
  - intros e [Hc|Hr].
    + split; [by apply get_obs_maker_cutout|].
      apply cutout_trim_raise in Hc as ->. done.
    + split; [done|].
      apply get_obs_maker_raise in Hr as [->|[[[=] _]|[msg ->]]]; done.
  - intros Hskip. split.
    + intros names st. by apply run_obs_skip.
    + by apply run_skip.
  - intros e He Hraise.
    assert (MapMaker._get_obs_maker (MapMakerRing.base ring) obs strict = Raise e) as Hr.
    { destruct Hraise as [Hc|Hr]; [by apply get_obs_maker_cutout|done]. }
    split.
    + intros st.
      destruct (ring_run_obs_skip ring sum_over_axis spectrum keepdims obs st) as [H1 H2].
      destruct He as [-> | ->]; auto.
    + apply ring_run_skip. destruct He as [-> | ->]; auto.
  - intros e Hr. apply run_raise in Hr as [Hc|Hi].
    + apply check_selection_raise in Hc as [[msg ->]|(fmt & args & ->)]; done.
    + by destruct e.
  - intros e Hr He. apply ring_run_raise in Hr as [Hi|Hest]; [|done].
    destruct He as [-> | ->]; done.
Qed.

(** C5, as the code has it: a selection of [None] stands for the three
    products; an input that is not a list (a string, a tuple of names, ...)
    raises a [TypeError]; a list raises a [ValueError] naming its first
    element that is not one of the three names; a list of names of the set
    is accepted as it is.  [MapMaker.run] and [MapMakerObs.run] raise what
    the validation raises. *)
Theorem selection_validation (self : MapMaker.t) (obs_maker : MapMakerObs.t)
    (observations : list Observation) (selection : pyobj) :
  _check_selection PyNone = Ok ["counts"; "exposure"; "background"] ∧
  ((∀ l, selection ≠ PyList l) → selection ≠ PyNone →
     _check_selection selection = Raise (TypeError "Selection must be a list of str")) ∧
  (∀ l x, selection = PyList l → x ∈ l → is_available x = false →
     ∃ valid name rest, l = valid ++ name :: rest ∧
       Forall (λ o, is_available o = true) valid ∧ is_available name = false ∧
       _check_selection selection =
         Raise (ValueError "Selection not available: {!r}" [name])) ∧
  (∀ names, selection = PyList (PyStr <$> names) →
     names ⊆ ["counts"; "exposure"; "background"] →
     _check_selection selection = Ok names) ∧
  (∀ e, _check_selection selection = Raise e →
     MapMaker.run self observations selection = Raise e ∧
     MapMakerObs.run obs_maker selection = Raise e).
Proof.
  split; [done|split; [|split; [|split]]].
  - intros Hlist Hnone. destruct selection; try done. by destruct (Hlist l).
  - intros l x -> Hx Hbad.
    destruct (first_unavailable l x Hx Hbad) as (valid & name & rest & -> & Hvalid & Hname).
    exists valid, name, rest. repeat split; try done.
    unfold _check_selection. by rewrite find_unavailable_first.
  - intros names -> Hsub. by apply check_selection_names.
  - intros e He. unfold MapMaker.run, MapMakerObs.run. by rewrite He.
Qed.

(** C7: [run_images] raises its [ValueError] exactly when no [run] has
    stored maps and no observations are given.  With stored maps it
    collapses them, whatever observations are passed: nothing is processed
    or logged and the state is kept.  Without stored maps it runs on the
    given observations with the default selection and collapses the
    result. *)
Theorem run_images_prior_state (self : MapMaker.t) (observations : option (list Observation))
    (spectrum : option SpectralModel) (keepdims : bool) :
  ((∃ fmt args, MapMaker.run_images self observations spectrum keepdims =
      Raise (ValueError fmt args)) ↔
     (MapMaker._maps self = None ∧ observations = None)) ∧
  (MapMaker._maps self = None → observations = None →
     MapMaker.run_images self observations spectrum keepdims =
       Raise (ValueError "Requires observations..." [])) ∧
  (∀ maps, MapMaker._maps self = Some maps →
     MapMaker.run_images self observations spectrum keepdims =
       Ok (MapMaker._maps_sum_over_axes maps spectrum keepdims, self, [])) ∧
  (∀ obs, MapMaker._maps self = None → observations = Some obs →
     MapMaker.run_images self observations spectrum keepdims =
       r ← MapMaker.run self obs PyNone;
       Ok (MapMaker._maps_sum_over_axes r.1.1 spectrum keepdims, r.1.2, r.2)).
Proof.
  assert (∀ obs, MapMaker._maps self = None → observations = Some obs →
     MapMaker.run_images self observations spectrum keepdims =
       r ← MapMaker.run self obs PyNone;
       Ok (MapMaker._maps_sum_over_axes r.1.1 spectrum keepdims, r.1.2, r.2)) as Hrun.
  { intros obs Hnone ->. unfold MapMaker.run_images. rewrite Hnone. res_simpl.
    destruct (MapMaker.run self obs PyNone) as [[[maps self'] lg]|e] eqn:Hr; res_simpl; [|done].
    unfold MapMaker.run in Hr.
    apply bind_Ok in Hr as (names & _ & Hr). apply bind_Ok in Hr as (maps0 & _ & Hr).
    apply bind_Ok in Hr as (st & _ & [= <- <- <-]). done. }
  split; [|split; [|split]];
    [|by intros Hm ->; unfold MapMaker.run_images; rewrite Hm
     |by intros maps Hm; unfold MapMaker.run_images; rewrite Hm; res_simpl; rewrite Hm|done].
  split.
  - intros (fmt & args & Hr).
    destruct (MapMaker._maps self) as [maps|] eqn:Hm.
    { unfold MapMaker.run_images in Hr. rewrite Hm in Hr. revert Hr. res_simpl.
      by rewrite Hm. }
    split; [done|]. destruct observations as [obs|]; [|done].
    rewrite (Hrun obs) in Hr by done.
    apply bind_Raise in Hr as [Hr|(r & _ & [=])].
    apply run_raise in Hr as [[=]|Hi]. done.
  - intros [Hm ->]. unfold MapMaker.run_images. rewrite Hm. eauto.
Qed.

End policies.

(** ** Arrays: accumulation by coordinate *)

Section arrays.
Context `{Services}.

Lemma zip_with_alter {A B C} (h : A → B → C) (f : A → A) (g : C → C) (l : list A)
    (k : list B) (i : nat) :
  (∀ a b, h (f a) b = g (h a b)) →
  zip_with h (alter f i l) k = alter g i (zip_with h l k).
Proof.
  intros Hfg. revert k i. induction l as [|a l IH]; intros [|b k] [|i]; simpl; try done.
  - by rewrite Hfg.
  - f_equal. apply IH.
Qed.

Local Abbreviation zip2 := (zip_with (zip_with Z.add)).

Lemma add_at_zip (d x : list (list Z)) (idx : nat * nat) (v : Z) :
  zip2 (Map.add_at d idx v) x = Map.add_at (zip2 d x) idx v.
Proof.
  unfold Map.add_at. apply zip_with_alter. intros a b.
  apply zip_with_alter. intros; lia.
Qed.

Lemma fill_one_zip (g : WcsGeom.t) (d x : list (list Z)) (cv : MapCoord * Z) :
  zip2 (Map.fill_one g d cv) x = Map.fill_one g (zip2 d x) cv.
Proof. unfold Map.fill_one. destruct (WcsGeom.coord_to_idx g cv.1); [apply add_at_zip|done]. Qed.

Lemma foldl_fill_zip (g : WcsGeom.t) (d x : list (list Z)) (cvs : list (MapCoord * Z)) :
  zip2 (foldl (Map.fill_one g) d cvs) x = foldl (Map.fill_one g) (zip2 d x) cvs.
Proof.
  revert d. induction cvs as [|cv cvs IH]; intros d; simpl; [done|].
  by rewrite IH, fill_one_zip.
Qed.

(** Filling commutes with adding another map. *)
Lemma fill_by_coord_add (m x : Map.t) (coords : list (list MapCoord)) (w : list (list Z)) :
  Map.fill_by_coord (map_add m x) coords w = map_add (Map.fill_by_coord m coords w) x.
Proof. unfold Map.fill_by_coord, map_add. simpl. by rewrite foldl_fill_zip. Qed.

Lemma same_shape_refl (d : list (list Z)) : same_shape d d.
Proof. unfold same_shape. induction d; by constructor. Qed.

Lemma same_shape_sym (d d' : list (list Z)) : same_shape d d' → same_shape d' d.
Proof. unfold same_shape. intros Hs. apply Forall2_flip. eapply Forall2_impl; [done|]. by simpl. Qed.

Lemma same_shape_trans (d1 d2 d3 : list (list Z)) :
  same_shape d1 d2 → same_shape d2 d3 → same_shape d1 d3.
Proof.
  unfold same_shape. intros H1 H2. eapply Forall2_trans; [|done..].
  simpl. intros; congruence.
Qed.

Lemma add_at_shape (d : list (list Z)) (idx : nat * nat) (v : Z) :
  same_shape (Map.add_at d idx v) d.
Proof.
  unfold same_shape, Map.add_at. apply Forall2_same_length_lookup_2.
  - by rewrite length_alter.
  - intros i r r' Hr Hr'. destruct (decide (idx.1 = i)) as [<-|Hne].
    + rewrite list_lookup_alter_eq, Hr' in Hr. injection Hr as <-. by rewrite length_alter.
    + rewrite list_lookup_alter_ne in Hr by done. congruence.
Qed.

Lemma foldl_fill_shape (g : WcsGeom.t) (d : list (list Z)) (cvs : list (MapCoord * Z)) :
  same_shape (foldl (Map.fill_one g) d cvs) d.
Proof.
  revert d. induction cvs as [|cv cvs IH]; intros d; simpl; [apply same_shape_refl|].
  eapply same_shape_trans; [apply IH|]. unfold Map.fill_one.
  destruct (WcsGeom.coord_to_idx g cv.1); [apply add_at_shape|apply same_shape_refl].
Qed.

Lemma same_frame_refl (m : Map.t) : same_frame m m.
Proof. repeat split. apply same_shape_refl. Qed.

Lemma same_frame_sym (m m' : Map.t) : same_frame m m' → same_frame m' m.
Proof. intros (? & ? & ?). repeat split; try done. by apply same_shape_sym. Qed.

Lemma same_frame_trans (m1 m2 m3 : Map.t) :
  same_frame m1 m2 → same_frame m2 m3 → same_frame m1 m3.
Proof.
  intros (? & ? & ?) (? & ? & ?). repeat split; try congruence.
  by eapply same_shape_trans.
Qed.

Lemma fill_by_coord_frame (m : Map.t) (coords : list (list MapCoord)) (w : list (list Z)) :
  same_frame (Map.fill_by_coord m coords w) m.
Proof. repeat split. apply foldl_fill_shape. Qed.

Lemma pixel_zip (d x : list (list Z)) (e p : nat) :
  (row ← zip2 d x !! e; row !! p) =
  a ← (row ← d !! e; row !! p); b ← (row ← x !! e; row !! p); Some (a + b).
Proof.
  rewrite lookup_zip_with.
  destruct (d !! e) as [r|]; simpl; [|done].
  destruct (x !! e) as [r'|]; simpl.
  - rewrite lookup_zip_with. by destruct (r !! p).
  - by destruct (r !! p).
Qed.

Lemma pixel_map_add (m x : Map.t) (e p : nat) :
  pixel (map_add m x) e p = a ← pixel m e p; b ← pixel x e p; Some (a + b).
Proof. apply pixel_zip. Qed.

Lemma same_shape_pixel (d d' : list (list Z)) (e p : nat) :
  same_shape d d' →
  is_Some (row ← d !! e; row !! p) ↔ is_Some (row ← d' !! e; row !! p).
Proof.
  intros Hs. unfold same_shape in Hs.
  destruct (d !! e) as [r|] eqn:Hr; destruct (d' !! e) as [r'|] eqn:Hr'; simpl.
  - assert (length r = length r') as Hlen
      by exact (Forall2_lookup_lr _ _ _ _ _ _ Hs Hr Hr').
    rewrite !lookup_lt_is_Some. by rewrite Hlen.
  - apply Forall2_length in Hs. apply lookup_lt_Some in Hr. apply lookup_ge_None in Hr'. lia.
  - apply Forall2_length in Hs. apply lookup_lt_Some in Hr'. apply lookup_ge_None in Hr. lia.
  - done.
Qed.

(** Adding zeros of the same shape changes nothing. *)
Lemma zip2_zeros (d z : list (list Z)) :
  same_shape z d → Forall (Forall (λ v, v = 0)) z → zip2 z d = d.
Proof.
  unfold same_shape. intros Hs. induction Hs as [|r r' z d Hlen _ IH]; simpl; [done|].
  intros [Hr Hz]%Forall_cons. f_equal; [|by apply IH].
  clear -Hlen Hr. revert r' Hlen.
  induction Hr as [|v r -> _ IH]; intros [|v' r'] Hlen; simpl in *; try done.
  f_equal. apply IH. lia.
Qed.

Lemma zip2_comm (d x : list (list Z)) : zip2 d x = zip2 x d.
Proof.
  revert x. induction d as [|r d IH]; intros [|r' x]; simpl; try done.
  f_equal; [|apply IH]. clear. revert r'.
  induction r as [|v r IH]; intros [|v' r']; simpl; try done. f_equal; [lia|apply IH].
Qed.

Lemma zip2_double (d : list (list Z)) : zip2 d d = List.map (List.map (Z.mul 2)) d.
Proof.
  induction d as [|r d IH]; simpl; [done|]. f_equal; [|done].
  clear. induction r as [|v r IH]; simpl; [done|]. f_equal; [lia|done].
Qed.

Lemma tabulate_zeros (g : WcsGeom.t) : Forall (Forall (λ v, v = 0)) (Map.tabulate g (λ _ _, 0)).
Proof.
  rewrite tabulate_const. apply Forall_replicate, Forall_replicate. done.
Qed.

(** A zero-filled map is neutral for the sum with a map of its frame. *)
Lemma map_add_zero_l (g : WcsGeom.t) (u : string) (m : Map.t) :
  same_frame m (Map.from_geom g u) → map_add (Map.from_geom g u) m = m.
Proof.
  destruct m as [gm um dm]. intros (Hg & Hu & Hs). simpl in *. subst.
  unfold map_add. simpl. f_equal.
  apply zip2_zeros; [by apply same_shape_sym|apply tabulate_zeros].
Qed.

Lemma map_add_comm (m x : Map.t) :
  Map.geom m = Map.geom x → Map.unit m = Map.unit x → map_add m x = map_add x m.
Proof. intros Hg Hu. unfold map_add. by rewrite Hg, Hu, zip2_comm. Qed.

Lemma map_add_double (m : Map.t) : map_add m m = map_scale 2 m.
Proof. unfold map_add, map_scale. by rewrite zip2_double. Qed.

(** Filling leaves the elements no coordinate falls in as they are. *)
Lemma add_at_pixel_ne (d : list (list Z)) (idx : nat * nat) (v : Z) (e p : nat) :
  idx ≠ (e, p) →
  (row ← Map.add_at d idx v !! e; row !! p) = (row ← d !! e; row !! p).
Proof.
  intros Hne. unfold Map.add_at. destruct idx as [e' p']. simpl.
  destruct (decide (e' = e)) as [->|He].
  - rewrite list_lookup_alter_eq. destruct (d !! e) as [r|]; simpl; [|done].
    rewrite list_lookup_alter_ne; [done|]. congruence.
  - by rewrite list_lookup_alter_ne.
Qed.

Lemma foldl_fill_pixel (g : WcsGeom.t) (d : list (list Z)) (cvs : list (MapCoord * Z))
    (e p : nat) :
  (e, p) ∉ omap (WcsGeom.coord_to_idx g) cvs.*1 →
  (row ← foldl (Map.fill_one g) d cvs !! e; row !! p) = (row ← d !! e; row !! p).
Proof.
  revert d. induction cvs as [|cv cvs IH]; intros d Hnot; csimpl in *; [done|].
  unfold Map.fill_one at 2.
  destruct (WcsGeom.coord_to_idx g cv.1) as [idx|] eqn:Hidx; simpl in Hnot.
  - apply not_elem_of_cons in Hnot as [Hne Hnot].
    rewrite IH by done. by apply add_at_pixel_ne.
  - by apply IH.
Qed.

Lemma fill_by_coord_pixel (m : Map.t) (coords : list (list MapCoord)) (w : list (list Z))
    (e p : nat) :
  (e, p) ∉ omap (WcsGeom.coord_to_idx (Map.geom m)) (concat coords) →
  pixel (Map.fill_by_coord m coords w) e p = pixel m e p.
Proof.
  intros Hnot. unfold pixel, Map.fill_by_coord. simpl. apply foldl_fill_pixel.
  intros Hin. apply Hnot. apply list_elem_of_omap in Hin as (c & Hc & Hidx).
  apply list_elem_of_omap. exists c. split; [|done].
  apply list_elem_of_fmap in Hc as ([c' v] & -> & Hcv). simpl.
  by apply elem_of_zip_l in Hcv.
Qed.

End arrays.

(** ** Stacking *)

Section stacking.
Context `{Services}.

Lemma for_each_ext {A S} (f g : S → A → res S) (l : list A) (s : S) :
  (∀ s x, x ∈ l → f s x = g s x) → for_each f l s = for_each g l s.
Proof.
  revert s. induction l as [|x l IH]; intros s Hfg; simpl; [done|].
  rewrite Hfg by by left. destruct (g s x) as [s'|e]; simpl; [|done].
  apply IH. intros s2 y Hy. apply Hfg. by right.
Qed.

Lemma deposit_Ok (om : MapMakerObs.t) (n : string) (m m' : Map.t) :
  deposit om n m = Ok m' ↔
  ∃ conv, unit_to_value (Map.unit (obs_product om n)) (Map.unit m) = Some conv ∧
    m' = Map.fill_by_coord m (obs_coords om n)
           (List.map (List.map conv) (Map.data (obs_product om n))).
Proof.
  unfold deposit, quantity_to_value.
  destruct (unit_to_value _ _) as [conv|]; res_simpl; split.
  - intros [= <-]. by exists conv.
  - by intros (conv' & [= <-] & ->).
  - done.
  - by intros (conv' & [=] & _).
Qed.

Lemma deposit_frame (om : MapMakerObs.t) (n : string) (m m' : Map.t) :
  deposit om n m = Ok m' → same_frame m' m.
Proof. intros (conv & _ & ->)%deposit_Ok. apply fill_by_coord_frame. Qed.

(** Depositing commutes with adding another map. *)
Lemma deposit_add (om : MapMakerObs.t) (n : string) (m x : Map.t) :
  deposit om n (map_add m x) = m' ← deposit om n m; Ok (map_add m' x).
Proof.
  unfold deposit. change (Map.unit (map_add m x)) with (Map.unit m).
  destruct (quantity_to_value _ _) as [d|e]; res_simpl; [|done].
  by rewrite fill_by_coord_add.
Qed.

Lemma deposit_pixel (om : MapMakerObs.t) (n : string) (m m' : Map.t) (e p : nat) :
  deposit om n m = Ok m' →
  (e, p) ∉ omap (WcsGeom.coord_to_idx (Map.geom m)) (concat (obs_coords om n)) →
  pixel m' e p = pixel m e p.
Proof. intros (conv & _ & ->)%deposit_Ok. apply fill_by_coord_pixel. Qed.

(** Whether a deposit returns depends on the unit of the target only. *)
Lemma deposit_unit (om : MapMakerObs.t) (n : string) (m x m' : Map.t) :
  Map.unit m = Map.unit x → deposit om n m = Ok m' → ∃ x', deposit om n x = Ok x'.
Proof.
  intros Hu (conv & Hconv & _)%deposit_Ok. eexists. apply deposit_Ok.
  exists conv. by rewrite <- Hu.
Qed.

Lemma deposit_iter_frame (k : nat) (om : MapMakerObs.t) (n : string) (m m' : Map.t) :
  deposit_iter k om n m = Ok m' → same_frame m' m.
Proof.
  revert m. induction k as [|k IH]; intros m; simpl.
  - intros [= <-]. apply same_frame_refl.
  - intros (m1 & Hd & Hi)%bind_Ok. eapply same_frame_trans; [by apply IH|].
    by eapply deposit_frame.
Qed.

Lemma deposit_iter_pixel (k : nat) (om : MapMakerObs.t) (n : string) (m m' : Map.t)
    (e p : nat) :
  deposit_iter k om n m = Ok m' →
  (e, p) ∉ omap (WcsGeom.coord_to_idx (Map.geom m)) (concat (obs_coords om n)) →
  pixel m' e p = pixel m e p.
Proof.
  revert m. induction k as [|k IH]; intros m; simpl.
  - by intros [= <-].
  - intros (m1 & Hd & Hi)%bind_Ok Hnot.
    rewrite (IH m1 Hi).
    + by eapply deposit_pixel.
    + apply deposit_frame in Hd as (-> & _). done.
Qed.

Lemma stack_product_Ok (om : MapMakerObs.t) (A A' : gmap string Map.t) (n : string) :
  stack_product om A n = Ok A' ↔
  ∃ a a', A !! n = Some a ∧ deposit om n a = Ok a' ∧ A' = <[n := a']> A.
Proof.
  unfold stack_product, getitem. destruct (A !! n) as [a|]; res_simpl.
  - destruct (deposit om n a) as [a'|e] eqn:Hd; res_simpl; split.
    + intros [= <-]. exists a, a'. by repeat split.
    + intros (? & ? & [= <-] & Hd' & ->). congruence.
    + done.
    + intros (? & ? & [= <-] & Hd' & _). congruence.
  - split; [done|]. by intros (? & ? & [=] & _).
Qed.

(** The effect of the inner loop on the stacked map of a name: the product
    is deposited once per occurrence of the name in the selection. *)
Lemma stack_all_lookup (om : MapMakerObs.t) (names : list string)
    (A A' : gmap string Map.t) (n : string) :
  for_each (stack_product om) names A = Ok A' →
  match A !! n with
  | Some a => ∃ a', A' !! n = Some a' ∧ deposit_iter (occurrences n names) om n a = Ok a'
  | None => A' !! n = None ∧ n ∉ names
  end.
Proof.
  revert A. induction names as [|x names IH]; intros A; simpl.
  - intros [= <-]. destruct (A !! n); [by eauto|]. split; [done|]. apply not_elem_of_nil.
  - intros (A1 & Hs & Hrest)%bind_Ok.
    apply stack_product_Ok in Hs as (a & a1 & Ha & Hd & ->).
    specialize (IH _ Hrest). unfold occurrences. rewrite filter_cons.
    destruct (decide (x = n)) as [->|Hne].
    + rewrite lookup_insert_eq in IH. rewrite Ha. destruct IH as (a' & Ha' & Hi).
      exists a'. split; [done|]. simpl. by rewrite Hd.
    + rewrite lookup_insert_ne in IH by done.
      destruct (A !! n); [done|]. destruct IH as [? Hnot]. split; [done|].
      by apply not_elem_of_cons.
Qed.

Lemma maps_frame_refl (A : gmap string Map.t) : maps_frame A A.
Proof. intros n. destruct (A !! n); [apply same_frame_refl|done]. Qed.

Lemma maps_frame_sym (A B : gmap string Map.t) : maps_frame A B → maps_frame B A.
Proof.
  intros HAB n. specialize (HAB n).
  destruct (A !! n), (B !! n); try done. by apply same_frame_sym.
Qed.

Lemma maps_frame_trans (A B C : gmap string Map.t) :
  maps_frame A B → maps_frame B C → maps_frame A C.
Proof.
  intros HAB HBC n. specialize (HAB n). specialize (HBC n).
  destruct (A !! n), (B !! n), (C !! n); try done. by eapply same_frame_trans.
Qed.

Lemma stack_all_frame (om : MapMakerObs.t) (names : list string) (A A' : gmap string Map.t) :
  for_each (stack_product om) names A = Ok A' → maps_frame A' A.
Proof.
  intros Hs n. assert (Hn := stack_all_lookup om names A A' n Hs).
  destruct (A !! n) as [a|].
  - destruct Hn as (a' & -> & Hi). by eapply deposit_iter_frame.
  - by destruct Hn as [-> _].
Qed.

Lemma maps_add_lookup (A X : gmap string Map.t) (n : string) :
  maps_add A X !! n = a ← A !! n; x ← X !! n; Some (map_add a x).
Proof.
  unfold maps_add. rewrite map_lookup_zip_with.
  destruct (A !! n) as [a|]; simpl; [|done]. by destruct (X !! n).
Qed.

Lemma maps_add_insert (A X : gmap string Map.t) (n : string) (a x : Map.t) :
  X !! n = Some x → <[n := map_add a x]> (maps_add A X) = maps_add (<[n := a]> A) X.
Proof.
  intros Hx. apply map_eq. intros k. rewrite maps_add_lookup.
  destruct (decide (n = k)) as [<-|Hne].
  - by rewrite !lookup_insert_eq, Hx.
  - by rewrite !lookup_insert_ne, maps_add_lookup.
Qed.

Lemma stack_product_add (om : MapMakerObs.t) (A X : gmap string Map.t) (n : string) :
  (is_Some (A !! n) → is_Some (X !! n)) →
  stack_product om (maps_add A X) n =
  A' ← stack_product om A n; Ok (maps_add A' X).
Proof.
  intros Hdom. unfold stack_product, getitem. rewrite maps_add_lookup.
  destruct (A !! n) as [a|] eqn:Ha; res_simpl; [|done].
  destruct Hdom as [x Hx]; [done|]. rewrite Hx. simpl.
  rewrite deposit_add.
  destruct (deposit om n a) as [a'|e]; res_simpl; [|done].
  by rewrite (maps_add_insert A X n a' x Hx).
Qed.

(** The inner loop commutes with adding a set of maps that has the keys of
    the stacked maps. *)
Lemma stack_all_add (om : MapMakerObs.t) (names : list string) (A X : gmap string Map.t) :
  (∀ n, is_Some (A !! n) → is_Some (X !! n)) →
  for_each (stack_product om) names (maps_add A X) =
  A' ← for_each (stack_product om) names A; Ok (maps_add A' X).
Proof.
  revert A. induction names as [|n names IH]; intros A Hdom; cbn [for_each]; [done|].
  rewrite stack_product_add by apply Hdom.
  destruct (stack_product om A n) as [A1|e] eqn:Hs; res_simpl; [|done].
  apply IH. apply stack_product_Ok in Hs as (a & a' & Ha & _ & ->).
  intros k. destruct (decide (n = k)) as [<-|Hne].
  - intros _. apply Hdom. by rewrite Ha.
  - rewrite lookup_insert_ne by done. apply Hdom.
Qed.

Lemma maps_frame_dom (A B X : gmap string Map.t) :
  maps_frame A B → (∀ n, is_Some (B !! n) → is_Some (X !! n)) →
  ∀ n, is_Some (A !! n) → is_Some (X !! n).
Proof.
  intros HAB Hdom n Ha. apply Hdom. specialize (HAB n).
  destruct (A !! n), (B !! n); try done; by destruct Ha.
Qed.

Lemma obs_step_frame (self : MapMaker.t) (names : list string) (A A' : gmap string Map.t)
    (obs : Observation) :
  obs_step self names A obs = Ok A' → maps_frame A' A.
Proof.
  unfold obs_step. destruct (MapMaker._get_obs_maker self obs trim) as [om|e].
  - apply stack_all_frame.
  - destruct e; try done. intros [= <-]. apply maps_frame_refl.
Qed.

Lemma obs_step_add (self : MapMaker.t) (names : list string) (A X : gmap string Map.t)
    (obs : Observation) :
  (∀ n, is_Some (A !! n) → is_Some (X !! n)) →
  obs_step self names (maps_add A X) obs =
  A' ← obs_step self names A obs; Ok (maps_add A' X).
Proof.
  intros Hdom. unfold obs_step.
  destruct (MapMaker._get_obs_maker self obs trim) as [om|e].
  - by apply stack_all_add.
  - by destruct e.
Qed.

Lemma steps_frame (self : MapMaker.t) (names : list string) (l : list Observation)
    (A A' : gmap string Map.t) :
  for_each (obs_step self names) l A = Ok A' → maps_frame A' A.
Proof.
  apply (for_each_invariant (λ A', maps_frame A' A)); [|apply maps_frame_refl].
  intros A1 obs A2 _ HA1 Hstep. eapply maps_frame_trans; [|done].
  by eapply obs_step_frame.
Qed.

Lemma steps_add (self : MapMaker.t) (names : list string) (l : list Observation)
    (A X : gmap string Map.t) :
  (∀ n, is_Some (A !! n) → is_Some (X !! n)) →
  for_each (obs_step self names) l (maps_add A X) =
  A' ← for_each (obs_step self names) l A; Ok (maps_add A' X).
Proof.
  revert A. induction l as [|obs l IH]; intros A Hdom; simpl; [done|].
  rewrite obs_step_add by done.
  destruct (obs_step self names A obs) as [A1|e] eqn:Hstep; res_simpl; [|done].
  apply IH. eapply maps_frame_dom; [|done]. by eapply obs_step_frame.
Qed.

End stacking.

(** ** [MapMaker.run] as a sum over the observations *)

Section additivity.
Context `{Services}.

(** An iteration of the loop of [run] is [obs_step] on the maps and
    [obs_log] on the log. *)
Lemma run_obs_step (self : MapMaker.t) (names : list string) (A : gmap string Map.t)
    (lg : list log_record) (obs : Observation) :
  names ⊆ available →
  MapMaker.run_obs self names (A, lg) obs =
  A' ← obs_step self names A obs; Ok (A', lg ++ obs_log self obs).
Proof.
  intros Hsub. unfold MapMaker.run_obs, obs_step, obs_log. cbn [fst snd].
  destruct (MapMaker._get_obs_maker self obs trim) as [om|e].
  - destruct (obs_run_Ok om (PyList (PyStr <$> names)) names)
      as (om' & -> & _ & _ & _ & Hc & Hce & Hmaps); [by apply check_selection_names|].
    res_simpl.
    rewrite (for_each_ext (MapMaker.stack (MapMakerObs.maps om') om') (stack_product om)).
    { by destruct (for_each (stack_product om) names A). }
    intros s n Hn. unfold MapMaker.stack, stack_product, getitem, deposit.
    rewrite Hmaps, bool_decide_eq_true_2 by done. res_simpl.
    destruct (s !! n) as [m|]; res_simpl; [|done].
    destruct (quantity_to_value _ _) as [d|e]; res_simpl; [|done].
    unfold obs_coords. rewrite Hc, Hce. by destruct (String.eqb n "exposure").
  - destruct e; res_simpl; try done. by rewrite <- app_assoc.
Qed.

Lemma run_obs_steps (self : MapMaker.t) (names : list string) (l : list Observation)
    (A : gmap string Map.t) (lg : list log_record) :
  names ⊆ available →
  for_each (MapMaker.run_obs self names) l (A, lg) =
  A' ← for_each (obs_step self names) l A; Ok (A', lg ++ concat (obs_log self <$> l)).
Proof.
  intros Hsub. revert A lg. induction l as [|obs l IH]; intros A lg; cbn [for_each].
  - res_simpl. by rewrite app_nil_r.
  - rewrite run_obs_step by done.
    destruct (obs_step self names A obs) as [A1|e]; res_simpl; [|done].
    rewrite IH. destruct (for_each (obs_step self names) l A1); res_simpl; [|done].
    csimpl. by rewrite app_assoc.
Qed.

(** [run] in terms of the steps of its observations. *)
Lemma run_steps (self : MapMaker.t) (l : list Observation) (selection : pyobj)
    (names : list string) :
  _check_selection selection = Ok names →
  MapMaker.run self l selection =
  Z ← MapMaker._get_empty_maps self names;
  A ← for_each (obs_step self names) l Z;
  Ok (A, MapMaker.set_maps self A, concat (obs_log self <$> l)).
Proof.
  intros Hc. unfold MapMaker.run. rewrite Hc. res_simpl.
  destruct (MapMaker._get_empty_maps self names) as [Z|e]; res_simpl; [|done].
  rewrite run_obs_steps by by apply (check_selection_Ok _ _ Hc).
  by destruct (for_each (obs_step self names) l Z).
Qed.

(** The maps [run] starts from are zero-filled maps on the geometry and
    with the unit of their name. *)
Lemma empty_maps_lookup (self : MapMaker.t) (names : list string) (Z : gmap string Map.t)
    (n : string) (z : Map.t) :
  MapMaker._get_empty_maps self names = Ok Z → Z !! n = Some z →
  n ∈ names ∧
  if String.eqb n "exposure"
  then ∃ gt, MapMaker.geom_true self = IsWcsGeom gt ∧ z = Map.from_geom gt "m2 s"
  else z = Map.from_geom (MapMaker.geom self) "".
Proof.
  unfold MapMaker._get_empty_maps. intros Hz. revert n z.
  assert (∀ Z0 : gmap string Map.t,
    (∀ n z, Z0 !! n = Some z → n ∈ names ∧
       if String.eqb n "exposure"
       then ∃ gt, MapMaker.geom_true self = IsWcsGeom gt ∧ z = Map.from_geom gt "m2 s"
       else z = Map.from_geom (MapMaker.geom self) "") →
    ∀ Z1, for_each (λ (maps : gmap string Map.t) name,
        if String.eqb name "exposure" then
          g ← MapMaker.as_geom (MapMaker.geom_true self);
          Ok (<[name := Map.from_geom g "m2 s"]> maps)
        else Ok (<[name := Map.from_geom (MapMaker.geom self) ""]> maps)) names Z0 = Ok Z1 →
    ∀ n z, Z1 !! n = Some z → n ∈ names ∧
       if String.eqb n "exposure"
       then ∃ gt, MapMaker.geom_true self = IsWcsGeom gt ∧ z = Map.from_geom gt "m2 s"
       else z = Map.from_geom (MapMaker.geom self) "") as Hinv.
  { intros Z0 HZ0 Z1 Hfor. revert HZ0 Hfor.
    apply (for_each_invariant (λ Z' : gmap string Map.t, ∀ n z, Z' !! n = Some z → n ∈ names ∧
       if String.eqb n "exposure"
       then ∃ gt, MapMaker.geom_true self = IsWcsGeom gt ∧ z = Map.from_geom gt "m2 s"
       else z = Map.from_geom (MapMaker.geom self) "")).
    intros Z' x Z'' Hx HZ' Hbody n z.
    destruct (String.eqb x "exposure") eqn:Hxe.
    - apply bind_Ok in Hbody as (g & Hg & [= <-]).
      destruct (decide (x = n)) as [<-|Hne].
      + rewrite lookup_insert_eq. intros [= <-]. split; [done|]. rewrite Hxe.
        unfold MapMaker.as_geom in Hg. destruct (MapMaker.geom_true self); [|done].
        injection Hg as ->. by eexists.
      + rewrite lookup_insert_ne by done. apply HZ'.
    - injection Hbody as <-. destruct (decide (x = n)) as [<-|Hne].
      + rewrite lookup_insert_eq. intros [= <-]. by rewrite Hxe.
      + rewrite lookup_insert_ne by done. apply HZ'. }
  apply (Hinv ∅); [|done]. intros n z. by rewrite lookup_empty.
Qed.

Lemma from_geom_pixel (g : WcsGeom.t) (u : string) (e p : nat) (v : Z) :
  pixel (Map.from_geom g u) e p = Some v → v = 0.
Proof.
  unfold pixel, Map.from_geom. simpl. rewrite tabulate_const.
  destruct (replicate _ _ !! e) as [row|] eqn:Hrow; simpl; [|done].
  apply lookup_replicate in Hrow as [-> _].
  intros Hv. by apply lookup_replicate in Hv as [-> _].
Qed.

Lemma empty_maps_zero (self : MapMaker.t) (names : list string) (Z : gmap string Map.t)
    (n : string) (z : Map.t) :
  MapMaker._get_empty_maps self names = Ok Z → Z !! n = Some z →
  ∃ g u, z = Map.from_geom g u.
Proof.
  intros HZ Hz. destruct (empty_maps_lookup _ _ _ _ _ HZ Hz) as [_ Hn].
  destruct (String.eqb n "exposure"); [destruct Hn as (gt & _ & ->)|]; eauto.
Qed.

Lemma maps_add_zero (Z M : gmap string Map.t) :
  (∀ n z, Z !! n = Some z → ∃ g u, z = Map.from_geom g u) →
  maps_frame M Z → maps_add Z M = M.
Proof.
  intros Hzero Hframe. apply map_eq. intros n. rewrite maps_add_lookup.
  specialize (Hframe n). specialize (Hzero n).
  destruct (Z !! n) as [z|], (M !! n) as [m|]; simpl; try done.
  destruct (Hzero z) as (g & u & ->); [done|]. by rewrite map_add_zero_l.
Qed.

Lemma maps_add_comm (A B : gmap string Map.t) :
  maps_frame A B → maps_add A B = maps_add B A.
Proof.
  intros Hframe. apply map_eq. intros n. rewrite !maps_add_lookup.
  specialize (Hframe n).
  destruct (A !! n) as [a|], (B !! n) as [b|]; simpl; try done.
  destruct Hframe as (Hg & Hu & _). by rewrite map_add_comm.
Qed.

(** The stacked maps of a concatenation of observation lists are the sums
    of the stacked maps of the lists. *)
Lemma run_app (self : MapMaker.t) (l1 l2 : list Observation) (selection : pyobj)
    (M1 M2 : gmap string Map.t) (s1 s2 : MapMaker.t) (lg1 lg2 : list log_record) :
  MapMaker.run self l1 selection = Ok (M1, s1, lg1) →
  MapMaker.run self l2 selection = Ok (M2, s2, lg2) →
  MapMaker.run self (l1 ++ l2) selection =
    Ok (maps_add M1 M2, MapMaker.set_maps self (maps_add M1 M2), lg1 ++ lg2) ∧
  maps_frame M1 M2.
Proof.
  intros H1 H2.
  destruct (_check_selection selection) as [names|e] eqn:Hc;
    [|unfold MapMaker.run in H1; by rewrite Hc in H1].
  rewrite (run_steps _ _ _ _ Hc) in H1. rewrite (run_steps _ _ _ _ Hc) in H2.
  rewrite (run_steps _ _ _ _ Hc).
  destruct (MapMaker._get_empty_maps self names) as [Z|e] eqn:HZ; [|done].
  revert H1 H2. res_simpl.
  intros (A1 & Hl1 & [= <- <- <-])%bind_Ok (A2 & Hl2 & [= <- <- <-])%bind_Ok.
  assert (maps_frame A1 Z) as Hf1 by by eapply steps_frame.
  assert (maps_frame A2 Z) as Hf2 by by eapply steps_frame.
  assert (maps_frame A1 A2) as Hf12.
  { eapply maps_frame_trans; [done|]. by apply maps_frame_sym. }
  split; [|done].
  rewrite for_each_app, Hl1. res_simpl.
  rewrite <- (maps_add_zero Z A1) at 1; [|intros n z; by eapply empty_maps_zero|done].
  rewrite steps_add, Hl2.
  - res_simpl. rewrite (maps_add_comm A2 A1) by by apply maps_frame_sym.
    by rewrite fmap_app, concat_app.
  - intros n Hn. specialize (Hf1 n). destruct (A1 !! n), (Z !! n); try done; by destruct Hn.
Qed.

End additivity.

Section single_observation.
Context `{Services}.

(** The stacked map of a name after a run on one observation: the product
    of the observation, converted to the unit of the stacked map, deposited
    on the zero-filled map once per occurrence of the name; the zero-filled
    map itself when the observation is skipped. *)
Lemma run_single_lookup (self : MapMaker.t) (obs : Observation) (selection : pyobj)
    (M : gmap string Map.t) (s : MapMaker.t) (lg : list log_record) (n : string) (m : Map.t) :
  MapMaker.run self [obs] selection = Ok (M, s, lg) → M !! n = Some m →
  ∃ names z, _check_selection selection = Ok names ∧ n ∈ names ∧ empty_map self n z ∧
    match MapMaker._get_obs_maker self obs trim with
    | Ok om => deposit_iter (occurrences n names) om n z = Ok m
    | Raise _ => m = z
    end.
Proof.
  intros Hrun Hm.
  destruct (_check_selection selection) as [names|e] eqn:Hc;
    [|unfold MapMaker.run in Hrun; by rewrite Hc in Hrun].
  rewrite (run_steps _ _ _ _ Hc) in Hrun.
  apply bind_Ok in Hrun as (Z & HZ & Hrun).
  apply bind_Ok in Hrun as (A & Hstep & [= <- <- <-]).
  cbn [for_each] in Hstep. apply bind_Ok in Hstep as (A1 & Hstep & [= <-]).
  assert (Hframe := obs_step_frame _ _ _ _ _ Hstep n). rewrite Hm in Hframe.
  destruct (Z !! n) as [z|] eqn:Hz; [|done].
  destruct (empty_maps_lookup _ _ _ _ _ HZ Hz) as [Hn Hempty].
  exists names, z. repeat split; try done.
  unfold obs_step in Hstep.
  destruct (MapMaker._get_obs_maker self obs trim) as [om|e].
  - assert (Hl := stack_all_lookup om names Z A1 n Hstep). rewrite Hz in Hl.
    destruct Hl as (a' & Ha' & Hi). congruence.
  - destruct e; try done. injection Hstep as <-. congruence.
Qed.

(** Outside the footprint of the observation the stacked map of a single
    observation is zero. *)
Lemma run_single_outside (self : MapMaker.t) (obs : Observation) (selection : pyobj)
    (M : gmap string Map.t) (s : MapMaker.t) (lg : list log_record) (n : string) (m : Map.t)
    (e p : nat) (v : Z) :
  MapMaker.run self [obs] selection = Ok (M, s, lg) → M !! n = Some m →
  (e, p) ∉ footprint self obs n → pixel m e p = Some v → v = 0.
Proof.
  intros Hrun Hm Hnot Hv.
  destruct (run_single_lookup _ _ _ _ _ _ _ _ Hrun Hm) as (names & z & _ & _ & Hz & Hom).
  assert (∃ g u, z = Map.from_geom g u ∧
            (if String.eqb n "exposure" then MapMaker.as_geom (MapMaker.geom_true self)
             else Ok (MapMaker.geom self)) = Ok g) as (g & u & -> & Hg).
  { unfold empty_map in Hz. destruct (String.eqb n "exposure").
    - destruct Hz as (gt & Hgt & ->). exists gt, "m2 s". by rewrite Hgt.
    - by exists (MapMaker.geom self), "". }
  unfold footprint in Hnot. rewrite Hg in Hnot.
  destruct (MapMaker._get_obs_maker self obs trim) as [om|e'].
  - rewrite (deposit_iter_pixel _ _ _ _ _ e p Hom) in Hv by done.
    by eapply from_geom_pixel.
  - subst m. by eapply from_geom_pixel.
Qed.

(** C3: the stacked maps of two observations are, key by key and element
    by element, the sums of the stacked maps of each of them.  Hence for
    observations with disjoint spatial footprints every stacked value is
    the value of the one single-observation map whose footprint holds the
    pixel, and stacking an observation twice gives exactly twice its
    single-observation map.  Every stacked map carries the unit of its
    name, and what is accumulated are the products converted to that unit. *)
Theorem stacking_additive (self : MapMaker.t) (selection : pyobj) (obs1 obs2 : Observation)
    (M1 M2 : gmap string Map.t) (s1 s2 : MapMaker.t) (lg1 lg2 : list log_record) :
  MapMaker.run self [obs1] selection = Ok (M1, s1, lg1) →
  MapMaker.run self [obs2] selection = Ok (M2, s2, lg2) →
  ∃ M12,
    MapMaker.run self [obs1; obs2] selection =
      Ok (M12, MapMaker.set_maps self M12, lg1 ++ lg2) ∧
    (∀ name m1, M1 !! name = Some m1 →
       ∃ m2 m12, M2 !! name = Some m2 ∧ M12 !! name = Some m12 ∧
         Map.geom m12 = Map.geom m1 ∧ Map.geom m2 = Map.geom m1 ∧
         Map.unit m12 = Map.unit m1 ∧ Map.unit m2 = Map.unit m1 ∧
         Map.unit m1 = (if String.eqb name "exposure" then "m2 s" else "") ∧
         (∀ e p, pixel m12 e p = v1 ← pixel m1 e p; v2 ← pixel m2 e p; Some (v1 + v2)) ∧
         ((∀ p, p ∈ spatial_footprint self obs1 name →
                p ∈ spatial_footprint self obs2 name → False) →
          ∀ e p, pixel m12 e p =
            if bool_decide (p ∈ spatial_footprint self obs1 name)
            then pixel m1 e p else pixel m2 e p) ∧
         (obs1 = obs2 → m12 = map_scale 2 m1) ∧
         (∀ om, MapMaker._get_obs_maker self obs1 trim = Ok om →
            ∃ names z, _check_selection selection = Ok names ∧ empty_map self name z ∧
              deposit_iter (occurrences name names) om name z = Ok m1)).
Proof.
  intros H1 H2.
  destruct (run_app self [obs1] [obs2] selection _ _ _ _ _ _ H1 H2) as [H12 Hframe].
  exists (maps_add M1 M2). split; [done|].
  intros name m1 Hm1. specialize (Hframe name). rewrite Hm1 in Hframe.
  destruct (M2 !! name) as [m2|] eqn:Hm2; [|done].
  destruct Hframe as (Hg & Hu & Hshape).
  exists m2, (map_add m1 m2). rewrite maps_add_lookup, Hm1, Hm2.
  destruct (run_single_lookup _ _ _ _ _ _ _ _ H1 Hm1) as (names & z & Hc & Hn & Hz & Hom).
  assert (same_frame m1 z) as (Hgz & Huz & _).
  { destruct (MapMaker._get_obs_maker self obs1 trim) as [om|e].
    - by eapply deposit_iter_frame.
    - subst. apply same_frame_refl. }
  repeat split; try done.
  - rewrite Huz. unfold empty_map in Hz. destruct (String.eqb name "exposure").
    + by destruct Hz as (gt & _ & ->).
    + by subst.
  - intros e p. apply pixel_map_add.
  - intros Hdisj e p. rewrite pixel_map_add.
    assert (is_Some (pixel m1 e p) ↔ is_Some (pixel m2 e p)) as Hsome
      by by apply same_shape_pixel.
    assert (∀ obs q, q ∉ spatial_footprint self obs name → (e, q) ∉ footprint self obs name)
      as Hspatial.
    { intros obs q Hq Hin. apply Hq. unfold spatial_footprint.
      apply list_elem_of_fmap. by exists (e, q). }
    case_bool_decide as Hin.
    + assert ((e, p) ∉ footprint self obs2 name) as Hout.
      { apply Hspatial. intros Hin2. by eapply Hdisj. }
      destruct (pixel m1 e p) as [v1|] eqn:Hv1; simpl; [|done].
      destruct Hsome as [[v2 Hv2] _]; [by eexists|]. rewrite Hv2. simpl.
      rewrite (run_single_outside _ _ _ _ _ _ _ _ _ _ _ H2 Hm2 Hout Hv2).
      by rewrite Z.add_0_r.
    + assert ((e, p) ∉ footprint self obs1 name) as Hout by by apply Hspatial.
      destruct (pixel m2 e p) as [v2|] eqn:Hv2.
      * destruct Hsome as [_ [v1 Hv1]]; [by eexists|]. rewrite Hv1. simpl.
        by rewrite (run_single_outside _ _ _ _ _ _ _ _ _ _ _ H1 Hm1 Hout Hv1).
      * destruct (pixel m1 e p) as [v1|] eqn:Hv1; simpl; [|done].
        destruct Hsome as [[v2 Hv2'] _]; [by eexists|]. done.
  - intros <-. rewrite H1 in H2. injection H2 as <- _ _.
    rewrite Hm1 in Hm2. injection Hm2 as <-. apply map_add_double.
  - intros om Hom'. rewrite Hom' in Hom. by exists names, z.
Qed.

End single_observation.

(** ** Names selected more than once, and the empty selection *)

Section multiplicity.
Context `{Services}.

Local Abbreviation zip2 := (zip_with (zip_with Z.add)).














End multiplicity.

Section duplicates.
Context `{Services}.
















End duplicates.

(** ** Inside the field of view *)

Section field_of_view.
Context `{Services}.

(** Masking keeps the value of every element whose coordinate lies within
    the maximum offset. *)
Lemma mask_zero_pixel_inside (self : MapMakerObs.t) (m : Map.t) (coords : list (list MapCoord))
    (e p : nat) (crow : list MapCoord) (c : MapCoord) :
  coords !! e = Some crow → crow !! p = Some c →
  (separation (skycoord c) (pointing_radec (MapMakerObs.observation self)) <
     MapMakerObs.offset_max self)%Q →
  pixel (MapMakerObs.mask_zero m (MapMakerObs._fov_mask self coords)) e p = pixel m e p.
Proof.
  intros He Hp Hoff. unfold pixel. simpl.
  unfold MapMakerObs._fov_mask.
  change (List.map ?f coords) with (f <$> coords).
  rewrite lookup_zip_with, list_lookup_fmap, He.
  destruct (Map.data m !! e) as [row|]; simpl; [|done].
  change (List.map ?f crow) with (f <$> crow).
  rewrite lookup_zip_with, list_lookup_fmap, Hp.
  destruct (row !! p) as [v|]; simpl; [|done].
  destruct (Qle_bool _ _) eqn:Hle; [|done].
  apply Qle_bool_iff in Hle. by apply Qlt_not_le in Hoff.
Qed.

(** Within the maximum offset every product holds the value of its
    service. *)
Lemma obs_product_inside (self : MapMakerObs.t) (name : string) (e p : nat)
    (crow : list MapCoord) (c : MapCoord) :
  obs_coords self name !! e = Some crow → crow !! p = Some c →
  (separation (skycoord c) (pointing_radec (MapMakerObs.observation self)) <
     MapMakerObs.offset_max self)%Q →
  pixel (obs_product self name) e p = Some (service_value self name e p).
Proof.
  intros He Hp Hoff.
  assert (Hlt := He). rewrite obs_coords_get_coord in Hlt.
  destruct (get_coord_lookup _ _ _ _ _ Hlt Hp) as [Hlte Hltp].
  unfold obs_product, obs_coords, obs_geom, service_value in *.
  destruct (String.eqb name "counts") eqn:Hc.
  - apply String.eqb_eq in Hc as ->. simpl in *.
    unfold MapMakerObs.fov_mask, MapMakerObs.coords.
    rewrite (mask_zero_pixel_inside _ _ _ _ _ _ _ He Hp Hoff).
    unfold pixel, fill_map_counts, Map.from_geom. simpl.
    destruct (tabulate_lookup (MapMakerObs.geom self) (λ _ _, 0) e p Hlte Hltp)
      as (row & Hrow & Hv).
    rewrite list_lookup_imap, Hrow. simpl.
    by rewrite list_lookup_imap, Hv.
  - destruct (String.eqb name "exposure") eqn:Hx.
    + unfold MapMakerObs.fov_mask_etrue.
      rewrite (mask_zero_pixel_inside _ _ _ _ _ _ _ He Hp Hoff).
      destruct (tabulate_lookup (MapMakerObs.geom_true self)
        (exposure_true_energy (pointing_radec (MapMakerObs.observation self))
           (observation_live_time_duration (MapMakerObs.observation self))
           (aeff (MapMakerObs.observation self)) (MapMakerObs.geom_true self)).2
        e p Hlte Hltp) as (row & Hrow & Hv).
      unfold pixel, make_map_exposure_true_energy. simpl. by rewrite Hrow.
    + unfold MapMakerObs.fov_mask.
      rewrite (mask_zero_pixel_inside _ _ _ _ _ _ _ He Hp Hoff).
      destruct (tabulate_lookup (MapMakerObs.geom self)
        (background_irf (fixed_pointing_info (MapMakerObs.observation self))
           (observation_time_duration (MapMakerObs.observation self))
           (bkg (MapMakerObs.observation self)) (MapMakerObs.geom self)).2
        e p Hlte Hltp) as (row & Hrow & Hv).
      unfold pixel, make_map_background_irf. simpl. by rewrite Hrow.
Qed.

(** X1: in the maps [MapMakerObs.run] returns, an element whose angular
    separation from the pointing is below the maximum offset is left as
    the services computed it: the counts map holds the number of events
    binned into the element, the exposure map the exposure of the IRF on
    the true-energy geometry, the background map the background of the
    IRF.  Only the elements at or beyond the maximum offset are changed by
    the mask. *)
Theorem fov_interior (observation : Observation) (geom : WcsGeom.t) (offset_max : Q)
    (geom_true : option WcsGeom.t) (mask : option Map.t) (selection : pyobj)
    (maps : gmap string Map.t) (self' : MapMakerObs.t) (name : string) (m : Map.t)
    (e p : nat) (crow : list MapCoord) (c : MapCoord) :
  let self := MapMakerObs.__init__ observation geom offset_max geom_true mask in
  let g := if String.eqb name "exposure" then default geom geom_true else geom in
  MapMakerObs.run self selection = Ok (maps, self') →
  maps !! name = Some m →
  WcsGeom.get_coord g !! e = Some crow → crow !! p = Some c →
  (separation (skycoord c) (pointing_radec observation) < offset_max)%Q →
  pixel m e p = Some
    (if String.eqb name "counts" then binned_events (events observation) geom e p
     else if String.eqb name "exposure" then
       (exposure_true_energy (pointing_radec observation)
          (observation_live_time_duration observation) (aeff observation) g).2 e p
     else
       (background_irf (fixed_pointing_info observation)
          (observation_time_duration observation) (bkg observation) geom).2 e p).
Proof.
  intros self g Hrun Hm He Hp Hoff.
  unfold MapMakerObs.run in Hrun.
  apply bind_Ok in Hrun as (names & Hc & Hrun).
  destruct (obs_run_Ok self selection names Hc) as (s & Hrun' & _ & _ & _ & _ & _ & Hmaps).
  unfold MapMakerObs.run in Hrun'. rewrite Hc in Hrun'. simpl in Hrun'.
  rewrite Hrun in Hrun'. injection Hrun' as -> ->.
  rewrite Hmaps in Hm. simpl in Hm. rewrite lookup_empty in Hm.
  case_bool_decide as Hin; [|done]. injection Hm as <-.
  rewrite (obs_product_inside self name e p crow c); [| |done..].
  - unfold service_value, g. simpl. by destruct (String.eqb name "exposure").
  - rewrite obs_coords_get_coord. done.
Qed.

End field_of_view.

(** ** Running a [MapMakerObs] more than once *)

Section repeated_runs.
Context `{Services}.

Lemma foldl_set_map_fields (names : list string) (self s : MapMakerObs.t) :
  let s' := foldl (λ s n, MapMakerObs.set_map s n (obs_product self n)) s names in
  MapMakerObs.observation s' = MapMakerObs.observation s ∧
  MapMakerObs.geom s' = MapMakerObs.geom s ∧
  MapMakerObs.geom_true s' = MapMakerObs.geom_true s ∧
  MapMakerObs.offset_max s' = MapMakerObs.offset_max s ∧
  MapMakerObs.exclusion_mask s' = MapMakerObs.exclusion_mask s.
Proof.
  revert s. induction names as [|n names IH]; intros s; simpl; [done|].
  destruct (IH (MapMakerObs.set_map s n (obs_product self n))) as (-> & -> & -> & -> & ->).
  done.
Qed.

(** [MapMakerObs.run] on a validated selection changes nothing of the maker
    but its maps. *)
Lemma obs_run_fields (self : MapMakerObs.t) (selection : pyobj) (names : list string) :
  _check_selection selection = Ok names →
  ∃ maps,
    MapMakerObs.run self selection =
      Ok (maps, {| MapMakerObs.observation := MapMakerObs.observation self;
                   MapMakerObs.geom := MapMakerObs.geom self;
                   MapMakerObs.geom_true := MapMakerObs.geom_true self;
                   MapMakerObs.offset_max := MapMakerObs.offset_max self;
                   MapMakerObs.exclusion_mask := MapMakerObs.exclusion_mask self;
                   MapMakerObs.maps := maps |}) ∧
    ∀ name, maps !! name =
      if bool_decide (name ∈ names) then Some (obs_product self name)
      else MapMakerObs.maps self !! name.
Proof.
  intros Hc. destruct (check_selection_Ok _ _ Hc) as [Hsub _].
  unfold MapMakerObs.run. rewrite Hc. res_simpl.
  rewrite for_each_make by done. res_simpl.
  set (s' := foldl _ self names).
  exists (MapMakerObs.maps s'). split.
  - destruct (foldl_set_map_fields names self self) as (Ho & Hg & Hgt & Hoff & Hex).
    fold s' in Ho, Hg, Hgt, Hoff, Hex. rewrite <- Ho, <- Hg, <- Hgt, <- Hoff, <- Hex.
    by destruct s'.
  - intros name. unfold s'.
    by rewrite foldl_set_map_maps, (foldl_insert_lookup (obs_product self)).
Qed.

(** X2: the dictionary [MapMakerObs.run] returns is the [maps] attribute
    of the maker, which no run empties.  After a run it holds the products
    of the selected names besides the entries it held before; a second run
    with another selection adds the products of that selection and keeps
    those of the first, and a run repeated with the same selection returns
    the same maps and leaves the maker as it is. *)
Theorem obs_run_accumulates (self : MapMakerObs.t) (selection1 selection2 : pyobj)
    (names1 names2 : list string) :
  _check_selection selection1 = Ok names1 →
  _check_selection selection2 = Ok names2 →
  ∃ maps1 self1 maps2 self2,
    MapMakerObs.run self selection1 = Ok (maps1, self1) ∧
    MapMakerObs.run self1 selection2 = Ok (maps2, self2) ∧
    MapMakerObs.maps self1 = maps1 ∧ MapMakerObs.maps self2 = maps2 ∧
    (∀ name, maps1 !! name =
       if bool_decide (name ∈ names1) then Some (obs_product self name)
       else MapMakerObs.maps self !! name) ∧
    (∀ name, maps2 !! name =
       if bool_decide (name ∈ names2) then Some (obs_product self name)
       else maps1 !! name) ∧
    MapMakerObs.run self1 selection1 = Ok (maps1, self1).
Proof.
  intros Hc1 Hc2.
  destruct (obs_run_fields self selection1 names1 Hc1) as (maps1 & Hrun1 & Hmaps1).
  set (self1 := {| MapMakerObs.maps := maps1 |}) in Hrun1.
  assert (obs_product self1 = obs_product self) as Hprod by done.
  destruct (obs_run_fields self1 selection2 names2 Hc2) as (maps2 & Hrun2 & Hmaps2).
  destruct (obs_run_fields self1 selection1 names1 Hc1) as (maps1' & Hrun1' & Hmaps1').
  eexists maps1, self1, maps2, _. split; [done|]. split; [done|].
  split; [done|]. split; [done|]. split; [done|]. split.
  - intros name. by rewrite Hmaps2, Hprod.
  - rewrite Hrun1'. assert (maps1' = maps1) as ->; [|done].
    apply map_eq. intros name. rewrite Hmaps1', Hprod. simpl. rewrite Hmaps1.
    by case_bool_decide.
Qed.

End repeated_runs.

(** ** The frame of the stacked maps *)

Section result_frames.
Context `{Services}.

(** Every selected name has its allocated map. *)
Lemma empty_maps_dom (self : MapMaker.t) (names : list string) (Z : gmap string Map.t)
    (n : string) :
  MapMaker._get_empty_maps self names = Ok Z → n ∈ names → is_Some (Z !! n).
Proof.
  unfold MapMaker._get_empty_maps. generalize (∅ : gmap string Map.t). intros Z0 HZ Hn.
  assert (n ∈ names ∨ is_Some (Z0 !! n)) as Hor by by left. clear Hn.
  revert Z0 HZ Hor. induction names as [|x names IH]; intros Z0; cbn [for_each].
  - intros [= <-] [Hn|Hn]; [by apply elem_of_nil in Hn|done].
  - intros (Z1 & Hbody & Hrest)%bind_Ok Hor. apply (IH Z1 Hrest).
    destruct (decide (n = x)) as [->|Hne].
    + right. destruct (String.eqb x "exposure").
      * apply bind_Ok in Hbody as (g & _ & [= <-]). by rewrite lookup_insert_eq.
      * injection Hbody as <-. by rewrite lookup_insert_eq.
    + destruct Hor as [Hn|Hn].
      * left. apply elem_of_cons in Hn as [?|?]; done.
      * right. destruct (String.eqb x "exposure").
        -- apply bind_Ok in Hbody as (g & _ & [= <-]). by rewrite lookup_insert_ne.
        -- injection Hbody as <-. by rewrite lookup_insert_ne.
Qed.

(** An array of the shape of a tabulated array has the shape of the
    geometry. *)
Lemma tabulate_shape (g : WcsGeom.t) (f : nat → nat → Z) (d : list (list Z)) :
  same_shape d (Map.tabulate g f) →
  length d = WcsGeom.nplanes g ∧ Forall (λ row, length row = WcsGeom.npix g) d.
Proof.
  unfold same_shape, Map.tabulate. intros Hs. split.
  - apply Forall2_length in Hs. by rewrite Hs, length_fmap, length_seq.
  - apply Forall_forall. intros row Hrow.
    apply list_elem_of_lookup in Hrow as [i Hi].
    destruct (Forall2_lookup_l _ _ _ _ _ Hs Hi) as (row' & Hi' & ->).
    rewrite list_lookup_fmap in Hi'.
    destruct (seq 0 (WcsGeom.nplanes g) !! i); [|done]. injection Hi' as <-.
    by rewrite length_fmap, length_seq.
Qed.

(** The frame of a map that has the frame of an allocated map. *)
Lemma empty_map_frame (self : MapMaker.t) (n : string) (z m : Map.t) :
  empty_map self n z → same_frame m z →
  IsWcsGeom (Map.geom m) =
    (if String.eqb n "exposure" then MapMaker.geom_true self
     else IsWcsGeom (MapMaker.geom self)) ∧
  Map.unit m = (if String.eqb n "exposure" then "m2 s" else "") ∧
  length (Map.data m) = WcsGeom.nplanes (Map.geom m) ∧
  Forall (λ row, length row = WcsGeom.npix (Map.geom m)) (Map.data m).
Proof.
  unfold empty_map. intros Hz (Hg & Hu & Hs). rewrite Hg, Hu.
  destruct (String.eqb n "exposure").
  - destruct Hz as (gt & -> & ->). split; [done|]. split; [done|]. by apply tabulate_shape in Hs.
  - subst z. split; [done|]. split; [done|]. by apply tabulate_shape in Hs.
Qed.

(** The maker [run] returns is the maker with the returned maps stored. *)
Lemma run_stored (self : MapMaker.t) (l : list Observation) (selection : pyobj)
    (M : gmap string Map.t) (s : MapMaker.t) (lg : list log_record) :
  MapMaker.run self l selection = Ok (M, s, lg) → s = MapMaker.set_maps self M.
Proof.
  unfold MapMaker.run. intros (names & _ & Hr)%bind_Ok.
  apply bind_Ok in Hr as (Z & _ & Hr). by apply bind_Ok in Hr as (st & _ & [= <- <- <-]).
Qed.

(** X3: whatever the observations are, the dictionary [MapMaker.run]
    returns has exactly the selected names as keys, and it is the
    dictionary stored as [_maps].  Every stacked map keeps the frame it was
    allocated with: the exposure map lies on the true-energy geometry with
    the unit m2 s, every other map on the reference geometry with the
    dimensionless unit, and the data array has one plane per bin of the
    extra axes and one value per spatial pixel of that geometry. *)
Theorem run_keeps_frame (self : MapMaker.t) (l : list Observation) (selection : pyobj)
    (M : gmap string Map.t) (s : MapMaker.t) (lg : list log_record) :
  MapMaker.run self l selection = Ok (M, s, lg) →
  ∃ names, _check_selection selection = Ok names ∧
    MapMaker._maps s = Some M ∧
    ∀ n, match M !! n with
         | Some m =>
             n ∈ names ∧
             IsWcsGeom (Map.geom m) =
               (if String.eqb n "exposure" then MapMaker.geom_true self
                else IsWcsGeom (MapMaker.geom self)) ∧
             Map.unit m = (if String.eqb n "exposure" then "m2 s" else "") ∧
             length (Map.data m) = WcsGeom.nplanes (Map.geom m) ∧
             Forall (λ row, length row = WcsGeom.npix (Map.geom m)) (Map.data m)
         | None => n ∉ names
         end.
Proof.
  intros Hrun.
  destruct (_check_selection selection) as [names|e] eqn:Hc;
    [|unfold MapMaker.run in Hrun; by rewrite Hc in Hrun].
  rewrite (run_steps _ _ _ _ Hc) in Hrun.
  apply bind_Ok in Hrun as (Z & HZ & Hrun).
  apply bind_Ok in Hrun as (A & Hsteps & [= <- <- <-]).
  exists names. split; [done|]. split; [done|]. intros n.
  assert (Hframe := steps_frame _ _ _ _ _ Hsteps n).
  destruct (A !! n) as [m|], (Z !! n) as [z|] eqn:Hz; try done.
  - destruct (empty_maps_lookup _ _ _ _ _ HZ Hz) as [Hn Hempty].
    split; [done|]. by eapply empty_map_frame.
  - intros Hn. destruct (empty_maps_dom _ _ _ n HZ Hn) as [z Hz']. congruence.
Qed.

End result_frames.

(** ** Concatenation and order of the observations *)

Section observation_order.
Context `{Services}.

Lemma maps_frame_insert (A B : gmap string Map.t) (n : string) (a b : Map.t) :
  maps_frame A B → same_frame a b → maps_frame (<[n := a]> A) (<[n := b]> B).
Proof.
  intros HAB Hab k. destruct (decide (n = k)) as [<-|Hne].
  - by rewrite !lookup_insert_eq.
  - rewrite !lookup_insert_ne by done. apply HAB.
Qed.

(** Whether the inner loop returns depends on the frame of the stacked maps
    only. *)
Lemma stack_all_returns (om : MapMakerObs.t) (names : list string)
    (A A' B : gmap string Map.t) :
  maps_frame A B → for_each (stack_product om) names A = Ok A' →
  ∃ B', for_each (stack_product om) names B = Ok B'.
Proof.
  revert A B. induction names as [|n names IH]; intros A B HAB; cbn [for_each].
  - by eexists.
  - intros (A1 & Hs & Hrest)%bind_Ok.
    apply stack_product_Ok in Hs as (a & a' & Ha & Hd & ->).
    assert (Hn := HAB n). rewrite Ha in Hn.
    destruct (B !! n) as [b|] eqn:Hb; [|done].
    destruct (deposit_unit om n a b a') as [b' Hd']; [by destruct Hn as (_ & ? & _)|done|].
    assert (stack_product om B n = Ok (<[n := b']> B)) as ->.
    { apply stack_product_Ok. by exists b, b'. }
    res_simpl. eapply IH; [|done].
    apply maps_frame_insert; [done|].
    eapply same_frame_trans; [by eapply deposit_frame|].
    eapply same_frame_trans; [done|].
    apply same_frame_sym. by eapply deposit_frame.
Qed.

Lemma obs_step_returns (self : MapMaker.t) (names : list string) (obs : Observation)
    (A A' B : gmap string Map.t) :
  maps_frame A B → obs_step self names A obs = Ok A' →
  ∃ B', obs_step self names B obs = Ok B'.
Proof.
  unfold obs_step. destruct (MapMaker._get_obs_maker self obs trim) as [om|e].
  - apply stack_all_returns.
  - destruct e; try done. by eexists.
Qed.

Lemma steps_returns (self : MapMaker.t) (names : list string) (l : list Observation)
    (A A' B : gmap string Map.t) :
  maps_frame A B → for_each (obs_step self names) l A = Ok A' →
  ∃ B', for_each (obs_step self names) l B = Ok B'.
Proof.
  revert A B. induction l as [|obs l IH]; intros A B HAB; cbn [for_each].
  - by eexists.
  - intros (A1 & Hs & Hrest)%bind_Ok.
    destruct (obs_step_returns _ _ _ _ _ _ HAB Hs) as [B1 HB1]. rewrite HB1. res_simpl.
    eapply IH; [|done].
    eapply maps_frame_trans; [by eapply obs_step_frame|].
    eapply maps_frame_trans; [done|].
    apply maps_frame_sym. by eapply obs_step_frame.
Qed.

(** A run on a concatenation that returns: the runs on both parts return. *)
Lemma run_app_returns (self : MapMaker.t) (l1 l2 : list Observation) (selection : pyobj)
    (M : gmap string Map.t) (s : MapMaker.t) (lg : list log_record) :
  MapMaker.run self (l1 ++ l2) selection = Ok (M, s, lg) →
  ∃ M1 s1 lg1 M2 s2 lg2,
    MapMaker.run self l1 selection = Ok (M1, s1, lg1) ∧
    MapMaker.run self l2 selection = Ok (M2, s2, lg2).
Proof.
  intros Hrun.
  destruct (_check_selection selection) as [names|e] eqn:Hc;
    [|unfold MapMaker.run in Hrun; by rewrite Hc in Hrun].
  rewrite (run_steps _ _ _ _ Hc) in Hrun. rewrite !(run_steps _ _ _ _ Hc).
  destruct (MapMaker._get_empty_maps self names) as [Z|e] eqn:HZ; [|done].
  revert Hrun. res_simpl. intros (A & Hl & _)%bind_Ok.
  rewrite for_each_app in Hl. apply bind_Ok in Hl as (A1 & Hl1 & Hl2).
  destruct (steps_returns self names l2 A1 A Z) as [A2 HA2]; [by eapply steps_frame|done|].
  rewrite Hl1, HA2. res_simpl. by eexists _, _, _, _, _, _.
Qed.

(** Outside the footprints of all the observations of a run the stacked
    maps keep the zeros they were allocated with. *)
Lemma run_outside (self : MapMaker.t) (l : list Observation) (selection : pyobj)
    (M : gmap string Map.t) (s : MapMaker.t) (lg : list log_record) (n : string) (m : Map.t)
    (e p : nat) (v : Z) :
  MapMaker.run self l selection = Ok (M, s, lg) → M !! n = Some m →
  (∀ obs, obs ∈ l → (e, p) ∉ footprint self obs n) → pixel m e p = Some v → v = 0.
Proof.
  revert M s lg m v. induction l as [|obs l IH]; intros M s lg m v Hrun Hm Hout Hv.
  - destruct (_check_selection selection) as [names|e'] eqn:Hc;
      [|unfold MapMaker.run in Hrun; by rewrite Hc in Hrun].
    rewrite (run_steps _ _ _ _ Hc) in Hrun.
    apply bind_Ok in Hrun as (Z & HZ & Hrun). cbn [for_each] in Hrun.
    revert Hrun. res_simpl. intros [= <- <- <-].
    destruct (empty_maps_zero _ _ _ _ _ HZ Hm) as (g & u & ->).
    by eapply from_geom_pixel.
  - change (obs :: l) with ([obs] ++ l) in Hrun.
    destruct (run_app_returns _ _ _ _ _ _ _ Hrun) as (M1 & s1 & lg1 & M2 & s2 & lg2 & H1 & H2).
    destruct (run_app _ _ _ _ _ _ _ _ _ _ H1 H2) as [H12 _].
    rewrite H12 in Hrun. injection Hrun as <- <- <-.
    rewrite maps_add_lookup in Hm.
    destruct (M1 !! n) as [m1|] eqn:Hm1, (M2 !! n) as [m2|] eqn:Hm2; try done.
    injection Hm as <-. rewrite pixel_map_add in Hv.
    destruct (pixel m1 e p) as [v1|] eqn:Hv1; [|done].
    destruct (pixel m2 e p) as [v2|] eqn:Hv2; [|done].
    injection Hv as <-.
    rewrite (run_single_outside _ _ _ _ _ _ _ _ _ _ _ H1 Hm1 (Hout obs (list_elem_of_here _ _)) Hv1).
    rewrite (IH _ _ _ _ _ H2 Hm2 (λ o Ho, Hout o (list_elem_of_further _ _ _ Ho)) Hv2). done.
Qed.

(** The stacked maps of a concatenation, element by element: where no
    observation of one of the lists reaches, the value is the value of the
    stacked map of the other list. *)
Lemma run_app_local (self : MapMaker.t) (l1 l2 : list Observation) (selection : pyobj)
    (M1 M2 : gmap string Map.t) (s1 s2 : MapMaker.t) (lg1 lg2 : list log_record)
    (n : string) (m1 m2 : Map.t) (e p : nat) :
  MapMaker.run self l1 selection = Ok (M1, s1, lg1) →
  MapMaker.run self l2 selection = Ok (M2, s2, lg2) →
  M1 !! n = Some m1 → M2 !! n = Some m2 →
  ((∀ obs, obs ∈ l2 → (e, p) ∉ footprint self obs n) →
   pixel (map_add m1 m2) e p = pixel m1 e p) ∧
  ((∀ obs, obs ∈ l1 → (e, p) ∉ footprint self obs n) →
   pixel (map_add m1 m2) e p = pixel m2 e p).
Proof.
  intros H1 H2 Hm1 Hm2.
  destruct (run_app _ _ _ _ _ _ _ _ _ _ H1 H2) as [_ Hframe].
  specialize (Hframe n). rewrite Hm1, Hm2 in Hframe. destruct Hframe as (_ & _ & Hshape).
  assert (is_Some (pixel m1 e p) ↔ is_Some (pixel m2 e p)) as Hsome
    by by apply same_shape_pixel.
  rewrite pixel_map_add. split; intros Hout.
  - destruct (pixel m1 e p) as [v1|] eqn:Hv1; simpl; [|done].
    destruct Hsome as [[v2 Hv2] _]; [by eexists|]. rewrite Hv2. simpl.
    rewrite (run_outside _ _ _ _ _ _ _ _ _ _ _ H2 Hm2 Hout Hv2). by rewrite Z.add_0_r.
  - destruct (pixel m2 e p) as [v2|] eqn:Hv2.
    + destruct Hsome as [_ [v1 Hv1]]; [by eexists|]. rewrite Hv1. simpl.
      by rewrite (run_outside _ _ _ _ _ _ _ _ _ _ _ H1 Hm1 Hout Hv1).
    + destruct (pixel m1 e p) as [v1|] eqn:Hv1; simpl; [|done].
      destruct Hsome as [[v2 Hv2'] _]; [by eexists|]. done.
Qed.

(** X4: [MapMaker.run] on a concatenation of two observation lists returns
    exactly when it returns on each of the lists.  The log is then the log
    of the first list followed by that of the second, the stored maps are
    the returned ones, and the stacked maps have the keys, geometries,
    units and shapes of the stacked maps of either list.  At an element
    that no observation of the second list reaches the stacked value is
    the value stacked from the first list alone, and at an element that no
    observation of the first list reaches it is the value stacked from the
    second list alone. *)
Theorem run_concat (self : MapMaker.t) (l1 l2 : list Observation) (selection : pyobj) :
  (∀ M s lg,
     MapMaker.run self (l1 ++ l2) selection = Ok (M, s, lg) →
     ∃ M1 s1 lg1 M2 s2 lg2,
       MapMaker.run self l1 selection = Ok (M1, s1, lg1) ∧
       MapMaker.run self l2 selection = Ok (M2, s2, lg2)) ∧
  (∀ M1 s1 lg1 M2 s2 lg2,
     MapMaker.run self l1 selection = Ok (M1, s1, lg1) →
     MapMaker.run self l2 selection = Ok (M2, s2, lg2) →
     ∃ M,
       MapMaker.run self (l1 ++ l2) selection = Ok (M, MapMaker.set_maps self M, lg1 ++ lg2) ∧
       maps_frame M M1 ∧ maps_frame M M2 ∧
       ∀ name m m1 m2 e p,
         M !! name = Some m → M1 !! name = Some m1 → M2 !! name = Some m2 →
         ((∀ obs, obs ∈ l2 → (e, p) ∉ footprint self obs name) →
          pixel m e p = pixel m1 e p) ∧
         ((∀ obs, obs ∈ l1 → (e, p) ∉ footprint self obs name) →
          pixel m e p = pixel m2 e p)).
Proof.
  split.
  - intros M s lg Hrun. by eapply run_app_returns.
  - intros M1 s1 lg1 M2 s2 lg2 H1 H2.
    destruct (run_app _ _ _ _ _ _ _ _ _ _ H1 H2) as [H12 Hframe].
    exists (maps_add M1 M2). split; [done|].
    assert (maps_frame (maps_add M1 M2) M1) as Hf1.
    { intros n. rewrite maps_add_lookup. specialize (Hframe n).
      destruct (M1 !! n) as [m1|], (M2 !! n) as [m2|]; simpl; try done.
      destruct Hframe as (Hg & Hu & Hs). repeat split; [done..|].
      unfold map_add. simpl. clear Hg Hu. revert Hs. unfold same_shape.
      generalize (Map.data m1) (Map.data m2). intros d1 d2 Hs.
      induction Hs as [|r1 r2 d1 d2 Hr Hs IH]; simpl; constructor; [|done].
      rewrite length_zip_with. lia. }
    split; [done|]. split.
    { eapply maps_frame_trans; done. }
    intros name m m1 m2 e p Hm Hm1 Hm2.
    rewrite maps_add_lookup, Hm1, Hm2 in Hm. injection Hm as <-.
    by eapply run_app_local.
Qed.

(** X5: the order of the observations.  If [MapMaker.run] returns on a list
    of observations, it returns on every permutation of the list: with the
    stacked maps stored, with the same log records in the order of the
    permuted list, and with stacked maps of the same keys, geometries,
    units and shapes.  The stacked value of an element is the same whenever
    the observations that reach the element come in the same order in both
    lists, in particular at every element that at most one observation
    reaches. *)
Theorem run_order_independent (self : MapMaker.t) (selection : pyobj)
    (l l' : list Observation) (M : gmap string Map.t) (s : MapMaker.t) (lg : list log_record) :
  l ≡ₚ l' → MapMaker.run self l selection = Ok (M, s, lg) →
  ∃ M' lg',
    MapMaker.run self l' selection = Ok (M', MapMaker.set_maps self M', lg') ∧
    lg ≡ₚ lg' ∧ maps_frame M' M ∧
    ∀ name m m' e p,
      M !! name = Some m → M' !! name = Some m' →
      (filter (λ obs, (e, p) ∈ footprint self obs name) l' =
         filter (λ obs, (e, p) ∈ footprint self obs name) l ∨
       (length (filter (λ obs, (e, p) ∈ footprint self obs name) l) ≤ 1)%nat) →
      pixel m' e p = pixel m e p.
Proof.
  intros Hperm Hrun.
  assert (∃ lg', MapMaker.run self l' selection = Ok (M, s, lg') ∧ lg ≡ₚ lg')
    as (lg' & Hrun' & Hlg).
  { clear -Hperm Hrun. revert M s lg Hrun.
    induction Hperm as [|x l l' Hperm IH|x y l|l l' l'' _ IH1 _ IH2]; intros M s lg Hrun.
    - by exists lg.
    - change (x :: l) with ([x] ++ l) in Hrun.
      destruct (run_app_returns _ _ _ _ _ _ _ Hrun)
        as (M1 & s1 & lg1 & M2 & s2 & lg2 & H1 & H2).
      destruct (run_app _ _ _ _ _ _ _ _ _ _ H1 H2) as [H12 _].
      rewrite H12 in Hrun. injection Hrun as <- <- <-.
      destruct (IH _ _ _ H2) as (lg2' & H2' & Hlg).
      destruct (run_app _ _ _ _ _ _ _ _ _ _ H1 H2') as [H12' _].
      exists (lg1 ++ lg2'). split; [done|]. by rewrite Hlg.
    - change (y :: x :: l) with ([y; x] ++ l) in Hrun.
      destruct (run_app_returns _ _ _ _ _ _ _ Hrun)
        as (Myx & syx & lgyx & Ml & sl & lgl & Hyx & Hl).
      destruct (run_app _ _ _ _ _ _ _ _ _ _ Hyx Hl) as [Hyxl _].
      rewrite Hyxl in Hrun. injection Hrun as <- <- <-.
      change [y; x] with ([y] ++ [x]) in Hyx.
      destruct (run_app_returns _ _ _ _ _ _ _ Hyx)
        as (My & sy & lgy & Mx & sx & lgx & Hy & Hx).
      destruct (run_app _ _ _ _ _ _ _ _ _ _ Hy Hx) as [Hyx' Hframe].
      rewrite Hyx' in Hyx. injection Hyx as <- _ <-.
      destruct (run_app _ _ _ _ _ _ _ _ _ _ Hx Hy) as [Hxy _].
      destruct (run_app _ _ _ _ _ _ _ _ _ _ Hxy Hl) as [Hxyl _].
      exists ((lgx ++ lgy) ++ lgl). split.
      + change (x :: y :: l) with (([x] ++ [y]) ++ l). rewrite Hxyl.
        by rewrite (maps_add_comm Mx My) by by apply maps_frame_sym.
      + by rewrite (Permutation_app_comm lgy lgx).
    - destruct (IH1 _ _ _ Hrun) as (lg' & Hrun' & Hlg).
      destruct (IH2 _ _ _ Hrun') as (lg'' & Hrun'' & Hlg').
      exists lg''. split; [done|]. by etrans. }
  exists M, lg'. rewrite (run_stored _ _ _ _ _ _ Hrun) in Hrun'.
  split; [done|]. split; [done|]. split; [apply maps_frame_refl|].
  intros name m m' e p Hm Hm' _. congruence.
Qed.

End observation_order.

(** ** What [MapMaker.run] logs, reads and stores *)

Section run_state.
Context `{Services}.

(** X6: the log of a [MapMaker.run] that returns holds, for every
    observation in the order of the list, the record that the observation
    is processed, followed by the record that it is skipped exactly when
    its cutout raises the no-overlap signal; nothing else is logged. *)
Theorem run_log_records (self : MapMaker.t) (l : list Observation) (selection : pyobj)
    (M : gmap string Map.t) (s : MapMaker.t) (lg : list log_record) :
  MapMaker.run self l selection = Ok (M, s, lg) →
  lg = concat ((λ obs,
         LogProcessing (obs_id obs) ::
         match MapMaker._get_obs_maker self obs trim with
         | Raise NoOverlapError => [LogSkipNoOverlap (obs_id obs)]
         | _ => []
         end) <$> l).
Proof.
  intros Hrun.
  destruct (_check_selection selection) as [names|e] eqn:Hc;
    [|unfold MapMaker.run in Hrun; by rewrite Hc in Hrun].
  rewrite (run_steps _ _ _ _ Hc) in Hrun.
  apply bind_Ok in Hrun as (Z & _ & Hrun). apply bind_Ok in Hrun as (A & _ & [= _ _ <-]).
  f_equal. apply list_fmap_ext. intros i obs _. unfold obs_log.
  destruct (MapMaker._get_obs_maker self obs trim) as [om|e]; [done|]. by destruct e.
Qed.

Lemma steps_skip_all (self : MapMaker.t) (names : list string) (l : list Observation)
    (A : gmap string Map.t) :
  Forall (λ obs, MapMaker._get_obs_maker self obs trim = Raise NoOverlapError) l →
  for_each (obs_step self names) l A = Ok A.
Proof.
  induction 1 as [|obs l Hskip _ IH]; cbn [for_each]; [done|].
  assert (obs_step self names A obs = Ok A) as -> by (unfold obs_step; by rewrite Hskip).
  by res_simpl.
Qed.

(** X15: when no observation overlaps the reference geometry (and for an
    empty list of observations) [MapMaker.run] returns, for each selected
    name, the zero-filled map it allocated: on the true-energy geometry
    with the unit m2 s for the exposure, on the reference geometry with the
    dimensionless unit otherwise.  Every observation is logged as processed
    and as skipped. *)
Theorem run_without_overlap (self : MapMaker.t) (gt : WcsGeom.t) (l : list Observation)
    (names : list string) :
  MapMaker.geom_true self = IsWcsGeom gt →
  names ⊆ ["counts"; "exposure"; "background"] →
  Forall (λ obs, MapMaker._get_obs_maker self obs trim = Raise NoOverlapError) l →
  ∃ M,
    MapMaker.run self l (PyList (PyStr <$> names)) =
      Ok (M, MapMaker.set_maps self M,
          concat ((λ obs, [LogProcessing (obs_id obs); LogSkipNoOverlap (obs_id obs)]) <$> l)) ∧
    ∀ n, M !! n =
      if bool_decide (n ∈ names) then
        Some (if String.eqb n "exposure" then Map.from_geom gt "m2 s"
              else Map.from_geom (MapMaker.geom self) "")
      else None.
Proof.
  intros Hgt Hsub Hall.
  rewrite (run_steps _ _ _ names) by by apply check_selection_names.
  rewrite (get_empty_maps_Ok self gt) by done. res_simpl.
  rewrite steps_skip_all by done. res_simpl. eexists. split.
  - do 2 f_equal. f_equal. apply Forall_fmap_ext_1. eapply Forall_impl; [done|].
    intros obs Hskip. unfold obs_log. by rewrite Hskip.
  - intros n.
    rewrite (foldl_insert_lookup (λ n, if String.eqb n "exposure" then Map.from_geom gt "m2 s"
                                       else Map.from_geom (MapMaker.geom self) "")).
    by rewrite lookup_empty.
Qed.

(** What [_get_obs_maker] returns. *)
Lemma get_obs_maker_Ok (self : MapMaker.t) (obs : Observation) (mode : cutout_mode)
    (om : MapMakerObs.t) :
  MapMaker._get_obs_maker self obs mode = Ok om →
  ∃ g gt gtc x,
    WcsGeom.cutout (MapMaker.geom self) (pointing_radec obs)
      (2 * MapMaker.offset_max self)%Q mode = Ok g ∧
    MapMaker.geom_true self = IsWcsGeom gt ∧
    WcsGeom.cutout gt (pointing_radec obs) (2 * MapMaker.offset_max self)%Q mode = Ok gtc ∧
    match MapMaker.exclusion_mask self with
    | Some mask =>
        ∃ m, Map.cutout mask (pointing_radec obs) (2 * MapMaker.offset_max self)%Q mode = Ok m ∧
             x = Some m
    | None => x = None
    end ∧
    om = {| MapMakerObs.observation := obs; MapMakerObs.geom := g;
            MapMakerObs.geom_true := gtc; MapMakerObs.offset_max := MapMaker.offset_max self;
            MapMakerObs.exclusion_mask := x; MapMakerObs.maps := ∅ |}.
Proof.
  unfold MapMaker._get_obs_maker.
  intros (g & Hg & Hr)%bind_Ok. apply bind_Ok in Hr as (gt & Hgt & Hr).
  apply bind_Ok in Hr as (gtc & Hgtc & Hr). apply bind_Ok in Hr as (x & Hx & [= <-]).
  exists g, gt, gtc, x. split; [done|]. split.
  { unfold MapMaker.as_geom in Hgt. destruct (MapMaker.geom_true self); [|done].
    by injection Hgt as ->. }
  split; [done|]. split; [|done].
  destruct (MapMaker.exclusion_mask self) as [mask|].
  - apply bind_Ok in Hx as (m & Hm & [= <-]). by exists m.
  - by injection Hx as <-.
Qed.

(** The cutout of a map returns whenever the cutout of a geometry on the
    same grid does. *)
Lemma mask_cutout_returns (g gc : WcsGeom.t) (mask : Map.t) (position : SkyCoord)
    (width : Q) (mode : cutout_mode) :
  WcsGeom.wcs (Map.geom mask) = WcsGeom.wcs g →
  WcsGeom.cutout g position width mode = Ok gc →
  ∃ m, Map.cutout mask position width mode = Ok m.
Proof.
  unfold Map.cutout, WcsGeom.cutout. intros ->.
  destruct (wcs_cutout _ _ _); [done|destruct mode; [|done]|]; intros _; res_simpl; by eexists.
Qed.

(** The maker of an observation, with and without an exclusion mask on the
    grid of the reference geometry. *)
Lemma get_obs_maker_mask (geom : WcsGeom.t) (geom_true : geom_arg) (offset_max : Q)
    (mask : Map.t) (maps maps' : option (gmap string Map.t)) (obs : Observation)
    (mode : cutout_mode) :
  WcsGeom.wcs (Map.geom mask) = WcsGeom.wcs geom →
  match MapMaker._get_obs_maker
          {| MapMaker.geom := geom; MapMaker.geom_true := geom_true;
             MapMaker.offset_max := offset_max; MapMaker.exclusion_mask := Some mask;
             MapMaker._maps := maps |} obs mode,
        MapMaker._get_obs_maker
          {| MapMaker.geom := geom; MapMaker.geom_true := geom_true;
             MapMaker.offset_max := offset_max; MapMaker.exclusion_mask := None;
             MapMaker._maps := maps' |} obs mode with
  | Ok om, Ok om' => obs_product om = obs_product om' ∧ obs_coords om = obs_coords om'
  | Raise e, Raise e' => e = e'
  | _, _ => False
  end.
Proof.
  intros Hw. unfold MapMaker._get_obs_maker. cbn [MapMaker.geom MapMaker.geom_true
    MapMaker.offset_max MapMaker.exclusion_mask].
  destruct (WcsGeom.cutout geom _ _ mode) as [g|e] eqn:Hg; res_simpl; [|done].
  destruct (MapMaker.as_geom geom_true) as [gt|e]; res_simpl; [|done].
  destruct (WcsGeom.cutout gt _ _ mode) as [gtc|e]; res_simpl; [|done].
  destruct (mask_cutout_returns _ _ mask _ _ _ Hw Hg) as [m ->]. by res_simpl.
Qed.

Lemma stack_product_ext (om om' : MapMakerObs.t) :
  obs_product om = obs_product om' → obs_coords om = obs_coords om' →
  stack_product om = stack_product om'.
Proof. intros Hp Hc. unfold stack_product, deposit. by rewrite Hp, Hc. Qed.

(** X7: [MapMaker.run] cuts the exclusion mask out for every observation
    but uses it for nothing else.  A maker with an exclusion mask on the
    spatial grid of the reference geometry returns the stacked maps and the
    log of the maker without a mask, and raises what that maker raises. *)
Theorem run_ignores_exclusion_mask (geom : WcsGeom.t) (geom_true : geom_arg)
    (offset_max : Q) (mask : Map.t) (l : list Observation) (selection : pyobj) :
  WcsGeom.wcs (Map.geom mask) = WcsGeom.wcs geom →
  let maker exclusion_mask :=
    {| MapMaker.geom := geom; MapMaker.geom_true := geom_true;
       MapMaker.offset_max := offset_max; MapMaker.exclusion_mask := exclusion_mask;
       MapMaker._maps := None |} in
  (r ← MapMaker.run (maker (Some mask)) l selection; Ok (r.1.1, r.2)) =
  (r ← MapMaker.run (maker None) l selection; Ok (r.1.1, r.2)).
Proof.
  intros Hw maker.
  destruct (_check_selection selection) as [names|e] eqn:Hc;
    [|unfold MapMaker.run; by rewrite Hc].
  rewrite !(run_steps _ _ _ _ Hc).
  change (MapMaker._get_empty_maps (maker (Some mask)) names)
    with (MapMaker._get_empty_maps (maker None) names).
  destruct (MapMaker._get_empty_maps (maker None) names) as [Z|e]; res_simpl; [|done].
  assert (∀ obs, obs_log (maker (Some mask)) obs = obs_log (maker None) obs) as Hlog.
  { intros obs. unfold obs_log.
    assert (Hm := get_obs_maker_mask geom geom_true offset_max mask None None obs trim Hw).
    fold (maker (Some mask)) (maker None) in Hm.
    destruct (MapMaker._get_obs_maker (maker (Some mask)) obs trim) as [om|e],
      (MapMaker._get_obs_maker (maker None) obs trim) as [om'|e']; try done. by subst. }
  assert (∀ A obs, obs_step (maker (Some mask)) names A obs = obs_step (maker None) names A obs)
    as Hstep.
  { intros A obs. unfold obs_step.
    assert (Hm := get_obs_maker_mask geom geom_true offset_max mask None None obs trim Hw).
    fold (maker (Some mask)) (maker None) in Hm.
    destruct (MapMaker._get_obs_maker (maker (Some mask)) obs trim) as [om|e],
      (MapMaker._get_obs_maker (maker None) obs trim) as [om'|e']; try done.
    - destruct Hm as [Hp Hco]. by rewrite (stack_product_ext om om').
    - by subst. }
  rewrite (for_each_ext _ (obs_step (maker None) names)) by (intros; apply Hstep).
  destruct (for_each (obs_step (maker None) names) l Z) as [A|e]; res_simpl; [|done].
  do 3 f_equal. apply list_fmap_ext. intros; apply Hlog.
Qed.

(** X8: [run_images] on a maker without stored maps is [run] with the
    default selection followed by the sum over the axes, and it leaves the
    stacked maps of that run stored.  From then on every call of
    [run_images], whatever observations, spectrum and keepdims it is given,
    collapses these stored maps and processes and logs nothing; a later
    [run] does not read the stored maps and starts again from zero-filled
    maps. *)
Theorem stored_maps_lifecycle (self : MapMaker.t) (observations : list Observation)
    (spectrum : option SpectralModel) (keepdims : bool)
    (images : gmap string Map.t) (s : MapMaker.t) (lg : list log_record) :
  MapMaker._maps self = None →
  MapMaker.run_images self (Some observations) spectrum keepdims = Ok (images, s, lg) →
  ∃ M, MapMaker.run self observations PyNone = Ok (M, s, lg) ∧
    MapMaker._maps s = Some M ∧
    images = MapMaker._maps_sum_over_axes M spectrum keepdims ∧
    (∀ observations' spectrum' keepdims',
       MapMaker.run_images s observations' spectrum' keepdims' =
         Ok (MapMaker._maps_sum_over_axes M spectrum' keepdims', s, [])) ∧
    (∀ l selection, MapMaker.run s l selection = MapMaker.run self l selection).
Proof.
  intros Hnone Himg. unfold MapMaker.run_images in Himg. rewrite Hnone in Himg.
  apply bind_Ok in Himg as ([s' lg'] & Hr & Himg).
  apply bind_Ok in Hr as ([[M s''] lg''] & Hrun & [= <- <-]).
  assert (Hs := run_stored _ _ _ _ _ _ Hrun). subst s''.
  revert Himg. res_simpl. cbn [MapMaker._maps MapMaker.set_maps]. res_simpl.
  intros [= <- <- <-]. exists M. split; [done|]. split; [done|]. split; [done|]. split.
  - intros observations' spectrum' keepdims'. done.
  - intros l selection. reflexivity.
Qed.

End run_state.

(** ** The loop of the ring maker *)

Section ring_loop.
Context `{Services}.

Lemma ring_skip_all (ring : MapMakerRing.t) (sum_over_axis : bool)
    (spectrum : option SpectralModel) (keepdims : bool) (l : list Observation)
    (st : gmap string Map.t * list log_record) :
  Forall (ring_skips ring) l →
  ∃ lg, for_each (MapMakerRing.run_obs ring sum_over_axis spectrum keepdims) l st =
          Ok (st.1, st.2 ++ lg).
Proof.
  intros Hall. revert st. induction Hall as [|obs l Hskip _ IH]; intros st; cbn [for_each].
  - exists []. rewrite app_nil_r. by destruct st.
  - destruct (ring_run_obs_skip ring sum_over_axis spectrum keepdims obs st) as [H1 H2].
    destruct Hskip as [Hskip|Hskip].
    + rewrite (H1 Hskip). res_simpl. destruct (IH (st.1, st.2 ++ [LogSkipNoOverlap (obs_id obs)]))
        as [lg ->]. cbn [fst snd]. rewrite <- app_assoc. by eexists.
    + rewrite (H2 Hskip). res_simpl.
      destruct (IH (st.1, st.2 ++ [LogSkipPartialOverlap (obs_id obs)])) as [lg ->].
      cbn [fst snd]. rewrite <- app_assoc. by eexists.
Qed.

(** [_run] as its loop over the observations: the allocation of the maps
    never raises. *)
Lemma ring_run_loop (ring : MapMakerRing.t) (l : list Observation) (sum_over_axis : bool)
    (spectrum : option SpectralModel) (keepdims : bool) :
  MapMakerRing._run ring l sum_over_axis spectrum keepdims =
  st ← for_each (MapMakerRing.run_obs ring sum_over_axis spectrum keepdims) l
         (ring_empty_maps ring sum_over_axis spectrum keepdims, []);
  Ok (st.1,
      {| MapMakerRing.base := MapMaker.set_maps (MapMakerRing.base ring) st.1;
         MapMakerRing.background_estimator := MapMakerRing.background_estimator ring |},
      st.2).
Proof.
  unfold MapMakerRing._run, MapMaker._get_empty_maps.
  by rewrite get_empty_maps_reco by apply ring_selection_reco.
Qed.

Lemma ring_run_obs_no_estimator (ring : MapMakerRing.t) (sum_over_axis : bool)
    (spectrum : option SpectralModel) (keepdims : bool)
    (st : gmap string Map.t * list log_record) (obs : Observation) (om : MapMakerObs.t) :
  MapMakerRing.background_estimator ring = None →
  MapMaker._get_obs_maker (MapMakerRing.base ring) obs strict = Ok om →
  ∃ msg, MapMakerRing.run_obs ring sum_over_axis spectrum keepdims st obs =
           Raise (AttributeError msg).
Proof.
  intros Hest Hom. unfold MapMakerRing.run_obs. rewrite Hom, Hest.
  destruct (obs_run_fields om PyNone available eq_refl) as (maps & -> & _). res_simpl.
  destruct sum_over_axis; [|by eexists].
  unfold MapMakerRing.sum_over_axes_dict. case_bool_decide; res_simpl; [|by eexists].
  cbn [MapMakerObs.exclusion_mask].
  destruct (MapMakerObs.exclusion_mask om); res_simpl; by eexists.
Qed.

(** X10: a ring maker built without a background estimator (the default of
    the constructor) can run only as long as it skips every observation:
    it then returns the allocated maps.  On the first observation whose
    cutout lies inside the reference geometry, [run] and [run_images]
    raise an [AttributeError], whatever follows in the list. *)
Theorem ring_requires_estimator (ring : MapMakerRing.t) (sum_over_axis : bool)
    (spectrum : option SpectralModel) (keepdims : bool) :
  MapMakerRing.background_estimator ring = None →
  (∀ l, Forall (ring_skips ring) l →
     ∃ maps lg,
       MapMaker._get_empty_maps (MapMakerRing.base ring) MapMakerRing.selection = Ok maps ∧
       let maps :=
         if sum_over_axis then MapMaker._maps_sum_over_axes maps spectrum keepdims else maps in
       MapMakerRing._run ring l sum_over_axis spectrum keepdims =
         Ok (maps,
             {| MapMakerRing.base := MapMaker.set_maps (MapMakerRing.base ring) maps;
                MapMakerRing.background_estimator := None |}, lg)) ∧
  (∀ before obs after om,
     Forall (ring_skips ring) before →
     MapMaker._get_obs_maker (MapMakerRing.base ring) obs strict = Ok om →
     ∃ msg, MapMakerRing._run ring (before ++ obs :: after) sum_over_axis spectrum keepdims =
       Raise (AttributeError msg)).
Proof.
  intros Hest. split.
  - intros l Hall. rewrite ring_run_loop, Hest.
    destruct (ring_skip_all ring sum_over_axis spectrum keepdims l
                (ring_empty_maps ring sum_over_axis spectrum keepdims, []) Hall) as [lg ->].
    res_simpl. eexists _, lg. split; [|done].
    unfold MapMaker._get_empty_maps. apply get_empty_maps_reco, ring_selection_reco.
  - intros before obs after om Hall Hom. rewrite ring_run_loop, for_each_app.
    destruct (ring_skip_all ring sum_over_axis spectrum keepdims before
                (ring_empty_maps ring sum_over_axis spectrum keepdims, []) Hall) as [lg ->].
    res_simpl. cbn [for_each].
    destruct (ring_run_obs_no_estimator ring sum_over_axis spectrum keepdims
                (ring_empty_maps ring sum_over_axis spectrum keepdims, [] ++ lg) obs om Hest Hom)
      as [msg ->].
    by exists msg.
Qed.

Lemma ring_run_obs_no_mask (ring : MapMakerRing.t)
    (spectrum : option SpectralModel) (keepdims : bool)
    (st : gmap string Map.t * list log_record) (obs : Observation) (om : MapMakerObs.t) :
  MapMaker.exclusion_mask (MapMakerRing.base ring) = None →
  MapMaker._get_obs_maker (MapMakerRing.base ring) obs strict = Ok om →
  ∃ msg, MapMakerRing.run_obs ring true spectrum keepdims st obs = Raise (AttributeError msg).
Proof.
  intros Hmask Hom. unfold MapMakerRing.run_obs. rewrite Hom.
  destruct (obs_run_fields om PyNone available eq_refl) as (maps & -> & _). res_simpl.
  apply get_obs_maker_Ok in Hom as (g & gt & gtc & x & _ & _ & _ & Hx & ->).
  rewrite Hmask in Hx. subst x. cbn [MapMakerObs.exclusion_mask].
  unfold MapMakerRing.sum_over_axes_dict. rewrite bool_decide_eq_false_2.
  { res_simpl. by eexists. }
  intros Hall'. specialize (Hall' "exclusion" None).
  rewrite lookup_insert_eq in Hall'. by destruct Hall'.
Qed.

(** X11: [MapMakerRing.run_images] needs an exclusion mask.  Without one
    (the default of the constructor) the entry exclusion of the maps of an
    observation is [None], the sum over the axes is asked of it, and the
    call raises an [AttributeError] on the first observation that is not
    skipped, whatever the background estimator is. *)
Theorem ring_images_require_exclusion_mask (ring : MapMakerRing.t)
    (before after : list Observation) (obs : Observation) (om : MapMakerObs.t)
    (spectrum : option SpectralModel) (keepdims : bool) :
  MapMaker.exclusion_mask (MapMakerRing.base ring) = None →
  Forall (ring_skips ring) before →
  MapMaker._get_obs_maker (MapMakerRing.base ring) obs strict = Ok om →
  ∃ msg, MapMakerRing.run_images ring (before ++ obs :: after) spectrum keepdims =
    Raise (AttributeError msg).
Proof.
  intros Hmask Hall Hom. unfold MapMakerRing.run_images.
  rewrite ring_run_loop, for_each_app.
  destruct (ring_skip_all ring true spectrum keepdims before
              (ring_empty_maps ring true spectrum keepdims, []) Hall) as [lg ->].
  res_simpl. cbn [for_each].
  destruct (ring_run_obs_no_mask ring spectrum keepdims
              (ring_empty_maps ring true spectrum keepdims, [] ++ lg) obs om Hmask Hom)
    as [msg ->].
  by exists msg.
Qed.

Lemma ring_stack_frame (maps_obs : gmap string (option Map.t)) (maps maps' : gmap string Map.t)
    (name : string) :
  MapMakerRing.stack maps_obs maps name = Ok maps' → maps_frame maps' maps.
Proof.
  unfold MapMakerRing.stack. intros (v & _ & Hr)%bind_Ok.
  apply bind_Ok in Hr as (mo & _ & Hr). apply bind_Ok in Hr as (m & Hm & Hr).
  apply bind_Ok in Hr as (d & _ & [= <-]).
  unfold getitem in Hm. destruct (maps !! name) as [m'|] eqn:Hl; [|done]. injection Hm as ->.
  rewrite <- (insert_id maps name m) at 2 by done.
  apply maps_frame_insert; [apply maps_frame_refl|apply fill_by_coord_frame].
Qed.

(** An iteration of the loop of [_run] that returns keeps the frame of the
    stacked maps and logs a record only when it skips the observation. *)
Lemma ring_run_obs_Ok (ring : MapMakerRing.t) (sum_over_axis : bool)
    (spectrum : option SpectralModel) (keepdims : bool)
    (st st' : gmap string Map.t * list log_record) (obs : Observation) :
  MapMakerRing.run_obs ring sum_over_axis spectrum keepdims st obs = Ok st' →
  maps_frame st'.1 st.1 ∧
  st'.2 = st.2 ++
    match MapMaker._get_obs_maker (MapMakerRing.base ring) obs strict with
    | Raise NoOverlapError => [LogSkipNoOverlap (obs_id obs)]
    | Raise PartialOverlapError => [LogSkipPartialOverlap (obs_id obs)]
    | _ => []
    end.
Proof.
  unfold MapMakerRing.run_obs.
  destruct (MapMaker._get_obs_maker (MapMakerRing.base ring) obs strict) as [om|e].
  - intros (r & _ & Hr)%bind_Ok. apply bind_Ok in Hr as (mo & _ & Hr).
    apply bind_Ok in Hr as (est & _ & Hr). apply bind_Ok in Hr as (bk & _ & Hr).
    apply bind_Ok in Hr as (b & _ & Hr). apply bind_Ok in Hr as (c & _ & Hr).
    apply bind_Ok in Hr as (maps & Hfor & [= <-]). cbn [fst snd].
    split; [|by rewrite app_nil_r].
    revert Hfor. apply (for_each_invariant (λ A', maps_frame A' st.1)); [|apply maps_frame_refl].
    intros A1 n A2 _ HA1 Hs. eapply maps_frame_trans; [|done]. by eapply ring_stack_frame.
  - destruct e; try done; intros [= <-]; split; try done; apply maps_frame_refl.
Qed.

Lemma ring_loop_Ok (ring : MapMakerRing.t) (sum_over_axis : bool)
    (spectrum : option SpectralModel) (keepdims : bool) (l : list Observation)
    (st st' : gmap string Map.t * list log_record) :
  for_each (MapMakerRing.run_obs ring sum_over_axis spectrum keepdims) l st = Ok st' →
  maps_frame st'.1 st.1 ∧
  st'.2 = st.2 ++ omap (λ obs,
    match MapMaker._get_obs_maker (MapMakerRing.base ring) obs strict with
    | Raise NoOverlapError => Some (LogSkipNoOverlap (obs_id obs))
    | Raise PartialOverlapError => Some (LogSkipPartialOverlap (obs_id obs))
    | _ => None
    end) l.
Proof.
  revert st. induction l as [|obs l IH]; intros st; cbn [for_each].
  - intros [= <-]. split; [apply maps_frame_refl|]. by rewrite app_nil_r.
  - intros (st1 & H1 & Hrest)%bind_Ok.
    apply ring_run_obs_Ok in H1 as [Hf1 Hl1]. apply IH in Hrest as [Hf Hl].
    split; [by eapply maps_frame_trans|].
    rewrite Hl, Hl1, <- app_assoc. f_equal. cbn [omap list_omap].
    destruct (MapMaker._get_obs_maker _ _ _) as [om|e]; [done|]. by destruct e.
Qed.

Lemma ring_empty_maps_lookup (ring : MapMakerRing.t) (sum_over_axis : bool)
    (spectrum : option SpectralModel) (keepdims : bool) (n : string) :
  ring_empty_maps ring sum_over_axis spectrum keepdims !! n =
  if bool_decide (n ∈ MapMakerRing.selection) then
    let z := Map.from_geom (MapMaker.geom (MapMakerRing.base ring)) "" in
    Some (if sum_over_axis then Map.sum_over_axes z keepdims else z)
  else None.
Proof.
  unfold ring_empty_maps. destruct sum_over_axis.
  - rewrite maps_sum_over_axes_lookup.
    rewrite (foldl_insert_lookup (λ _, Map.from_geom (MapMaker.geom (MapMakerRing.base ring)) "")).
    rewrite lookup_empty. case_bool_decide as Hn; [|done]. cbn [fmap option_fmap option_map].
    unfold MapMaker.sum_entry.
    assert (String.eqb n "exposure" = false ∧ String.eqb n "exclusion" = false) as [-> ->]; [|done].
    unfold MapMakerRing.selection in Hn.
    repeat (apply elem_of_cons in Hn as [->|Hn]; [done|]). by apply elem_of_nil in Hn.
  - rewrite (foldl_insert_lookup (λ _, Map.from_geom (MapMaker.geom (MapMakerRing.base ring)) "")).
    by rewrite lookup_empty.
Qed.

Lemma sum_planes_length_eq (n : nat) (planes : list (list Z)) :
  Forall (λ row, length row = n) planes → length (Map.sum_planes n planes) = n.
Proof.
  induction 1 as [|p planes Hp _ IH]; simpl.
  - by rewrite length_replicate.
  - rewrite length_zip_with. lia.
Qed.

(** X12: whatever the observations and the background estimator are, the
    dictionary [MapMakerRing._run] returns has exactly the keys on,
    exposure_on, off and exposure_off, and it is the dictionary stored as
    [_maps].  Every map is dimensionless; for [run] it lies on the
    reference geometry with the shape of that geometry, for [run_images] on
    the image geometry (with keepdims: the geometry with every extra axis
    squashed to one bin) with a single plane of one value per spatial
    pixel. *)
Theorem ring_run_frame (ring : MapMakerRing.t) (l : list Observation) (sum_over_axis : bool)
    (spectrum : option SpectralModel) (keepdims : bool)
    (M : gmap string Map.t) (s : MapMakerRing.t) (lg : list log_record) :
  MapMakerRing._run ring l sum_over_axis spectrum keepdims = Ok (M, s, lg) →
  let g := MapMaker.geom (MapMakerRing.base ring) in
  MapMaker._maps (MapMakerRing.base s) = Some M ∧
  ∀ n, match M !! n with
       | Some m =>
           n ∈ ["on"; "exposure_on"; "off"; "exposure_off"] ∧
           Map.unit m = "" ∧
           Map.geom m =
             (if sum_over_axis then
                if keepdims then WcsGeom.squash_axes g else WcsGeom.to_image g
              else g) ∧
           length (Map.data m) = (if sum_over_axis then 1%nat else WcsGeom.nplanes g) ∧
           Forall (λ row, length row = WcsGeom.npix g) (Map.data m)
       | None => n ∉ ["on"; "exposure_on"; "off"; "exposure_off"]
       end.
Proof.
  rewrite ring_run_loop. intros ([A lg'] & Hloop & [= <- <- <-])%bind_Ok g. cbn [fst snd].
  split; [done|]. intros n.
  apply ring_loop_Ok in Hloop as [Hframe _]. specialize (Hframe n). cbn [fst] in Hframe.
  rewrite ring_empty_maps_lookup in Hframe. fold g in Hframe.
  change MapMakerRing.selection with ["on"; "exposure_on"; "off"; "exposure_off"] in Hframe.
  destruct (A !! n) as [m|]; case_bool_decide as Hn; try done.
  split; [done|]. destruct Hframe as (Hg & Hu & Hs). rewrite Hg, Hu.
  destruct sum_over_axis.
  - split; [done|]. split; [done|]. cbn [Map.sum_over_axes Map.data] in Hs.
    apply Forall2_length in Hs as Hlen. split; [done|].
    destruct (Map.data m) as [|row [|??]]; try done.
    apply Forall2_cons_1 in Hs as [Hrow _]. constructor; [|done].
    rewrite Hrow. apply sum_planes_length_eq.
    unfold Map.from_geom. cbn [Map.data Map.geom].
    by apply (tabulate_shape g (λ _ _, 0)), same_shape_refl.
  - split; [done|]. split; [done|]. by apply (tabulate_shape g (λ _ _, 0)).
Qed.

(** X13: the ring maker logs no record for the observations it processes.
    The log of a [_run] that returns holds, in the order of the list, one
    record for every observation whose cutout in strict mode raises the
    no-overlap or the partial-overlap signal, naming the signal, and
    nothing else. *)
Theorem ring_log_records (ring : MapMakerRing.t) (l : list Observation) (sum_over_axis : bool)
    (spectrum : option SpectralModel) (keepdims : bool)
    (M : gmap string Map.t) (s : MapMakerRing.t) (lg : list log_record) :
  MapMakerRing._run ring l sum_over_axis spectrum keepdims = Ok (M, s, lg) →
  lg = omap (λ obs,
    match MapMaker._get_obs_maker (MapMakerRing.base ring) obs strict with
    | Raise NoOverlapError => Some (LogSkipNoOverlap (obs_id obs))
    | Raise PartialOverlapError => Some (LogSkipPartialOverlap (obs_id obs))
    | _ => None
    end) l.
Proof.
  rewrite ring_run_loop. intros ([A lg'] & Hloop & [= <- <- <-])%bind_Ok.
  by apply ring_loop_Ok in Hloop as [_ Hl].
Qed.

End ring_loop.

(** ** The on map of the ring maker and the counts of [MapMaker] *)

Section on_and_counts.
Context `{Services}.

(** A cutout that returns in strict mode is the cutout of trim mode. *)
Lemma cutout_strict_trim (g gc : WcsGeom.t) (position : SkyCoord) (width : Q) :
  WcsGeom.cutout g position width strict = Ok gc →
  WcsGeom.cutout g position width trim = Ok gc.
Proof. unfold WcsGeom.cutout. by destruct (wcs_cutout _ _ _). Qed.

Lemma map_cutout_strict_trim (m mc : Map.t) (position : SkyCoord) (width : Q) :
  Map.cutout m position width strict = Ok mc →
  Map.cutout m position width trim = Ok mc.
Proof.
  unfold Map.cutout. intros (g & Hg & Hm)%bind_Ok.
  by rewrite (cutout_strict_trim _ _ _ _ Hg).
Qed.

Lemma get_obs_maker_strict_trim (self : MapMaker.t) (obs : Observation) (om : MapMakerObs.t) :
  MapMaker._get_obs_maker self obs strict = Ok om →
  MapMaker._get_obs_maker self obs trim = Ok om.
Proof.
  unfold MapMaker._get_obs_maker.
  intros (g & Hg & Hr)%bind_Ok. apply bind_Ok in Hr as (gt & Hgt & Hr).
  apply bind_Ok in Hr as (gtc & Hgtc & Hr). apply bind_Ok in Hr as (x & Hx & [= <-]).
  rewrite (cutout_strict_trim _ _ _ _ Hg), Hgt. res_simpl.
  rewrite (cutout_strict_trim _ _ _ _ Hgtc). res_simpl.
  destruct (MapMaker.exclusion_mask self) as [mask|].
  - apply bind_Ok in Hx as (m & Hm & [= <-]).
    by rewrite (map_cutout_strict_trim _ _ _ _ Hm).
  - by injection Hx as <-.
Qed.

(** An iteration of the inner loop of [_run] that returns. *)
Lemma ring_stack_Ok (maps_obs : gmap string (option Map.t)) (maps maps' : gmap string Map.t)
    (name : string) :
  MapMakerRing.stack maps_obs maps name = Ok maps' ↔
  ∃ map_obs m data,
    maps_obs !! name = Some (Some map_obs) ∧ maps !! name = Some m ∧
    quantity_to_value map_obs (Map.unit m) = Ok data ∧
    maps' = <[name := Map.fill_by_coord m (WcsGeom.get_coord (Map.geom map_obs)) data]> maps.
Proof.
  unfold MapMakerRing.stack, getitem, MapMakerRing.as_map. split.
  - intros (v & Hv & Hr)%bind_Ok. apply bind_Ok in Hr as (mo & Hmo & Hr).
    apply bind_Ok in Hr as (m & Hm & Hr). apply bind_Ok in Hr as (d & Hd & [= <-]).
    destruct (maps_obs !! name) as [v'|]; [|done]. injection Hv as ->.
    destruct v as [mo'|]; [|done]. injection Hmo as ->.
    destruct (maps !! name) as [m'|]; [|done]. injection Hm as ->.
    by exists mo, m, d.
  - intros (mo & m & d & -> & -> & Hd & ->). res_simpl. by rewrite Hd.
Qed.

Lemma deposit_product (om : MapMakerObs.t) (n : string) (m : Map.t) (data : list (list Z)) :
  quantity_to_value (obs_product om n) (Map.unit m) = Ok data →
  deposit om n m =
    Ok (Map.fill_by_coord m (WcsGeom.get_coord (Map.geom (obs_product om n))) data).
Proof.
  intros Hd. unfold deposit. rewrite Hd. res_simpl.
  by rewrite obs_coords_get_coord, obs_product_geom.
Qed.

(** The step of the ring maker on an observation it does not skip, seen on
    its on and exposure_on maps, is the step of [MapMaker.run] on the counts
    and background maps. *)
Lemma ring_run_obs_on (ring : MapMakerRing.t) (obs : Observation) (om : MapMakerObs.t)
    (st st' : gmap string Map.t * list log_record) (B : gmap string Map.t) :
  (∀ est d r, estimator_run est d = Ok r → r !! "counts" = None ∧ r !! "background" = None) →
  MapMaker._get_obs_maker (MapMakerRing.base ring) obs strict = Ok om →
  MapMakerRing.run_obs ring false None false st obs = Ok st' →
  st.1 !! "on" = B !! "counts" → st.1 !! "exposure_on" = B !! "background" →
  ∃ B', obs_step (MapMakerRing.base ring) ["counts"; "background"] B obs = Ok B' ∧
    st'.1 !! "on" = B' !! "counts" ∧ st'.1 !! "exposure_on" = B' !! "background".
Proof.
  intros Hest Hom Hrun Hon Hexp.
  unfold obs_step. rewrite (get_obs_maker_strict_trim _ _ _ Hom).
  unfold MapMakerRing.run_obs in Hrun. rewrite Hom in Hrun.
  destruct (obs_run_fields om PyNone available eq_refl) as (maps & Hr & Hmaps).
  rewrite Hr in Hrun. revert Hrun. res_simpl. cbn [MapMakerObs.exclusion_mask].
  intros (est & _ & Hrun)%bind_Ok.
  apply bind_Ok in Hrun as (bk & Hbk & Hrun).
  destruct (Hest _ _ _ Hbk) as [Hbc Hbb].
  assert (maps !! "counts" = Some (obs_product om "counts")) as Hmc by by rewrite Hmaps.
  assert (maps !! "background" = Some (obs_product om "background")) as Hmb by by rewrite Hmaps.
  apply bind_Ok in Hrun as (background & Hb & Hrun).
  unfold getitem in Hb.
  rewrite lookup_union_r, lookup_insert_ne, lookup_fmap, Hmb in Hb by done.
  injection Hb as <-.
  apply bind_Ok in Hrun as (counts & Hcn & Hrun).
  unfold getitem in Hcn.
  rewrite lookup_insert_ne, lookup_delete_ne, lookup_union_r, lookup_insert_ne,
    lookup_fmap, Hmc in Hcn by done.
  injection Hcn as <-.
  apply bind_Ok in Hrun as (A4 & Hfor & [= <-]). cbn [fst].
  unfold MapMakerRing.selection in Hfor. cbn [for_each] in Hfor.
  apply bind_Ok in Hfor as (A1 & Hs1 & Hfor). apply bind_Ok in Hfor as (A2 & Hs2 & Hfor).
  apply bind_Ok in Hfor as (A3 & Hs3 & Hfor). apply bind_Ok in Hfor as (A4' & Hs4 & [= ->]).
  apply ring_stack_Ok in Hs1 as (mo1 & m1 & d1 & Hmo1 & Hm1 & Hd1 & ->).
  apply ring_stack_Ok in Hs2 as (mo2 & m2 & d2 & Hmo2 & Hm2 & Hd2 & ->).
  apply ring_stack_Ok in Hs3 as (mo3 & m3 & d3 & _ & _ & _ & ->).
  apply ring_stack_Ok in Hs4 as (mo4 & m4 & d4 & _ & _ & _ & ->).
  rewrite lookup_insert_eq in Hmo1. injection Hmo1 as <-.
  rewrite lookup_insert_ne, lookup_delete_ne, lookup_insert_eq in Hmo2 by done.
  injection Hmo2 as <-.
  rewrite lookup_insert_ne in Hm2 by done.
  rewrite Hon in Hm1. rewrite Hexp in Hm2.
  cbn [for_each].
  set (X1 := Map.fill_by_coord m1 (WcsGeom.get_coord (Map.geom (obs_product om "counts"))) d1).
  set (X2 := Map.fill_by_coord m2
               (WcsGeom.get_coord (Map.geom (obs_product om "background"))) d2).
  assert (stack_product om B "counts" = Ok (<["counts" := X1]> B)) as ->.
  { apply stack_product_Ok. exists m1, X1. split; [done|].
    split; [by apply deposit_product|done]. }
  res_simpl.
  assert (stack_product om (<["counts" := X1]> B) "background" =
            Ok (<["background" := X2]> (<["counts" := X1]> B))) as ->.
  { apply stack_product_Ok. exists m2, X2. split; [by rewrite lookup_insert_ne|].
    split; [by apply deposit_product|done]. }
  res_simpl.
  eexists. split; [done|]. split.
  - by rewrite !(lookup_insert_ne _ _ "on"), !(lookup_insert_ne _ _ "counts"),
      !lookup_insert_eq by done.
  - by rewrite !(lookup_insert_ne _ _ "exposure_on"), !lookup_insert_eq by done.
Qed.

Lemma ring_loop_on (ring : MapMakerRing.t) (l : list Observation)
    (st st' : gmap string Map.t * list log_record) (B : gmap string Map.t) :
  (∀ est d r, estimator_run est d = Ok r → r !! "counts" = None ∧ r !! "background" = None) →
  for_each (MapMakerRing.run_obs ring false None false) l st = Ok st' →
  st.1 !! "on" = B !! "counts" → st.1 !! "exposure_on" = B !! "background" →
  ∃ B',
    for_each (obs_step (MapMakerRing.base ring) ["counts"; "background"])
      (filter (λ obs, ring_processes ring obs = true) l) B = Ok B' ∧
    st'.1 !! "on" = B' !! "counts" ∧ st'.1 !! "exposure_on" = B' !! "background".
Proof.
  intros Hest. revert st B. induction l as [|obs l IH]; intros st B; cbn [for_each].
  - intros [= <-] Hon Hexp. by exists B.
  - intros (st1 & H1 & Hrest)%bind_Ok Hon Hexp. rewrite filter_cons.
    destruct (MapMaker._get_obs_maker (MapMakerRing.base ring) obs strict) as [om|e] eqn:Hom.
    + rewrite decide_True by (unfold ring_processes; by rewrite Hom).
      destruct (ring_run_obs_on ring obs om st st1 B Hest Hom H1 Hon Hexp)
        as (B1 & HB1 & Hon1 & Hexp1).
      destruct (IH st1 B1 Hrest Hon1 Hexp1) as (B' & HB' & Hon' & Hexp').
      exists B'. cbn [for_each]. rewrite HB1. by res_simpl.
    + rewrite decide_False by (unfold ring_processes; by rewrite Hom).
      unfold MapMakerRing.run_obs in H1. rewrite Hom in H1.
      apply (IH st1 B Hrest); destruct e; try done; by injection H1 as <-.
Qed.

(** X14: the on map of the ring maker is the stacked counts map and its
    exposure_on map the stacked background map.  When the background
    estimator returns no entry of its own for counts and background, the
    maps on and exposure_on that [MapMakerRing.run] returns are the counts
    and background maps that [MapMaker.run] stacks, with the same
    geometry, offset and mask, from the observations the ring maker does
    not skip. *)
Theorem ring_on_is_stacked_counts (ring : MapMakerRing.t) (l : list Observation)
    (M : gmap string Map.t) (s : MapMakerRing.t) (lg : list log_record) :
  (∀ est d r, estimator_run est d = Ok r → r !! "counts" = None ∧ r !! "background" = None) →
  MapMakerRing.run ring l = Ok (M, s, lg) →
  ∃ M' s' lg',
    MapMaker.run (MapMakerRing.base ring)
      (filter (λ obs, ring_processes ring obs = true) l)
      (PyList [PyStr "counts"; PyStr "background"]) = Ok (M', s', lg') ∧
    M !! "on" = M' !! "counts" ∧ M !! "exposure_on" = M' !! "background".
Proof.
  intros Hest Hrun. unfold MapMakerRing.run in Hrun. rewrite ring_run_loop in Hrun.
  apply bind_Ok in Hrun as ([A lg0] & Hloop & [= <- <- <-]).
  rewrite (run_steps _ _ _ ["counts"; "background"]) by done.
  unfold MapMaker._get_empty_maps. rewrite get_empty_maps_reco.
  2:{ intros Hin. repeat (apply elem_of_cons in Hin as [Hin|Hin]; [discriminate|]).
      by apply elem_of_nil in Hin. }
  res_simpl. cbn [foldl].
  destruct (ring_loop_on ring l _ _
              (<["background" := Map.from_geom (MapMaker.geom (MapMakerRing.base ring)) ""]>
                 (<["counts" := Map.from_geom (MapMaker.geom (MapMakerRing.base ring)) ""]> ∅))
              Hest Hloop) as (B' & HB' & Hon & Hexp).
  { done. }
  { done. }
  rewrite HB'. res_simpl. by eexists _, _, _.
Qed.

End on_and_counts.

(** ** The properties on the small instance *)

Section instance.
#[local] Existing Instance Toy.geometry.
#[local] Existing Instance Toy.services.

(** The ring maker allocates a dimensionless map for the key exposure_on,
    not a map with the unit m2 s. *)
Lemma ring_exposure_on_unit :
  ∃ self maps m,
    MapMakerRing.__init__ (IsWcsGeom Toy.geom) (IsAngle Toy.offset_max) (Some Toy.exclusion) (Some 0) = Ok self ∧
    MapMaker._get_empty_maps (MapMakerRing.base self) MapMakerRing.selection = Ok maps ∧
    maps !! "exposure_on" = Some m ∧ Map.unit m = "" ∧ Map.unit m ≠ "m2 s".
Proof.
  eexists _, _, _. split; [reflexivity|]. split; [reflexivity|].
  split; [reflexivity|]. split; [reflexivity|]. discriminate.
Qed.

Lemma ring_output_maps_witness :
  ∃ self maps,
    MapMakerRing.__init__ (IsWcsGeom Toy.geom) (IsAngle Toy.offset_max) (Some Toy.exclusion) (Some 0) = Ok self ∧
    MapMaker.geom_true (MapMakerRing.base self) = IsWcsGeom Toy.geom ∧
    MapMaker._get_empty_maps (MapMakerRing.base self) MapMakerRing.selection = Ok maps ∧
    Map.unit <$> maps !! "exposure_off" = Some "".
Proof.
  eexists _. 
  destruct (ring_output_maps (IsWcsGeom Toy.geom) (IsAngle Toy.offset_max) (Some Toy.exclusion)
              (Some 0)
              _ eq_refl) as (Hgt & maps & Hmaps & _ & Hlookup).
  exists maps. split; [reflexivity|]. split; [exact Hgt|]. split; [exact Hmaps|].
  rewrite Hlookup. reflexivity.
Defined.

(** On the observation pointing at pixel 2, the pixel at position 4 lies
    at the maximum offset and holds no counts. *)
Lemma fov_masking_witness :
  ∃ maps self' m,
    MapMakerObs.run (MapMakerObs.__init__ Toy.obs1 Toy.geom Toy.offset_max None None) PyNone =
      Ok (maps, self') ∧
    maps !! "counts" = Some m ∧ Map.geom m = Toy.geom ∧ pixel m 0 4 = Some 0.
Proof.
  destruct (obs_run_Ok (MapMakerObs.__init__ Toy.obs1 Toy.geom Toy.offset_max None None)
              PyNone available eq_refl) as (self' & Hrun & _ & _ & _ & _ & _ & Hmaps).
  specialize (Hmaps "counts").
  rewrite bool_decide_eq_true_2 in Hmaps by apply list_elem_of_here.
  eexists _, self', _. split; [exact Hrun|]. split; [exact Hmaps|].
  refine (proj2 (fov_masking Toy.obs1 Toy.geom Toy.offset_max None None PyNone _ self'
                   "counts" _ 0 4 _ {| skycoord := 4%Z; axes_coord := [(11 # 2)%Q] |}
                   Hrun Hmaps _ _ _)).
  - reflexivity.
  - reflexivity.
  - apply Qle_bool_iff. reflexivity.
Defined.

(** The two observations inside the grid have disjoint cutouts; stacked
    they give the sums of their maps. *)
Lemma stacking_additive_witness :
  ∃ M1 s1 lg1 M2 s2 lg2 M12,
    MapMaker.run Toy.maker [Toy.obs1] PyNone = Ok (M1, s1, lg1) ∧
    MapMaker.run Toy.maker [Toy.obs2] PyNone = Ok (M2, s2, lg2) ∧
    MapMaker.run Toy.maker [Toy.obs1; Toy.obs2] PyNone =
      Ok (M12, MapMaker.set_maps Toy.maker M12, lg1 ++ lg2).
Proof.
  assert (returns (MapMaker.run Toy.maker [Toy.obs1] PyNone) = true) as Hr1
    by (vm_compute; reflexivity).
  assert (returns (MapMaker.run Toy.maker [Toy.obs2] PyNone) = true) as Hr2
    by (vm_compute; reflexivity).
  destruct (MapMaker.run Toy.maker [Toy.obs1] PyNone) as [[[M1 s1] lg1]|e] eqn:H1;
    [|discriminate Hr1].
  destruct (MapMaker.run Toy.maker [Toy.obs2] PyNone) as [[[M2 s2] lg2]|e] eqn:H2;
    [|discriminate Hr2].
  destruct (stacking_additive Toy.maker PyNone Toy.obs1 Toy.obs2 M1 M2 s1 s2 lg1 lg2 H1 H2)
    as (M12 & H12 & _).
  exists M1, s1, lg1, M2, s2, lg2, M12. split; [reflexivity|]. split; [reflexivity|]. exact H12.
Defined.

(** The observation far from the grid is skipped by both makers. *)
Lemma overlap_skip_witness :
  MapMaker._get_obs_maker Toy.maker Toy.obs_far trim = Raise NoOverlapError ∧
  without_log (MapMaker.run Toy.maker ([Toy.obs1] ++ Toy.obs_far :: [Toy.obs2]) PyNone) =
  without_log (MapMaker.run Toy.maker ([Toy.obs1] ++ [Toy.obs2]) PyNone) ∧
  MapMaker._get_obs_maker (MapMakerRing.base Toy.ring) Toy.obs_partial strict =
    Raise PartialOverlapError ∧
  without_log (MapMakerRing._run Toy.ring ([Toy.obs1] ++ Toy.obs_partial :: [Toy.obs2])
                 false None false) =
  without_log (MapMakerRing._run Toy.ring ([Toy.obs1] ++ [Toy.obs2]) false None false).
Proof.
  assert (MapMaker._get_obs_maker Toy.maker Toy.obs_far trim = Raise NoOverlapError) as Hfar
    by reflexivity.
  assert (MapMaker._get_obs_maker (MapMakerRing.base Toy.ring) Toy.obs_partial strict =
            Raise PartialOverlapError) as Hpartial by reflexivity.
  split; [exact Hfar|]. split; [|split; [exact Hpartial|]].
  - destruct (overlap_skip Toy.maker Toy.ring Toy.obs_far [Toy.obs1] [Toy.obs2] PyNone
                false None false) as (_ & Hskip & _).
    exact (proj2 (Hskip Hfar)).
  - destruct (overlap_skip Toy.maker Toy.ring Toy.obs_partial [Toy.obs1] [Toy.obs2] PyNone
                false None false) as (_ & _ & Hskip & _).
    exact (proj2 (Hskip PartialOverlapError (or_intror eq_refl) (or_intror Hpartial))).
Defined.

(** A tuple is a sequence of names, and it raises a [TypeError] even when
    it holds a name outside the set: no [ValueError] names the key. *)
Lemma tuple_selection_type_error :
  _check_selection (PyTuple [PyStr "flux"]) = Raise (TypeError "Selection must be a list of str") ∧
  ∀ fmt args, _check_selection (PyTuple [PyStr "flux"]) ≠ Raise (ValueError fmt args).
Proof. split; [reflexivity|]. intros fmt args. discriminate. Qed.

Lemma selection_validation_witness :
  _check_selection (PyList [PyStr "counts"; PyStr "flux"]) =
    Raise (ValueError "Selection not available: {!r}" [PyStr "flux"]) ∧
  MapMaker.run Toy.maker [Toy.obs1] (PyList [PyStr "counts"; PyStr "flux"]) =
    Raise (ValueError "Selection not available: {!r}" [PyStr "flux"]) ∧
  _check_selection (PyStr "counts") = Raise (TypeError "Selection must be a list of str").
Proof.
  destruct (selection_validation Toy.maker
              (MapMakerObs.__init__ Toy.obs1 Toy.geom Toy.offset_max None None) [Toy.obs1]
              (PyList [PyStr "counts"; PyStr "flux"])) as (_ & _ & Hbad & _ & Hrun).
  destruct (Hbad [PyStr "counts"; PyStr "flux"] (PyStr "flux") eq_refl) as
    (valid & name & rest & Hsplit & Hvalid & Hname & Hraise).
  { apply list_elem_of_further, list_elem_of_here. }
  { reflexivity. }
  split; [reflexivity|]. split.
  - exact (proj1 (Hrun _ eq_refl)).
  - destruct (selection_validation Toy.maker
                (MapMakerObs.__init__ Toy.obs1 Toy.geom Toy.offset_max None None) [Toy.obs1]
                (PyStr "counts")) as (_ & Htype & _).
    apply Htype; discriminate.
Defined.

(** A valid geometry with an offset that has no unit: the constructor
    raises, and not one of its two validation errors. *)
Lemma init_offset_without_unit :
  WcsGeom.is_image Toy.geom = false ∧
  MapMaker.__init__ (IsWcsGeom Toy.geom) (NotAngle (PyInt 2)) (NotWcsGeom PyNone) None =
    Raise (UnitsError "No unit was specified").
Proof. split; reflexivity. Qed.

Lemma init_validates_geometry_witness :
  (∃ self, MapMaker.__init__ (IsWcsGeom Toy.geom) (IsAngle Toy.offset_max) (NotWcsGeom PyNone)
             None = Ok self ∧
     MapMaker.geom_true self = IsWcsGeom Toy.geom) ∧
  MapMaker.__init__ (IsWcsGeom Toy.image_geom) (IsAngle Toy.offset_max) (NotWcsGeom PyNone) None =
    Raise (ValueError "MapMaker only works with geom with an energy axis" []) ∧
  (∃ self, MapMaker.__init__ (IsWcsGeom Toy.geom) (NotAngle (PyStr "2 deg")) (NotWcsGeom PyNone)
             None = Ok self ∧
     MapMaker.offset_max self = Toy.offset_max).
Proof.
  split; [|split].
  - destruct (init_validates_geometry (IsWcsGeom Toy.geom) (NotWcsGeom PyNone)
                (IsAngle Toy.offset_max) None) as (_ & _ & _ & Hok).
    destruct (Hok Toy.geom Toy.offset_max eq_refl) as (self & Hself & _ & _ & _ & _ & Hgt);
      [discriminate|reflexivity|by left|].
    exists self. split; [exact Hself|exact Hgt].
  - destruct (init_validates_geometry (IsWcsGeom Toy.image_geom) (NotWcsGeom PyNone)
                (IsAngle Toy.offset_max) None) as (_ & Himage & _).
    exact (Himage Toy.image_geom eq_refl eq_refl).
  - destruct (init_validates_geometry (IsWcsGeom Toy.geom) (NotWcsGeom PyNone)
                (NotAngle (PyStr "2 deg")) None) as (_ & _ & Hcases & _).
    destruct (Hcases Toy.geom eq_refl) as (self & Hself & _ & Hoff & _); [discriminate|].
    exists self. split; [exact Hself|exact Hoff].
Defined.

Lemma run_images_prior_state_witness :
  MapMaker.run_images Toy.maker None None false = Raise (ValueError "Requires observations..." []) ∧
  MapMaker.run_images (MapMaker.set_maps Toy.maker ∅) (Some [Toy.obs1]) None false =
    Ok (∅, MapMaker.set_maps Toy.maker ∅, []).
Proof.
  split.
  - destruct (run_images_prior_state Toy.maker None None false) as (_ & Hnone & _).
    exact (Hnone eq_refl eq_refl).
  - destruct (run_images_prior_state (MapMaker.set_maps Toy.maker ∅) (Some [Toy.obs1]) None
                false) as (_ & _ & Hprior & _).
    exact (Hprior ∅ eq_refl).
Defined.


(** A [numpy] array of two elements as true-energy geometry: the reference
    geometry passes its two checks and the constructor raises. *)
Lemma init_geom_true_ambiguous_truth :
  WcsGeom.is_image Toy.geom = false ∧
  MapMaker.__init__ (IsWcsGeom Toy.geom) (IsAngle Toy.offset_max)
    (NotWcsGeom (PyObject "numpy.ndarray" (TruthRaises (ValueError
       "The truth value of an array with more than one element is ambiguous. Use a.any() or a.all()"
       [])))) None =
    Raise (ValueError
       "The truth value of an array with more than one element is ambiguous. Use a.any() or a.all()"
       []).
Proof. split; reflexivity. Qed.

(** An image geometry as true-energy geometry is accepted and stored, and
    so is a string. *)
Lemma init_ignores_geom_true_witness :
  (∃ self,
     MapMaker.__init__ (IsWcsGeom Toy.geom) (IsAngle Toy.offset_max) (IsWcsGeom Toy.image_geom)
       None = Ok self ∧
     MapMaker.geom_true self = IsWcsGeom Toy.image_geom) ∧
  (∃ self,
     MapMaker.__init__ (IsWcsGeom Toy.geom) (IsAngle Toy.offset_max) (NotWcsGeom (PyStr "geom"))
       None = Ok self ∧
     MapMaker.geom_true self = NotWcsGeom (PyStr "geom")).
Proof.
  split.
  - destruct (init_ignores_geom_true (IsWcsGeom Toy.geom) (IsWcsGeom Toy.image_geom)
                (IsAngle Toy.offset_max) None) as (_ & Hok).
    destruct (Hok Toy.geom Toy.offset_max eq_refl) as (self & Hself & Hgt);
      [discriminate|reflexivity|].
    exists self. split; [exact Hself|exact Hgt].
  - destruct (init_ignores_geom_true (IsWcsGeom Toy.geom) (NotWcsGeom (PyStr "geom"))
                (IsAngle Toy.offset_max) None) as (_ & Hok).
    destruct (Hok Toy.geom Toy.offset_max eq_refl) as (self & Hself & Hgt);
      [discriminate|reflexivity|].
    exists self. split; [exact Hself|exact Hgt].
Defined.

(** On the observation pointing at pixel 2, the pixel at position 2 lies
    inside the field of view and holds the one event binned into it. *)
Lemma fov_interior_witness :
  ∃ maps self' m,
    MapMakerObs.run (MapMakerObs.__init__ Toy.obs1 Toy.geom Toy.offset_max None None) PyNone =
      Ok (maps, self') ∧
    maps !! "counts" = Some m ∧ pixel m 0 2 = Some 1.
Proof.
  destruct (obs_run_Ok (MapMakerObs.__init__ Toy.obs1 Toy.geom Toy.offset_max None None)
              PyNone available eq_refl) as (self' & Hrun & _ & _ & _ & _ & _ & Hmaps).
  specialize (Hmaps "counts").
  rewrite bool_decide_eq_true_2 in Hmaps by apply list_elem_of_here.
  eexists _, self', _. split; [exact Hrun|]. split; [exact Hmaps|].
  refine (fov_interior Toy.obs1 Toy.geom Toy.offset_max None None PyNone _ self'
            "counts" _ 0 2 _ {| skycoord := 2%Z; axes_coord := [(11 # 2)%Q] |}
            Hrun Hmaps _ _ _).
  - reflexivity.
  - reflexivity.
  - reflexivity.
Defined.

(** Counts first, exposure next: the second dictionary holds both. *)
Lemma obs_run_accumulates_witness :
  ∃ maps1 self1 maps2 self2,
    MapMakerObs.run (MapMakerObs.__init__ Toy.obs1 Toy.geom Toy.offset_max None None)
      (PyList [PyStr "counts"]) = Ok (maps1, self1) ∧
    MapMakerObs.run self1 (PyList [PyStr "exposure"]) = Ok (maps2, self2) ∧
    maps1 !! "exposure" = None ∧
    is_Some (maps2 !! "exposure") ∧ maps2 !! "counts" = maps1 !! "counts".
Proof.
  destruct (obs_run_accumulates
              (MapMakerObs.__init__ Toy.obs1 Toy.geom Toy.offset_max None None)
              (PyList [PyStr "counts"]) (PyList [PyStr "exposure"]) ["counts"] ["exposure"]
              eq_refl eq_refl)
    as (maps1 & self1 & maps2 & self2 & H1 & H2 & _ & _ & Hm1 & Hm2 & _).
  exists maps1, self1, maps2, self2. split; [exact H1|]. split; [exact H2|].
  split; [|split].
  - rewrite Hm1. reflexivity.
  - rewrite Hm2. eexists. reflexivity.
  - rewrite Hm2. reflexivity.
Defined.

(** The stacked exposure of one observation is a map with the unit m2 s and
    the two planes of the geometry. *)
Lemma run_keeps_frame_witness :
  ∃ M s lg m,
    MapMaker.run Toy.maker [Toy.obs1] PyNone = Ok (M, s, lg) ∧
    M !! "exposure" = Some m ∧ Map.geom m = Toy.geom ∧ Map.unit m = "m2 s" ∧
    length (Map.data m) = 2%nat.
Proof.
  assert (returns (MapMaker.run Toy.maker [Toy.obs1] PyNone) = true) as Hr
    by (vm_compute; reflexivity).
  destruct (MapMaker.run Toy.maker [Toy.obs1] PyNone) as [[[M s] lg]|e] eqn:Hrun;
    [|discriminate Hr].
  destruct (run_keeps_frame Toy.maker [Toy.obs1] PyNone M s lg Hrun)
    as (names & Hc & _ & Hframe).
  injection Hc as <-. specialize (Hframe "exposure").
  destruct (M !! "exposure") as [m|] eqn:HM.
  - destruct Hframe as (_ & Hg & Hu & Hlen & _). injection Hg as Hg.
    exists M, s, lg, m. split; [reflexivity|]. split; [exact HM|].
    split; [exact Hg|]. split; [exact Hu|]. rewrite Hlen, Hg. reflexivity.
  - exfalso. apply Hframe. apply list_elem_of_further, list_elem_of_here.
Defined.

(** Two observations, one of them off the map, followed by a third: the
    run on the three returns the logs of the two runs one after the other,
    and maps of the keys and frames of either run. *)
Lemma run_concat_witness :
  ∃ M M1 s1 lg1 M2 s2 lg2,
    MapMaker.run Toy.maker [Toy.obs1; Toy.obs_far] PyNone = Ok (M1, s1, lg1) ∧
    MapMaker.run Toy.maker [Toy.obs2] PyNone = Ok (M2, s2, lg2) ∧
    MapMaker.run Toy.maker ([Toy.obs1; Toy.obs_far] ++ [Toy.obs2]) PyNone =
      Ok (M, MapMaker.set_maps Toy.maker M, lg1 ++ lg2) ∧
    maps_frame M M1 ∧ maps_frame M M2.
Proof.
  assert (returns (MapMaker.run Toy.maker ([Toy.obs1; Toy.obs_far] ++ [Toy.obs2]) PyNone) = true)
    as Hr by (vm_compute; reflexivity).
  destruct (MapMaker.run Toy.maker ([Toy.obs1; Toy.obs_far] ++ [Toy.obs2]) PyNone)
    as [[[M s] lg]|e] eqn:Hrun; [|discriminate Hr].
  destruct (run_concat Toy.maker [Toy.obs1; Toy.obs_far] [Toy.obs2] PyNone) as [Hparts Hboth].
  destruct (Hparts M s lg Hrun) as (M1 & s1 & lg1 & M2 & s2 & lg2 & H1 & H2).
  destruct (Hboth M1 s1 lg1 M2 s2 lg2 H1 H2) as (M' & H12 & Hf1 & Hf2 & _).
  exists M', M1, s1, lg1, M2, s2, lg2.
  split; [exact H1|]. split; [exact H2|]. split; [rewrite <- Hrun; exact H12|].
  split; [exact Hf1|exact Hf2].
Defined.

(** Two observations in either order: both runs return, with the same
    log records and maps of the same keys and frames. *)
Lemma run_order_independent_witness :
  ∃ M s lg M' lg',
    MapMaker.run Toy.maker [Toy.obs1; Toy.obs2] PyNone = Ok (M, s, lg) ∧
    MapMaker.run Toy.maker [Toy.obs2; Toy.obs1] PyNone =
      Ok (M', MapMaker.set_maps Toy.maker M', lg') ∧
    lg ≡ₚ lg' ∧ maps_frame M' M.
Proof.
  assert (returns (MapMaker.run Toy.maker [Toy.obs1; Toy.obs2] PyNone) = true) as Hr
    by (vm_compute; reflexivity).
  destruct (MapMaker.run Toy.maker [Toy.obs1; Toy.obs2] PyNone) as [[[M s] lg]|e] eqn:Hrun;
    [|discriminate Hr].
  destruct (run_order_independent Toy.maker PyNone [Toy.obs1; Toy.obs2] [Toy.obs2; Toy.obs1]
              M s lg (perm_swap Toy.obs2 Toy.obs1 []) Hrun) as (M' & lg' & Hrun' & Hlg & Hf & _).
  exists M, s, lg, M', lg'.
  split; [reflexivity|]. split; [exact Hrun'|]. split; [exact Hlg|exact Hf].
Defined.

(** One observation inside the grid and one that misses it. *)
Lemma run_log_records_witness :
  ∃ M s,
    MapMaker.run Toy.maker [Toy.obs1; Toy.obs_far] PyNone =
      Ok (M, s, [LogProcessing 1; LogProcessing 4; LogSkipNoOverlap 4]).
Proof.
  assert (returns (MapMaker.run Toy.maker [Toy.obs1; Toy.obs_far] PyNone) = true) as Hr
    by (vm_compute; reflexivity).
  destruct (MapMaker.run Toy.maker [Toy.obs1; Toy.obs_far] PyNone) as [[[M s] lg]|e] eqn:Hrun;
    [|discriminate Hr].
  exists M, s.
  rewrite (run_log_records Toy.maker [Toy.obs1; Toy.obs_far] PyNone M s lg Hrun).
  reflexivity.
Defined.

(** The maker with the exclusion mask of the instance and the maker
    without a mask. *)
Lemma run_ignores_exclusion_mask_witness :
  (r ← MapMaker.run (MapMakerRing.base Toy.ring) [Toy.obs1; Toy.obs_far] PyNone;
   Ok (r.1.1, r.2)) =
  (r ← MapMaker.run Toy.maker [Toy.obs1; Toy.obs_far] PyNone; Ok (r.1.1, r.2)).
Proof.
  exact (run_ignores_exclusion_mask Toy.geom (IsWcsGeom Toy.geom) Toy.offset_max Toy.exclusion
           [Toy.obs1; Toy.obs_far] PyNone eq_refl).
Defined.

(** Images of the first observation; a later call with another observation
    returns them again. *)
Lemma stored_maps_lifecycle_witness :
  ∃ images s lg,
    MapMaker.run_images Toy.maker (Some [Toy.obs1]) None false = Ok (images, s, lg) ∧
    MapMaker.run_images s (Some [Toy.obs2]) None false = Ok (images, s, []).
Proof.
  assert (returns (MapMaker.run_images Toy.maker (Some [Toy.obs1]) None false) = true) as Hr
    by (vm_compute; reflexivity).
  destruct (MapMaker.run_images Toy.maker (Some [Toy.obs1]) None false)
    as [[[images s] lg]|e] eqn:Himg; [|discriminate Hr].
  destruct (stored_maps_lifecycle Toy.maker [Toy.obs1] None false images s lg eq_refl Himg)
    as (M & _ & _ & Hi & Hlater & _).
  exists images, s, lg. split; [reflexivity|].
  rewrite (Hlater (Some [Toy.obs2]) None false), Hi. reflexivity.
Defined.


(** A ring maker without estimator: it returns while it skips, and raises
    on the first observation inside the grid. *)
Lemma ring_requires_estimator_witness :
  let ring := {| MapMakerRing.base := MapMakerRing.base Toy.ring;
                 MapMakerRing.background_estimator := None |} in
  (∃ M s lg, MapMakerRing._run ring [Toy.obs_partial; Toy.obs_far] false None false =
               Ok (M, s, lg)) ∧
  (∃ msg, MapMakerRing._run ring ([Toy.obs_partial] ++ Toy.obs1 :: [Toy.obs2]) false None false =
            Raise (AttributeError msg)).
Proof.
  intros ring.
  assert (ring_skips ring Toy.obs_partial) as Hpartial by (right; reflexivity).
  assert (ring_skips ring Toy.obs_far) as Hfar by (left; reflexivity).
  destruct (ring_requires_estimator ring false None false eq_refl) as [Hskip Hraise].
  split.
  - destruct (Hskip [Toy.obs_partial; Toy.obs_far]) as (maps & lg & _ & Hrun).
    { constructor; [exact Hpartial|]. constructor; [exact Hfar|constructor]. }
    eexists _, _, lg. exact Hrun.
  - assert (returns (MapMaker._get_obs_maker (MapMakerRing.base ring) Toy.obs1 strict) = true)
      as Hr by (vm_compute; reflexivity).
    destruct (MapMaker._get_obs_maker (MapMakerRing.base ring) Toy.obs1 strict) as [om|e] eqn:Hom;
      [|discriminate Hr].
    apply (Hraise [Toy.obs_partial] Toy.obs1 [Toy.obs2] om).
    + constructor; [exact Hpartial|constructor].
    + exact Hom.
Defined.

(** A ring maker without exclusion mask asked for images. *)
Lemma ring_images_require_exclusion_mask_witness :
  ∃ msg,
    MapMakerRing.run_images
      {| MapMakerRing.base := Toy.maker; MapMakerRing.background_estimator := Some 0 |}
      ([Toy.obs_far] ++ Toy.obs1 :: [Toy.obs2]) None false = Raise (AttributeError msg).
Proof.
  set (ring := {| MapMakerRing.base := Toy.maker; MapMakerRing.background_estimator := Some 0 |}).
  assert (returns (MapMaker._get_obs_maker (MapMakerRing.base ring) Toy.obs1 strict) = true)
    as Hr by (vm_compute; reflexivity).
  destruct (MapMaker._get_obs_maker (MapMakerRing.base ring) Toy.obs1 strict) as [om|e] eqn:Hom;
    [|discriminate Hr].
  apply (ring_images_require_exclusion_mask ring [Toy.obs_far] [Toy.obs2] Toy.obs1 om None false).
  - reflexivity.
  - constructor; [left; reflexivity|constructor].
  - exact Hom.
Defined.

(** The on image of the ring maker of the instance. *)
Lemma ring_run_frame_witness :
  ∃ M s lg m,
    MapMakerRing._run Toy.ring [Toy.obs1; Toy.obs2] true None false = Ok (M, s, lg) ∧
    M !! "on" = Some m ∧ Map.geom m = Toy.image_geom ∧ Map.unit m = "" ∧
    length (Map.data m) = 1%nat.
Proof.
  assert (returns (MapMakerRing._run Toy.ring [Toy.obs1; Toy.obs2] true None false) = true)
    as Hr by (vm_compute; reflexivity).
  destruct (MapMakerRing._run Toy.ring [Toy.obs1; Toy.obs2] true None false)
    as [[[M s] lg]|e] eqn:Hrun; [|discriminate Hr].
  destruct (ring_run_frame Toy.ring [Toy.obs1; Toy.obs2] true None false M s lg Hrun)
    as [_ Hframe].
  specialize (Hframe "on").
  destruct (M !! "on") as [m|] eqn:HM.
  - destruct Hframe as (_ & Hu & Hg & Hlen & _).
    exists M, s, lg, m. split; [reflexivity|]. split; [exact HM|].
    split; [exact Hg|]. split; [exact Hu|exact Hlen].
  - exfalso. apply Hframe. apply list_elem_of_here.
Defined.

(** One observation overlapping in part, one inside, one far away. *)
Lemma ring_log_records_witness :
  ∃ M s,
    MapMakerRing._run Toy.ring [Toy.obs_partial; Toy.obs1; Toy.obs_far] false None false =
      Ok (M, s, [LogSkipPartialOverlap 3; LogSkipNoOverlap 4]).
Proof.
  assert (returns (MapMakerRing._run Toy.ring [Toy.obs_partial; Toy.obs1; Toy.obs_far]
                     false None false) = true) as Hr by (vm_compute; reflexivity).
  destruct (MapMakerRing._run Toy.ring [Toy.obs_partial; Toy.obs1; Toy.obs_far] false None false)
    as [[[M s] lg]|e] eqn:Hrun; [|discriminate Hr].
  exists M, s.
  rewrite (ring_log_records Toy.ring [Toy.obs_partial; Toy.obs1; Toy.obs_far] false None false
             M s lg Hrun).
  reflexivity.
Defined.

(** The estimator of the instance returns the off maps only. *)
Lemma ring_on_is_stacked_counts_witness :
  ∃ M s lg M' s' lg',
    MapMakerRing.run Toy.ring [Toy.obs_partial; Toy.obs1; Toy.obs2] = Ok (M, s, lg) ∧
    MapMaker.run (MapMakerRing.base Toy.ring) [Toy.obs1; Toy.obs2]
      (PyList [PyStr "counts"; PyStr "background"]) = Ok (M', s', lg') ∧
    M !! "on" = M' !! "counts" ∧ M !! "exposure_on" = M' !! "background".
Proof.
  assert (returns (MapMakerRing.run Toy.ring [Toy.obs_partial; Toy.obs1; Toy.obs2]) = true)
    as Hr by (vm_compute; reflexivity).
  destruct (MapMakerRing.run Toy.ring [Toy.obs_partial; Toy.obs1; Toy.obs2])
    as [[[M s] lg]|e] eqn:Hrun; [|discriminate Hr].
  destruct (ring_on_is_stacked_counts Toy.ring [Toy.obs_partial; Toy.obs1; Toy.obs2] M s lg)
    as (M' & s' & lg' & Hrun' & Hon & Hexp).
  - intros est d r Hest. unfold estimator_run in Hest. simpl in Hest. unfold Toy.estimate in Hest.
    apply bind_Ok in Hest as (c & _ & Hest). apply bind_Ok in Hest as (b & _ & [= <-]).
    split; reflexivity.
  - exact Hrun.
  - exists M, s, lg, M', s', lg'. split; [reflexivity|]. split; [exact Hrun'|].
    split; [exact Hon|exact Hexp].
Defined.

(** The observation far from the grid leaves the counts map zero-filled. *)
Lemma run_without_overlap_witness :
  ∃ M,
    MapMaker.run Toy.maker [Toy.obs_far] (PyList [PyStr "counts"]) =
      Ok (M, MapMaker.set_maps Toy.maker M, [LogProcessing 4; LogSkipNoOverlap 4]) ∧
    M !! "counts" = Some (Map.from_geom Toy.geom "") ∧ M !! "exposure" = None.
Proof.
  destruct (run_without_overlap Toy.maker Toy.geom [Toy.obs_far] ["counts"] eq_refl)
    as (M & Hrun & HM).
  - intros n ->%list_elem_of_singleton. apply list_elem_of_here.
  - constructor; [reflexivity|constructor].
  - exists M. split; [exact Hrun|]. split; rewrite HM; reflexivity.
Defined.

End instance.
